(** * Mini-Arima: model orchestration and availability engine

    A shallow embedding of the health registry ([app/services/system_service.py]),
    the quota ledger ([app/database.py], [app/services/user_service.py]), the
    ensemble orchestrator ([app/services/ai_service.py]) and the two message
    handlers of [app/handlers/chat.py], together with the properties the
    specification states about them; then the flood guard
    ([app/middlewares.py]), the other writes to the store, the user cache,
    the admin actions, the settings, the menus and callbacks of the chat and
    the group triggers ([app/handlers/group.py]), with properties read off
    the code.

    Conventions.
    - Wall-clock instants ([datetime.now(timezone.utc)]) are integers counting
      microseconds since the epoch, which is the resolution of [datetime].
    - The timer of a [TTLCache] ([time.monotonic]) is an integer counting
      seconds; [ttl] is in the same unit.
    - Every function that reads a clock takes the reading as an argument.
    - Exceptions are the instances of Python's [Exception]; task cancellation
      and interpreter exit ([BaseException] only) are outside the model. *)

From stdpp Require Import gmap strings list fin_maps pretty sorting.
From Stdlib Require Import ZArith Lia.

Set Default Proof Using "Type".
Set Warnings "-clear-no-such-hyp".
Local Open Scope string_scope.
Local Open Scope list_scope.
Local Open Scope Z_scope.

(** ** cachetools.TTLCache *)

(** [GLOBAL_CACHE] ([bot.py]) stores the registry in a
    [cachetools.TTLCache(maxsize, ttl)].  The cache is a mutable mapping that
    holds at most [maxsize] items; an item is live for [ttl] timer units after
    it was last set; setting a new key in a full cache pops the items that
    were used longest ago.  [links] keeps the items in the order of their last
    [__setitem__], oldest first, each with the instant it expires.  In
    cachetools a read is a use as well ([__getitem__] moves the key to the
    end of the order [popitem] follows); a read returns no new cache here,
    so the two orders part only when a full cache has been read since its
    items were set.  The registry cache has two keys, so there is never a
    choice of which item to pop. *)
Module TTL.
Section ttl_cache.
Context {K I : Type} `{EqDecision K} (key_of : I → K).

Record t := mk { maxsize : positive; ttl : Z; links : list (I * Z) }.

(** [TTLCache.expire(time)]: drop every item with [not (time < expires)]. *)
Definition expire (now : Z) (ls : list (I * Z)) : list (I * Z) :=
  filter (λ l, now < l.2) ls.

(** The live link of [key], if any. *)
Definition get_link (c : t) (k : K) (now : Z) : option (I * Z) :=
  head (filter (λ l, key_of l.1 = k) (expire now (links c))).

(** [cache.get(key)]: the live item stored under [key], if any. *)
Definition get (c : t) (k : K) (now : Z) : option I :=
  fst <$> get_link c k now.

(** [Cache.__setitem__]'s loop [while currsize + 1 > maxsize: popitem()],
    where [popitem] removes the first item of the order. *)
Fixpoint popitems (cap : nat) (ls : list (I * Z)) : list (I * Z) :=
  match ls with
  | [] => []
  | _ :: rest =>
      if decide (cap < length ls + 1)%nat then popitems cap rest else ls
  end.

(** [cache[key] = value] at timer reading [now]: expired items are purged,
    an existing key is overwritten in place of its old item, a new key
    first makes room; the item then becomes the most recent one and
    expires at [now + ttl]. *)
Definition setitem (c : t) (i : I) (now : Z) : t :=
  let alive := expire now (links c) in
  let kept :=
    if bool_decide (Exists (λ l, key_of l.1 = key_of i) alive)
    then filter (λ l, key_of l.1 ≠ key_of i) alive
    else popitems (Pos.to_nat (maxsize c)) alive in
  mk (maxsize c) (ttl c) (kept ++ [(i, now + ttl c)]).

(** The size invariant of a cache: no more than [maxsize] items. *)
Definition wf (c : t) : Prop :=
  (length (links c) ≤ Pos.to_nat (maxsize c))%nat.
End ttl_cache.
Arguments t : clear implicits.
End TTL.

(** ** app/config.py *)

Definition MAX_MODE_PARTICIPANTS : list string :=
  ["grok-3"; "gpt-4.1"; "deepseek-chat-v3-0324"; "gpt-4.5-preview";
   "chatgpt-4o-latest"; "claude-3.7-sonnet"].
Definition MAX_MODE_ARBITER : string := "deepseek-r1-0528".

Definition MODEL_CATEGORIES : list (string * list string) :=
  [("OpenAI", ["gpt-4.5-preview"; "gpt-4.1"; "o4-mini"; "chatgpt-4o-latest"]);
   ("DeepSeek", ["deepseek-chat-v3-0324"; "deepseek-r1-0528"]);
   ("Meta", ["llama-3.1-nemotron-ultra-253b-v1"]);
   ("Alibaba", ["qwen3-235b-a22b"]);
   ("Microsoft", ["phi-4-reasoning-plus"]);
   ("xAI", ["grok-3"; "grok-3-mini"]);
   ("Anthropic", ["claude-3.7-sonnet"])].
Definition IMAGE_MODELS : list string := ["gpt-image-1"; "flux-1.1-pro"].

Definition GLOBAL_SYSTEM_PROMPT : string :=
  "Ты - MiniArima, продвинутый GenAI ассистент.".

(** A daily limit is an [int] of the tier table or [float('inf')]. *)
Inductive limit := Finite (n : Z) | Unlimited.

(** [requests_today >= daily_limit] *)
Definition reached (requests_today : Z) (l : limit) : bool :=
  match l with
  | Finite n => bool_decide (n ≤ requests_today)
  | Unlimited => false
  end.

(** [LIMITS.get(level, {"daily": 0, "max_mode": 0})] *)
Definition LIMITS (level : Z) : Z * Z :=
  if bool_decide (level = 0) then (3, 0)
  else if bool_decide (level = 1) then (40, 0)
  else if bool_decide (level = 2) then (100, 0)
  else if bool_decide (level = 3) then (100, 5)
  else (0, 0).
Definition REWARD_LIMIT : Z := 7.

(** [MSK_TZ = timezone(timedelta(hours=3))]; [datetime.now(MSK_TZ).date()] as
    the number of the calendar day. *)
Definition usec_per_hour : Z := 3600 * 1000000.
Definition usec_per_day : Z := 24 * usec_per_hour.
Definition msk_date (now_utc : Z) : Z := (now_utc + 3 * usec_per_hour) `div` usec_per_day.

(** ** Library functions

    The program calls a few functions of Python's standard library and of
    aiogram whose results it only stores, compares or passes on.  They are
    parameters of the development. *)

(** A parsed [datetime]: its instant and whether it carries a time zone. *)
Record datetime := { instant : Z; aware : bool }.

Class PyLib := {
  (** [datetime.fromisoformat]; [None] is [ValueError]. *)
  fromisoformat : string → option datetime;
  (** [dt.isoformat()] of an aware UTC datetime. *)
  isoformat : Z → string;
  (** the text sqlite3 stores for an aware UTC datetime bound to a query. *)
  adapt_datetime : Z → string;
  (** [json.dumps] of a status dictionary and [json.loads]; [None] is
      [json.JSONDecodeError]. *)
  json_dumps : gmap string string → string;
  json_loads : string → option (gmap string string);
  (** [aiogram.utils.markdown.hcode]. *)
  hcode : string → string;
  (** [datetime.now(MSK_TZ).strftime('%d.%m.%Y %H:%M:%S МСК')]. *)
  strftime_msk : Z → string;
}.

(** ** The process-wide cache ([bot.py]) *)

(** The registry cache holds a status dictionary under ["statuses"] and the
    text of the last report under ["last_report"]. *)
Inductive ms_item :=
  | Statuses (d : gmap string string)
  | LastReport (text : string).

Definition ms_key (i : ms_item) : string :=
  match i with Statuses _ => "statuses" | LastReport _ => "last_report" end.

(** A row of [users], with the columns [get_user] and [get_user_details]
    read.  [user_temperature] is in thousandths. *)
Record user_row := {
  username : option string;
  subscription_level : Z;
  subscription_end : option string;
  is_blocked : bool;
  last_used_model : option string;
  is_verified : bool;
  has_rewarded_bonus : bool;
  last_used_image_model : option string;
  user_instruction : option string;
  user_temperature : option Z;
}.

(** [cache: Dict]: the keys ["model_status"] and ["user_details"], each
    absent or bound to its [TTLCache]. *)
Record Cache := {
  model_status : option (TTL.t ms_item);
  user_details : option (TTL.t (Z * user_row));
}.

(** [GLOBAL_CACHE] as [bot.py] creates it. *)
Definition GLOBAL_CACHE : Cache :=
  {| model_status := Some (TTL.mk 1 600 []);
     user_details := Some (TTL.mk 1000 300 []) |}.

(** [model_status_cache.get("statuses", {})] *)
Definition get_statuses (model_status_cache : TTL.t ms_item) (now : Z)
  : gmap string string :=
  match TTL.get ms_key model_status_cache "statuses" now with
  | Some (Statuses d) => d
  | _ => ∅
  end.

(** [model_status_cache.get("last_report")] *)
Definition get_last_report (model_status_cache : TTL.t ms_item) (now : Z)
  : option string :=
  match TTL.get ms_key model_status_cache "last_report" now with
  | Some (LastReport text) => Some text
  | _ => None
  end.

(** ** app/services/system_service.py: the health registry *)

Definition is_model_available (model_name : string) (cache : Cache) (now : Z)
  : bool :=
  match model_status cache with
  | None => true
  | Some model_status_cache =>
      let statuses := get_statuses model_status_cache now in
      bool_decide (default "OK" (statuses !! model_name) = "OK")
  end.

Definition are_max_mode_models_available (cache : Cache) (now : Z) : bool :=
  forallb (λ model, is_model_available model cache now)
          (MAX_MODE_PARTICIPANTS ++ [MAX_MODE_ARBITER]).

Definition set_model_failed_in_cache (model_name : string) (cache : Cache)
    (now : Z) : Cache :=
  match model_status cache with
  | Some model_status_cache =>
      let statuses := get_statuses model_status_cache now in
      if bool_decide (statuses !! model_name ≠ Some "FAILED") then
        let statuses := <[model_name := "FAILED"]> statuses in
        {| model_status :=
             Some (TTL.setitem ms_key model_status_cache (Statuses statuses) now);
           user_details := user_details cache |}
      else cache
  | None => cache
  end.

(** A sequence of [set_model_failed_in_cache] calls, each with the model and
    the timer reading of the call. *)
Definition mark_all (ops : list (string * Z)) (cache : Cache) : Cache :=
  foldl (λ cache op, set_model_failed_in_cache op.1 cache op.2) cache ops.

(** ** app/database.py *)

(** A row of [requests]; [request_date] is the MSK calendar day. *)
Record request_row := {
  req_user_id : Z;
  req_model : string;
  request_date : Z;
  is_max_mode : bool;
}.

(** The three tables; a row of [system_state] is [(value, updated_at)]. *)
Record Database := {
  users : gmap Z user_row;
  requests : list request_row;
  system_state : gmap string (string * string);
}.

Section database.
Context `{PyLib}.

Definition get_system_state (db : Database) (key : string)
  : option (string * string) :=
  system_state db !! key.

Definition set_system_state (db : Database) (key value : string)
    (now_utc : Z) : Database :=
  {| users := users db;
     requests := requests db;
     system_state := <[key := (value, adapt_datetime now_utc)]> (system_state db) |}.

Definition get_user (db : Database) (user_id : Z) : option user_row :=
  users db !! user_id.

Definition get_user_details (db : Database) (user_id : Z) : option user_row :=
  users db !! user_id.

Definition update_subscription (db : Database) (user_id level days now_utc : Z)
  : Database :=
  let end_date :=
    if bool_decide (level = 0) then now_utc else now_utc + days * usec_per_day in
  let set_row (u : user_row) :=
    {| username := username u;
       subscription_level := level;
       subscription_end := Some (isoformat end_date);
       is_blocked := is_blocked u;
       last_used_model := last_used_model u;
       is_verified := is_verified u;
       has_rewarded_bonus := has_rewarded_bonus u;
       last_used_image_model := last_used_image_model u;
       user_instruction := user_instruction u;
       user_temperature := user_temperature u |} in
  {| users := alter set_row user_id (users db);
     requests := requests db;
     system_state := system_state db |}.

(** [SELECT COUNT( * ) FROM requests WHERE user_id = ? AND request_date = ?
    AND is_max_mode = ?] with [today = datetime.now(MSK_TZ).date()]. *)
Definition get_user_requests_today (db : Database) (user_id : Z)
    (max_mode : bool) (now_utc : Z) : Z :=
  let today := msk_date now_utc in
  Z.of_nat (length (filter
    (λ r, req_user_id r = user_id ∧ request_date r = today ∧ is_max_mode r = max_mode)
    (requests db))).

Definition add_request (db : Database) (user_id : Z) (model : string)
    (max_mode : bool) (now_utc : Z) : Database :=
  let today := msk_date now_utc in
  {| users := users db;
     requests := requests db ++
       [{| req_user_id := user_id; req_model := model;
           request_date := today; is_max_mode := max_mode |}];
     system_state := system_state db |}.
End database.

(** ** The backend model provider *)

Record message := { role : string; content : string }.

(** The classes the program's [except] clauses tell apart. *)
Inductive exn_class := APIError | AsyncioTimeoutError | RuntimeError | OtherException.

Record exn := {
  exn_is : exn_class;
  type_name : string;      (* type(e).__name__ *)
  status_code : option Z;  (* e.status_code; None: no such attribute *)
  exn_text : string;       (* str(e) *)
}.

#[global] Instance exn_class_eq_dec : EqDecision exn_class.
Proof. solve_decision. Defined.

(** The value a call returns, or the exception it raises. *)
Inductive result (A : Type) := Ok (a : A) | Raise (e : exn).
Arguments Ok {A} a.
Arguments Raise {A} e.

(** [AttributeError]: an object of type [type] has no attribute [name]. *)
Definition attribute_error (type name : string) : exn :=
  {| exn_is := OtherException; type_name := "AttributeError";
     status_code := None;
     exn_text := "'" +:+ type +:+ "' object has no attribute '" +:+ name +:+ "'" |}.

(** What [ai_client.chat.completions.create] does with a request: it returns a
    response whose first choice has text content ([Some]) or has none, or no
    choice at all ([None]), or it raises. *)
Inductive outcome := Returned (content : option string) | Raised (e : exn).

Record request := {
  rq_model : string;
  rq_messages : list message;
  rq_temperature : Z;          (* thousandths *)
  rq_max_tokens : option Z;
  rq_timeout : Z;              (* seconds *)
}.

(** The client: what the provider answers, and the requests sent so far. *)
Record AsyncOpenAI := {
  create : request → outcome;
  calls : list request;
}.

Definition chat_completions_create (ai_client : AsyncOpenAI) (rq : request)
  : outcome * AsyncOpenAI :=
  (create ai_client rq,
   {| create := create ai_client; calls := calls ai_client ++ [rq] |}).

(** What the image endpoint does with a POST: an HTTP status, a timeout or
    another exception (its type name). *)
Inductive image_outcome := HttpStatus (status : Z) | ImageTimeout | ImageRaised (name : string).

Definition DEFAULT_TEMPERATURE : Z := 700.
(** The line feed. *)
Definition nl : string :=
  String (Ascii.Ascii false true false true false false false false) EmptyString.

(** ** app/services/system_service.py: the health prober *)

Section system_service.
Context `{PyLib}.

(** The request of a chat probe. *)
Definition test_request (model : string) : request :=
  {| rq_model := model;
     rq_messages := [{| role := "user"; content := "Test" |}];
     rq_temperature := 700; rq_max_tokens := Some 10; rq_timeout := 20 |}.

(** A probe result [{'model': ..., 'status': ...}].  The handler of
    [APIError] reads [e.status_code]: for an [APIError] that has no such
    attribute ([APIConnectionError], [APITimeoutError]) the handler itself
    raises [AttributeError], which leaves the function. *)
Definition test_chat_model (ai_client : AsyncOpenAI) (model : string)
  : result (string * string) * AsyncOpenAI :=
  let '(res, ai_client) := chat_completions_create ai_client (test_request model) in
  (match res with
   | Returned _ => Ok (model, "OK")
   | Raised e =>
       match exn_is e with
       | APIError =>
           match status_code e with
           | Some status => Ok (model, "API Error " +:+ pretty status)
           | None => Raise (attribute_error (type_name e) "status_code")
           end
       | AsyncioTimeoutError => Ok (model, "Timeout")
       | _ => Ok (model, "Error: " +:+ type_name e)
       end
   end, ai_client).

Definition test_image_model (post : string → image_outcome) (model : string)
  : string * string :=
  match post model with
  | HttpStatus status =>
      if bool_decide (status = 200) then (model, "OK")
      else (model, "Error " +:+ pretty status)
  | ImageTimeout => (model, "Timeout")
  | ImageRaised name => (model, "Error: " +:+ name)
  end.

(** The tasks [test_chat_model(ai_client, m) for m in ...] once [gather] has
    started them: every probe sends its request; what each task returns or
    raises, in task order. *)
Fixpoint gather_chat_tests (ai_client : AsyncOpenAI) (models : list string)
  : list (result (string * string)) * AsyncOpenAI :=
  match models with
  | [] => ([], ai_client)
  | m :: rest =>
      let '(r, ai_client) := test_chat_model ai_client m in
      let '(rs, ai_client) := gather_chat_tests ai_client rest in
      (r :: rs, ai_client)
  end.

(** [await asyncio.gather] of the tasks, without [return_exceptions]: the list of
    the results in task order when every task returned; otherwise the
    exception of a task that raised leaves [gather] (of several, the one
    raised first in time; the first in task order stands for it). *)
Fixpoint gather {A} (tasks : list (result A)) : result (list A) :=
  match tasks with
  | [] => Ok []
  | Raise e :: _ => Raise e
  | Ok a :: rest =>
      match gather rest with
      | Ok results => Ok (a :: results)
      | Raise e => Raise e
      end
  end.

(** [list(set(...))]: the distinct models (Python leaves their order open;
    nothing below depends on it). *)
Definition all_text_models : list string :=
  remove_dups (concat (snd <$> MODEL_CATEGORIES)).
Definition all_image_models : list string := remove_dups IMAGE_MODELS.

(** [{r['model']: r['status'] for r in results}] *)
Definition statuses_of_results (results : list (string * string))
  : gmap string string :=
  foldl (λ d r, <[r.1 := r.2]> d) ∅ results.

Definition report_of (results : list (string * string)) (now_utc : Z) : string :=
  let working_models :=
    merge_sort (λ a b, String.leb a b)
      (fst <$> filter (λ r, r.2 = "OK") results) in
  let failed_models :=
    merge_sort (λ a b, String.leb a.1 b.1)
      (filter (λ r, r.2 ≠ "OK") results) in
  let timestamp := strftime_msk now_utc in
  let report_text :=
    "<b>Отчёт о состоянии моделей от " +:+ timestamp +:+ "</b>" +:+ nl +:+ nl in
  let report_text :=
    if bool_decide (working_models ≠ []) then
      report_text +:+ "<b>✅ Рабочие модели (" +:+
        pretty (length working_models) +:+ "):</b>" +:+ nl +:+
        String.concat nl ((λ m, "  •  " +:+ hcode m) <$> working_models)
    else report_text in
  if bool_decide (failed_models ≠ []) then
    report_text +:+ nl +:+ nl +:+ "<b>❌ Нерабочие модели (" +:+
      pretty (length failed_models) +:+ "):</b>" +:+ nl +:+
      String.concat nl
        ((λ r, "  •  " +:+ hcode r.1 +:+ " - " +:+ r.2) <$> failed_models)
  else report_text.

(** [applyProbeResults]: the bulk write at the end of a probe round, first
    into the registry cache, then into the store. *)
Definition apply_results (results : list (string * string)) (db : Database)
    (cache : Cache) (now now_utc : Z) : Database * Cache :=
  let current_statuses := statuses_of_results results in
  let report_text := report_of results now_utc in
  let cache :=
    match model_status cache with
    | Some model_status_cache =>
        let model_status_cache :=
          TTL.setitem ms_key model_status_cache (Statuses current_statuses) now in
        let model_status_cache :=
          TTL.setitem ms_key model_status_cache (LastReport report_text) now in
        {| model_status := Some model_status_cache;
           user_details := user_details cache |}
    | None => cache
    end in
  let db := set_system_state db "model_status" (json_dumps current_statuses) now_utc in
  let db := set_system_state db "last_report" report_text now_utc in
  (db, cache).

(** One probe round.  [now] and [now_utc] are the timer and the wall clock
    when the results are written.  When a probe raises, the exception leaves
    the round at [gather], before anything is written. *)
Definition scheduled_model_test (ai_client : AsyncOpenAI)
    (post : string → image_outcome) (db : Database) (cache : Cache)
    (now now_utc : Z) : result unit * AsyncOpenAI * Database * Cache :=
  let '(tasks, ai_client) := gather_chat_tests ai_client all_text_models in
  let tasks :=
    (tasks ++ ((λ m, Ok (test_image_model post m)) <$> all_image_models))%list in
  match gather tasks with
  | Ok results =>
      let '(db, cache) := apply_results results db cache now now_utc in
      (Ok (), ai_client, db, cache)
  | Raise e => (Raise e, ai_client, db, cache)
  end.

(** [timedelta(minutes=10)] *)
Definition ten_minutes : Z := 10 * 60 * 1000000.

(** The [try] block of [startup_model_check]: [Some cache] when the function
    returns from inside it, [None] when control reaches the full check
    (the age test fails, or [ValueError], [TypeError] or
    [json.JSONDecodeError] is caught). *)
Definition load_recent_status (status_state report_state : string * string)
    (cache : Cache) (now now_utc : Z) : option Cache :=
  let '(status_json, status_timestamp_str) := status_state in
  match fromisoformat status_timestamp_str with
  | None => None                                   (* ValueError *)
  | Some status_timestamp =>
      if negb (aware status_timestamp) then None   (* TypeError *)
      else if bool_decide (now_utc - instant status_timestamp < ten_minutes) then
        match model_status cache with
        | Some model_status_cache =>
            match json_loads status_json with
            | None => None                         (* JSONDecodeError *)
            | Some statuses =>
                let model_status_cache :=
                  TTL.setitem ms_key model_status_cache (Statuses statuses) now in
                let model_status_cache :=
                  TTL.setitem ms_key model_status_cache
                    (LastReport report_state.1) now in
                Some {| model_status := Some model_status_cache;
                        user_details := user_details cache |}
            end
        | None => Some cache
        end
      else None
  end.

Definition startup_model_check (ai_client : AsyncOpenAI)
    (post : string → image_outcome) (db : Database) (cache : Cache)
    (now now_utc : Z) : result unit * AsyncOpenAI * Database * Cache :=
  let status_state := get_system_state db "model_status" in
  let report_state := get_system_state db "last_report" in
  let recent :=
    match status_state, report_state with
    | Some status_state, Some report_state =>
        load_recent_status status_state report_state cache now now_utc
    | _, _ => None
    end in
  match recent with
  | Some cache => (Ok (), ai_client, db, cache)
  | None => scheduled_model_test ai_client post db cache now now_utc
  end.
End system_service.

(** ** app/services/user_service.py *)

(** Python truthiness of a nullable text column. *)
Definition truthy (s : option string) : bool :=
  match s with Some s => bool_decide (s ≠ "") | None => false end.

Section user_service.
Context `{PyLib} (ADMIN_IDS : list Z).

Definition get_user_details_cached (user_id : Z) (db : Database)
    (cache : Cache) (now : Z) : option user_row * Cache :=
  match user_details cache with
  | Some user_cache =>
      match TTL.get fst user_cache user_id now with
      | Some cached => (Some cached.2, cache)
      | None =>
          match get_user_details db user_id with
          | Some details =>
              (Some details,
               {| model_status := model_status cache;
                  user_details :=
                    Some (TTL.setitem fst user_cache (user_id, details) now) |})
          | None => (None, cache)
          end
      end
  | None => (get_user_details db user_id, cache)
  end.

Definition get_user_level (user_id : Z) (db : Database) (now_utc : Z)
  : Z * Database :=
  if bool_decide (user_id ∈ ADMIN_IDS) then (3, db)
  else
    match get_user db user_id with
    | None => (0, db)
    | Some user =>
        let level := subscription_level user in
        let end_date_str := subscription_end user in
        if truthy end_date_str && bool_decide (0 < level) then
          match fromisoformat (default "" end_date_str) with
          | Some end_date =>
              if negb (aware end_date) then (level, db)       (* TypeError *)
              else if bool_decide (instant end_date < now_utc) then
                (0, update_subscription db user_id 0 30 now_utc)
              else (level, db)
          | None => (level, db)                               (* ValueError *)
          end
        else (level, db)
    end.

(** The pair [(daily limit, Max Mode limit)]. *)
Definition get_user_limits (user_id : Z) (db : Database) (now_utc : Z)
  : (limit * limit) * Database :=
  let '(level, db) := get_user_level user_id db now_utc in
  if bool_decide (user_id ∈ ADMIN_IDS) then ((Unlimited, Unlimited), db)
  else
    let bonus :=
      if bool_decide (level = 0) then
        match get_user_details db user_id with
        | Some details => has_rewarded_bonus details
        | None => false
        end
      else false in
    if bonus then ((Finite REWARD_LIMIT, Finite 0), db)
    else
      let plan_limits := LIMITS level in
      ((Finite plan_limits.1, Finite plan_limits.2), db).
End user_service.

(** ** app/services/ai_service.py *)

Definition runtime_error (text : string) : exn :=
  {| exn_is := RuntimeError; type_name := "RuntimeError"; status_code := None;
     exn_text := text |}.

Definition ERROR_MARK : string := "ОШИБКА:".

Section ai_service.
Context `{PyLib}.

(** The request [get_simple_response] builds from the user's details: the
    global system prompt, the user's instruction if there is one, then the
    messages; the user's temperature or the default one. *)
Definition final_request (model : string) (messages : list message)
    (user_details : option user_row) : request :=
  let user_instruction :=
    match user_details with
    | Some d => if truthy (user_instruction d) then user_instruction d else None
    | None => None
    end in
  let user_temperature :=
    match user_details with
    | Some d => default DEFAULT_TEMPERATURE (user_temperature d)
    | None => DEFAULT_TEMPERATURE
    end in
  let final_messages := [{| role := "system"; content := GLOBAL_SYSTEM_PROMPT |}] in
  let final_messages :=
    match user_instruction with
    | Some instruction =>
        final_messages ++
          [{| role := "system";
              content := "Дополнительная инструкция от пользователя: " +:+ instruction |}]
    | None => final_messages
    end in
  let final_messages := final_messages ++ messages in
  {| rq_model := model; rq_messages := final_messages;
     rq_temperature := user_temperature; rq_max_tokens := None;
     rq_timeout := 120 |}.

(** The text of the answer; elapsed times are not modelled. *)
Definition get_simple_response (ai_client : AsyncOpenAI) (model : string)
    (messages : list message) (user_id : Z) (db : Database) (cache : Cache)
    (now : Z) : result string * AsyncOpenAI * Cache :=
  let '(user_details, cache) := get_user_details_cached user_id db cache now in
  let '(response, ai_client) :=
    chat_completions_create ai_client (final_request model messages user_details) in
  match response with
  | Returned None => (Ok "", ai_client, cache)
  | Returned (Some response_text) => (Ok response_text, ai_client, cache)
  | Raised e => (Raise e, ai_client, cache)
  end.

(** The pair [(model, response)]; the response is what
    [get_simple_response] returned, or the text that stands for a failure. *)
Definition _get_participant_response (ai_client : AsyncOpenAI)
    (model prompt : string) (user_id : Z) (db : Database) (cache : Cache)
    (now : Z) : (string * option string) * AsyncOpenAI * Cache :=
  let '(res, ai_client, cache) :=
    get_simple_response ai_client model
      [{| role := "user"; content := prompt |}] user_id db cache now in
  match res with
  | Ok response => ((model, Some response), ai_client, cache)
  | Raise e =>
      ((model, Some ("ОШИБКА: Модель не смогла обработать запрос. (" +:+
                      type_name e +:+ ")")), ai_client, cache)
  end.

(** [asyncio.gather] over the participants: the results in task order.
    The six tasks run concurrently, and a task whose user is not in the user
    cache awaits the store before it sends its request, so the order in
    which the six requests are sent is open.  [calls] lists them in task
    order; the properties of the ensemble take them up to permutation.  The
    tasks read the same row of the store and write the same cache item, so
    their results and the cache they leave do not depend on that order. *)
Fixpoint gather_participants (ai_client : AsyncOpenAI) (models : list string)
    (prompt : string) (user_id : Z) (db : Database) (cache : Cache) (now : Z)
  : list (string * option string) * AsyncOpenAI * Cache :=
  match models with
  | [] => ([], ai_client, cache)
  | model_name :: rest =>
      let '(r, ai_client, cache) :=
        _get_participant_response ai_client model_name prompt user_id db cache now in
      let '(rs, ai_client, cache) :=
        gather_participants ai_client rest prompt user_id db cache now in
      (r :: rs, ai_client, cache)
  end.

Definition meta_prompt_head (prompt : string) : list string :=
  ["Ты — главный AI-арбитр. Твоя задача — проанализировать ответы от нескольких моделей и создать один, наилучший итоговый ответ.";
   "Действуй строго по шагам:";
   nl +:+ "**ШАГ 1: Определи правильный ответ.**";
   "Внимательно изучи оригинальный запрос пользователя и все предоставленные ответы. Вычисли или определи единственно верный и точный ответ.";
   nl +:+ "**ШАГ 2: Сформируй финальный ответ.**";
   "Напиши исчерпывающий, точный и хорошо отформатированный ответ для пользователя. Используй лучшие идеи и факты из ответов-участников, но изложи их своими словами. Не упоминай другие модели в этой части.";
   nl +:+ "**ШАГ 3: Проведи анализ источников.**";
   "После финального ответа поставь разделитель `---`. Затем кратко и объективно проанализируй ответы участников. Укажи, кто был прав, кто ошибся и почему. Твой анализ должен быть полностью консистентен с финальным ответом, который ты дал на ШАГЕ 2.";
   nl +:+ "---";
   "**ОРИГИНАЛЬНЫЙ ЗАПРОС ПОЛЬЗОВАТЕЛЯ:**" +:+ nl +:+ prompt +:+ nl;
   "---";
   nl +:+ "**ОТВЕТЫ МОДЕЛЕЙ-УЧАСТНИКОВ ДЛЯ АНАЛИЗА:**"].

(** [safe_response_text] *)
Definition safe_response_text (response_text : option string) : string :=
  default "ОШИБКА: Модель не вернула текстовый ответ." response_text.

(** The part of the synthesis prompt for one participant. *)
Definition participant_part (r : string * option string) : string :=
  nl +:+ "**Ответ от модели (" +:+ hcode r.1 +:+ "):**" +:+ nl +:+
    safe_response_text r.2 +:+ nl +:+ "---".

(** The loop over [participant_results]: the parts appended and
    [successful_responses]. *)
Fixpoint collect (participant_results : list (string * option string))
    (meta_prompt_parts : list string) (successful_responses : nat)
  : list string * nat :=
  match participant_results with
  | [] => (meta_prompt_parts, successful_responses)
  | r :: rest =>
      let meta_prompt_parts := (meta_prompt_parts ++ [participant_part r])%list in
      let successful_responses :=
        if negb (String.prefix ERROR_MARK (safe_response_text r.2))
        then S successful_responses else successful_responses in
      collect rest meta_prompt_parts successful_responses
  end.

Definition ALL_FAILED : exn :=
  runtime_error "К сожалению, все модели-участники не смогли дать ответ. Попробуйте позже.".
Definition ARBITER_FAILED : exn :=
  runtime_error ("Модель-арбитр (" +:+ MAX_MODE_ARBITER +:+
                 ") не смогла обработать ответы. Попробуйте позже.").

Definition get_max_mode_response (ai_client : AsyncOpenAI) (prompt : string)
    (user_id : Z) (db : Database) (cache : Cache) (now : Z)
  : result string * AsyncOpenAI * Cache :=
  let '(participant_results, ai_client, cache) :=
    gather_participants ai_client MAX_MODE_PARTICIPANTS prompt user_id db cache now in
  let '(meta_prompt_parts, successful_responses) :=
    collect participant_results (meta_prompt_head prompt) 0 in
  if bool_decide (successful_responses = 0%nat) then (Raise ALL_FAILED, ai_client, cache)
  else
    let meta_prompt_parts :=
      (meta_prompt_parts ++
        [nl +:+ "**ТВОЙ ИТОГОВЫЙ РЕЗУЛЬТАТ (выполни ШАГ 2 и ШАГ 3):**"])%list in
    let meta_prompt := String.concat nl meta_prompt_parts in
    let '(res, ai_client, cache) :=
      get_simple_response ai_client MAX_MODE_ARBITER
        [{| role := "user"; content := meta_prompt |}] user_id db cache now in
    match res with
    | Ok final_response_text => (Ok final_response_text, ai_client, cache)
    | Raise _ => (Raise ARBITER_FAILED, ai_client, cache)
    end.
End ai_service.

(** ** app/handlers/chat.py *)

(** The task [asyncio.create_task(animate_waiting(msg))] returns.  It edits the
    message every 1.5 s until [cancel()] delivers [CancelledError] to it,
    which ends its loop. *)
Inductive task := Running | Cancelled.

Inductive fsm_state := ChatInProgress | MaxModeInProgress.

(** The FSM context of one chat: the state and the data [model] and
    [history].  [select_model_handler] stores the model before it sets
    [Chat.in_progress]; [clear()] resets the state and empties the data. *)
Record FSMContext := {
  current_state : option fsm_state;
  data_model : string;
  data_history : list message;
}.

Definition state_clear (state : FSMContext) : FSMContext :=
  {| current_state := None; data_model := ""; data_history := [] |}.

Definition update_history (state : FSMContext) (history : list message)
  : FSMContext :=
  {| current_state := current_state state; data_model := data_model state;
     data_history := history |}.

(** What the handlers send to the chat, by kind. *)
Inductive reply :=
  | AnswerBlocked
  | AnswerModelUnavailable (model : string)
  | AnswerThinking
  | EditResponse (response_text model : string)
  | EditModelDisabled (model : string)
  | EditUnexpected (e : exn)
  | AnswerMaxUnavailable
  | AnswerMaxLimit
  | AnswerMaxProcessing
  | EditMaxResponse (response_text : string)
  | EditMaxRuntimeError (e : exn)
  | EditMaxUnexpected (e : exn).

(** The exception [msg.edit_text] raises when Telegram rejects the text. *)
Definition TELEGRAM_BAD_REQUEST : exn :=
  {| exn_is := OtherException; type_name := "TelegramBadRequest";
     status_code := None; exn_text := "Telegram server says - Bad Request" |}.

(** The two clocks read at one moment. *)
Record clock := { mono : Z; utc : Z }.

(** Everything a handler can change, and the exception that leaves it. *)
Record handled := {
  h_state : FSMContext;
  h_db : Database;
  h_ai_client : AsyncOpenAI;
  h_cache : Cache;
  h_sent : list reply;
  h_animation_task : option task;
  h_raised : option exn;
}.

Section chat.
Context `{PyLib} (ADMIN_IDS : list Z).

(** [send_limit_reached_message] evaluates [message.bot.get('cache')] first,
    as an argument of its first call.  The cache is held by the dispatcher
    ([dp["cache"]] in [bot.py]) and aiogram's [Bot] has no attribute [get]:
    the expression raises [AttributeError], which leaves the function before
    it has read the store or sent the offer or the notice that follow. *)
Definition send_limit_reached_message (user_id : Z) (db : Database)
    (cache : Cache) (t : clock) : result reply * Database * Cache :=
  (Raise (attribute_error "Bot" "get"), db, cache).

(** [msg.edit_text(r)] as the last statement of an [except] block: with
    [notice_ok = false] Telegram rejects the edit and the exception leaves
    the handler. *)
Definition last_edit (notice_ok : bool) (r : reply) (sent : list reply)
  : list reply * option exn :=
  if notice_ok then ((sent ++ [r])%list, None) else (sent, Some TELEGRAM_BAD_REQUEST).

(** [history[-10:]] *)
Definition last10 (history : list message) : list message :=
  drop (length history - 10) history.

(** The handler of a text message in state [Chat.in_progress].  [t0] is
    read when the message arrives, [t1] when the backend call is over;
    [edit_ok] tells whether Telegram accepts the edit that carries the
    answer, [notice_ok] whether it accepts the edit that reports an error. *)
Definition handle_chat_message (text : string) (user_id : Z)
    (state : FSMContext) (db : Database) (ai_client : AsyncOpenAI)
    (cache : Cache) (edit_ok notice_ok : bool) (t0 t1 : clock) : handled :=
  let '(details, cache) := get_user_details_cached user_id db cache (mono t0) in
  if match details with Some d => is_blocked d | None => false end then
    {| h_state := state; h_db := db; h_ai_client := ai_client; h_cache := cache;
       h_sent := [AnswerBlocked]; h_animation_task := None; h_raised := None |}
  else
  let '((daily_limit, _), db) := get_user_limits ADMIN_IDS user_id db (utc t0) in
  let requests_today := get_user_requests_today db user_id false (utc t0) in
  if reached requests_today daily_limit then
    let state := state_clear state in
    let '(r, db, cache) := send_limit_reached_message user_id db cache t0 in
    match r with
    | Ok r =>
        {| h_state := state; h_db := db; h_ai_client := ai_client;
           h_cache := cache; h_sent := [r]; h_animation_task := None;
           h_raised := None |}
    | Raise e =>
        {| h_state := state; h_db := db; h_ai_client := ai_client;
           h_cache := cache; h_sent := []; h_animation_task := None;
           h_raised := Some e |}
    end
  else
  let model := data_model state in
  let history := data_history state in
  if negb (is_model_available model cache (mono t0)) then
    {| h_state := state; h_db := db; h_ai_client := ai_client; h_cache := cache;
       h_sent := [AnswerModelUnavailable model]; h_animation_task := None;
       h_raised := None |}
  else
  let sent := [AnswerThinking] in
  let animation_task := Running in
  let history := (history ++ [{| role := "user"; content := text |}])%list in
  let '(res, ai_client, cache) :=
    get_simple_response ai_client model history user_id db cache (mono t0) in
  match res with
  | Ok response_text =>
      let animation_task := Cancelled in
      let history :=
        (history ++ [{| role := "assistant"; content := response_text |}])%list in
      let state := update_history state (last10 history) in
      let db := add_request db user_id model false (utc t1) in
      if edit_ok then
        {| h_state := state; h_db := db; h_ai_client := ai_client;
           h_cache := cache;
           h_sent := (sent ++ [EditResponse response_text model])%list;
           h_animation_task := Some animation_task; h_raised := None |}
      else
        (* except Exception as e: *)
        let animation_task := Cancelled in
        let history := removelast history in
        let state := update_history state history in
        let '(sent, raised) :=
          last_edit notice_ok (EditUnexpected TELEGRAM_BAD_REQUEST) sent in
        {| h_state := state; h_db := db; h_ai_client := ai_client;
           h_cache := cache; h_sent := sent;
           h_animation_task := Some animation_task; h_raised := raised |}
  | Raise e =>
      if bool_decide (exn_is e = APIError ∨ exn_is e = RuntimeError) then
        let animation_task := Cancelled in
        let cache := set_model_failed_in_cache model cache (mono t1) in
        let history := removelast history in
        let state := update_history state history in
        let '(sent, raised) := last_edit notice_ok (EditModelDisabled model) sent in
        {| h_state := state; h_db := db; h_ai_client := ai_client;
           h_cache := cache; h_sent := sent;
           h_animation_task := Some animation_task; h_raised := raised |}
      else
        let animation_task := Cancelled in
        let history := removelast history in
        let state := update_history state history in
        let '(sent, raised) := last_edit notice_ok (EditUnexpected e) sent in
        {| h_state := state; h_db := db; h_ai_client := ai_client;
           h_cache := cache; h_sent := sent;
           h_animation_task := Some animation_task; h_raised := raised |}
  end.

(** The handler of a text message in state [MaxMode.in_progress]. *)
Definition handle_max_mode_message (text : string) (user_id : Z)
    (state : FSMContext) (db : Database) (ai_client : AsyncOpenAI)
    (cache : Cache) (edit_ok notice_ok : bool) (t0 t1 : clock) : handled :=
  if negb (are_max_mode_models_available cache (mono t0)) then
    {| h_state := state_clear state; h_db := db; h_ai_client := ai_client;
       h_cache := cache; h_sent := [AnswerMaxUnavailable];
       h_animation_task := None; h_raised := None |}
  else
  let '((_, max_mode_limit), db) := get_user_limits ADMIN_IDS user_id db (utc t0) in
  let requests_today := get_user_requests_today db user_id true (utc t0) in
  if reached requests_today max_mode_limit then
    {| h_state := state_clear state; h_db := db; h_ai_client := ai_client;
       h_cache := cache; h_sent := [AnswerMaxLimit];
       h_animation_task := None; h_raised := None |}
  else
  let sent := [AnswerMaxProcessing] in
  let animation_task := Running in
  let '(res, ai_client, cache) :=
    get_max_mode_response ai_client text user_id db cache (mono t0) in
  match res with
  | Ok response_text =>
      let animation_task := Cancelled in
      let db := add_request db user_id "max_mode_ensemble" true (utc t1) in
      if edit_ok then
        {| h_state := state; h_db := db; h_ai_client := ai_client;
           h_cache := cache;
           h_sent := (sent ++ [EditMaxResponse response_text])%list;
           h_animation_task := Some animation_task; h_raised := None |}
      else
        (* except Exception as e: *)
        let animation_task := Cancelled in
        let '(sent, raised) :=
          last_edit notice_ok (EditMaxUnexpected TELEGRAM_BAD_REQUEST) sent in
        {| h_state := state; h_db := db; h_ai_client := ai_client;
           h_cache := cache; h_sent := sent;
           h_animation_task := Some animation_task; h_raised := raised |}
  | Raise e =>
      if bool_decide (exn_is e = RuntimeError) then
        let animation_task := Cancelled in
        let '(sent, raised) := last_edit notice_ok (EditMaxRuntimeError e) sent in
        {| h_state := state; h_db := db; h_ai_client := ai_client;
           h_cache := cache; h_sent := sent;
           h_animation_task := Some animation_task; h_raised := raised |}
      else
        let animation_task := Cancelled in
        let '(sent, raised) := last_edit notice_ok (EditMaxUnexpected e) sent in
        {| h_state := state; h_db := db; h_ai_client := ai_client;
           h_cache := cache; h_sent := sent;
           h_animation_task := Some animation_task; h_raised := raised |}
  end.
End chat.

(** ** Sample inputs

    A stand-in for the library functions on the handful of texts the examples
    below use, and the inputs of those examples.  The texts are what Python
    prints for the instants next to them. *)

(** The double quote. *)
Definition dq : string :=
  String (Ascii.Ascii false true false false false true false false) EmptyString.

Definition sample_instants : list (string * string * Z) :=
  [("2025-05-01T00:00:00+00:00", "2025-05-01 00:00:00+00:00", 1746057600000000);
   ("2025-06-01T12:00:00+00:00", "2025-06-01 12:00:00+00:00", 1748779200000000);
   ("2025-06-01T12:05:00+00:00", "2025-06-01 12:05:00+00:00", 1748779500000000);
   ("2025-06-01T12:20:00+00:00", "2025-06-01 12:20:00+00:00", 1748780400000000);
   ("2025-06-01T20:59:59+00:00", "2025-06-01 20:59:59+00:00", 1748811599000000);
   ("2025-06-01T21:00:00+00:00", "2025-06-01 21:00:00+00:00", 1748811600000000)].

Definition sample_json_dumps (d : gmap string string) : string :=
  "{" +:+ String.concat ", "
            ((λ kv, dq +:+ kv.1 +:+ dq +:+ ": " +:+ dq +:+ kv.2 +:+ dq) <$> map_to_list d)
      +:+ "}".

Definition sample_dicts : list (gmap string string) :=
  [∅; {["gpt-4.1" := "Timeout"]}; {["gpt-4.1" := "OK"]}].

Definition sample_lib : PyLib := {|
  fromisoformat s :=
    (λ r, {| instant := r.2; aware := true |}) <$>
      head (filter (λ r, r.1.1 = s ∨ r.1.2 = s) sample_instants);
  isoformat t :=
    default ("@" +:+ pretty t)
      ((λ r, r.1.1) <$> head (filter (λ r, r.2 = t) sample_instants));
  adapt_datetime t :=
    default ("@" +:+ pretty t)
      ((λ r, r.1.2) <$> head (filter (λ r, r.2 = t) sample_instants));
  json_dumps := sample_json_dumps;
  json_loads s := head (filter (λ d, sample_json_dumps d = s) sample_dicts);
  hcode s := "<code>" +:+ s +:+ "</code>";
  strftime_msk t := "@" +:+ pretty t;
|}.

(** A cache dictionary without the two keys. *)
Definition NO_CACHE : Cache := {| model_status := None; user_details := None |}.

(** A registry cache with room for [maxsize] items. *)
Definition cache_of_size (maxsize : positive) : Cache :=
  {| model_status := Some (TTL.mk maxsize 600 []);
     user_details := Some (TTL.mk 1000 300 []) |}.

Definition EMPTY_DB : Database :=
  {| users := ∅; requests := []; system_state := ∅ |}.

(** A store whose last probe snapshot was written at 12:00:00 UTC on
    2025-06-01 and reports [gpt-4.1] as timed out. *)
Definition SNAPSHOT_DB : Database :=
  {| users := ∅; requests := [];
     system_state :=
       {[ "model_status" :=
            (sample_json_dumps {["gpt-4.1" := "Timeout"]}, "2025-06-01 12:00:00+00:00");
          "last_report" := ("report", "2025-06-01 12:00:00+00:00") ]} |}.

(** A provider that answers every request with the text [ok]. *)
Definition HEALTHY_CLIENT : AsyncOpenAI :=
  {| create := λ _, Returned (Some "ok"); calls := [] |}.
Definition HEALTHY_POST : string → image_outcome := λ _, HttpStatus 200.

(** User 7 holds the Max tier and the bonus flag; the subscription ended on
    2025-05-01.  User 8 is on the free tier without bonus. *)
Definition EXPIRED_USER : user_row :=
  {| username := Some "alice"; subscription_level := 3;
     subscription_end := Some "2025-05-01T00:00:00+00:00";
     is_blocked := false; last_used_model := Some "gpt-4.1";
     is_verified := true; has_rewarded_bonus := true;
     last_used_image_model := None; user_instruction := None;
     user_temperature := None |}.
Definition FREE_USER : user_row :=
  {| username := Some "bob"; subscription_level := 0;
     subscription_end := None;
     is_blocked := false; last_used_model := Some "gpt-4.1";
     is_verified := true; has_rewarded_bonus := false;
     last_used_image_model := None; user_instruction := None;
     user_temperature := None |}.
Definition USERS_DB : Database :=
  {| users := {[ 7 := EXPIRED_USER; 8 := FREE_USER ]}; requests := [];
     system_state := ∅ |}.
Definition SAMPLE_ADMINS : list Z := [1].

(** [sub in s] *)
Definition occurs (sub s : string) : bool :=
  bool_decide (is_Some (String.index 0 sub s)).

(** The text of the last message of the last request a client has sent. *)
Definition last_prompt (ai_client : AsyncOpenAI) : option string :=
  rq ← last (calls ai_client); content <$> last (rq_messages rq).

Definition TIMEOUT_ERROR : exn :=
  {| exn_is := AsyncioTimeoutError; type_name := "TimeoutError";
     status_code := None; exn_text := "" |}.

(** A provider whose every call raises. *)
Definition FAILING_CLIENT : AsyncOpenAI :=
  {| create := λ _, Raised TIMEOUT_ERROR; calls := [] |}.

(** A provider where [gpt-4.1] answers without text content, [grok-3] times
    out, the arbiter answers [final] and every other model answers [4]. *)
Definition MIXED_CLIENT : AsyncOpenAI :=
  {| create := λ rq,
       if bool_decide (rq_model rq = "gpt-4.1") then Returned None
       else if bool_decide (rq_model rq = "grok-3") then Raised TIMEOUT_ERROR
       else if bool_decide (rq_model rq = MAX_MODE_ARBITER) then Returned (Some "final")
       else Returned (Some "4");
     calls := [] |}.

(** A provider where every participant answers without text content. *)
Definition MUTE_CLIENT : AsyncOpenAI :=
  {| create := λ rq,
       if bool_decide (rq_model rq = MAX_MODE_ARBITER) then Returned (Some "final")
       else Returned None;
     calls := [] |}.

(** Noon UTC on 2025-06-01, MSK day 20240. *)
Definition NOON : clock := {| mono := 0; utc := 1748779200000000 |}.

(** The store with [n] normal requests of user 8 recorded that day. *)
Definition quota_db (n : nat) : Database :=
  {| users := users USERS_DB;
     requests :=
       replicate n {| req_user_id := 8; req_model := "gpt-4.1";
                      request_date := 20240; is_max_mode := false |};
     system_state := ∅ |}.

Definition CHAT_STATE : FSMContext :=
  {| current_state := Some ChatInProgress; data_model := "gpt-4.1";
     data_history := [] |}.

(** ** cachetools.TTLCache: membership and deletion *)

Section ttl_delete.
Context {K I : Type} `{EqDecision K} (key_of : I → K).

(** [key in cache]: the key has an item that has not expired. *)
Definition ttl_contains (c : TTL.t I) (k : K) (now : Z) : bool :=
  bool_decide (is_Some (TTL.get key_of c k now)).

(** [del cache[key]] for a key the cache contains. *)
Definition ttl_delitem (c : TTL.t I) (k : K) : TTL.t I :=
  TTL.mk (TTL.maxsize c) (TTL.ttl c)
    (filter (λ l, key_of l.1 ≠ k) (TTL.links c)).
End ttl_delete.

(** ** app/services/user_service.py: cache invalidation *)

Definition invalidate_user_cache (user_id : Z) (cache : Cache) (now : Z) : Cache :=
  match user_details cache with
  | Some user_cache =>
      if ttl_contains fst user_cache user_id now then
        {| model_status := model_status cache;
           user_details := Some (ttl_delitem fst user_cache user_id) |}
      else cache
  | None => cache
  end.

(** ** app/database.py: the other writes to [users] *)

(** [UPDATE users SET ... WHERE user_id = ?] with the new row computed from
    the old one. *)
Definition update_user (set_row : user_row → user_row) (db : Database)
    (user_id : Z) : Database :=
  {| users := alter set_row user_id (users db);
     requests := requests db;
     system_state := system_state db |}.

Definition block_user (db : Database) (user_id : Z) (block : bool) : Database :=
  update_user (λ u,
    {| username := username u;
       subscription_level := subscription_level u;
       subscription_end := subscription_end u;
       is_blocked := block;
       last_used_model := last_used_model u;
       is_verified := is_verified u;
       has_rewarded_bonus := has_rewarded_bonus u;
       last_used_image_model := last_used_image_model u;
       user_instruction := user_instruction u;
       user_temperature := user_temperature u |}) db user_id.

Definition set_user_verified (db : Database) (user_id : Z) (status : bool)
  : Database :=
  update_user (λ u,
    {| username := username u;
       subscription_level := subscription_level u;
       subscription_end := subscription_end u;
       is_blocked := is_blocked u;
       last_used_model := last_used_model u;
       is_verified := status;
       has_rewarded_bonus := has_rewarded_bonus u;
       last_used_image_model := last_used_image_model u;
       user_instruction := user_instruction u;
       user_temperature := user_temperature u |}) db user_id.

Definition set_reward_bonus (db : Database) (user_id : Z) : Database :=
  update_user (λ u,
    {| username := username u;
       subscription_level := subscription_level u;
       subscription_end := subscription_end u;
       is_blocked := is_blocked u;
       last_used_model := last_used_model u;
       is_verified := is_verified u;
       has_rewarded_bonus := true;
       last_used_image_model := last_used_image_model u;
       user_instruction := user_instruction u;
       user_temperature := user_temperature u |}) db user_id.

Definition set_last_used_model (db : Database) (user_id : Z)
    (model_name : string) : Database :=
  update_user (λ u,
    {| username := username u;
       subscription_level := subscription_level u;
       subscription_end := subscription_end u;
       is_blocked := is_blocked u;
       last_used_model := Some model_name;
       is_verified := is_verified u;
       has_rewarded_bonus := has_rewarded_bonus u;
       last_used_image_model := last_used_image_model u;
       user_instruction := user_instruction u;
       user_temperature := user_temperature u |}) db user_id.

(** [username.lower() if username else None] *)
Definition stored_username (lower : string → string) (name : option string)
  : option string :=
  if truthy name then lower <$> name else None.

(** [add_user]: whether the user is new, and the store afterwards.  [lower]
    is [str.lower]; [name] is the Telegram user name, if any.  A new row takes
    the defaults of the columns. *)
Definition add_user (lower : string → string) (db : Database) (user_id : Z)
    (name : option string) : bool * Database :=
  match get_user db user_id with
  | Some user =>
      if bool_decide (username user ≠ name) then
        (false,
         update_user (λ u,
           {| username := stored_username lower name;
              subscription_level := subscription_level u;
              subscription_end := subscription_end u;
              is_blocked := is_blocked u;
              last_used_model := last_used_model u;
              is_verified := is_verified u;
              has_rewarded_bonus := has_rewarded_bonus u;
              last_used_image_model := last_used_image_model u;
              user_instruction := user_instruction u;
              user_temperature := user_temperature u |}) db user_id)
      else (false, db)
  | None =>
      (true,
       {| users :=
            <[user_id :=
                {| username := stored_username lower name;
                   subscription_level := 0;
                   subscription_end := None;
                   is_blocked := false;
                   last_used_model := None;
                   is_verified := false;
                   has_rewarded_bonus := false;
                   last_used_image_model := None;
                   user_instruction := None;
                   user_temperature := None |}]> (users db);
          requests := requests db;
          system_state := system_state db |})
  end.

(** ** app/handlers/admin.py: actions on a user *)

(** [callback_data.action] *)
Inductive user_action := Block | Unblock | Revoke | UnknownAction.

(** What the action of [handle_user_action] does to the store and the
    cache.  The alert, the refreshed card and the notice to the user are not
    modelled; [format_user_card] reads the limits of the user for the card,
    and that read, like every read of the limits, writes the downgrade of a
    lapsed subscription ([get_user_level]): here the write is left to the
    next read of the limits. *)
Definition handle_user_action `{PyLib} (action : user_action) (user_id : Z)
    (db : Database) (cache : Cache) (t : clock) : Database * Cache :=
  match action with
  | Block => (block_user db user_id true, invalidate_user_cache user_id cache (mono t))
  | Unblock => (block_user db user_id false, invalidate_user_cache user_id cache (mono t))
  | Revoke =>
      (update_subscription db user_id 0 30 (utc t),
       invalidate_user_cache user_id cache (mono t))
  | UnknownAction => (db, cache)
  end.

(** ** app/handlers/subscription.py: the channel bonus *)

(** What the membership checks of [check_reward_subscription_handler] give:
    no reward channel is configured, the user is missing from some channel,
    the user is a member of every channel, or a check raised. *)
Inductive membership_check := NoChannels | NotSubscribed | AllSubscribed | CheckFailed.

(** What [check_reward_subscription_handler] does to the store and the
    cache.  The alerts and the message with the main menu are not modelled;
    [get_main_menu] reads the level of the user for the menu, a read that
    writes the downgrade of a lapsed subscription: here the write is left to
    the next read of the level. *)
Definition check_reward_subscription_handler (check : membership_check)
    (user_id : Z) (db : Database) (cache : Cache) (t : clock) : Database * Cache :=
  match check with
  | AllSubscribed =>
      (set_reward_bonus db user_id, invalidate_user_cache user_id cache (mono t))
  | _ => (db, cache)
  end.

(** ** app/middlewares.py *)

(** The middleware object.  [rate_limit] and the timer readings are in one
    unit, fine enough to tell the events apart. *)
Record ThrottlingMiddleware := {
  throttle_cache : TTL.t (string * unit);
  rate_limit : Z;
  key_prefix : string;
}.

(** [ThrottlingMiddleware(rate_limit, key_prefix)] *)
Definition ThrottlingMiddleware_init (rate_limit : Z) (key_prefix : string)
  : ThrottlingMiddleware :=
  {| throttle_cache := TTL.mk 10000 rate_limit [];
     rate_limit := rate_limit; key_prefix := key_prefix |}.

(** [__call__]: whether the event is passed on to the handler, and the
    middleware afterwards.  [event_from_user] is the id of the user the event
    comes from, if it has one. *)
Definition ThrottlingMiddleware_call (self : ThrottlingMiddleware)
    (event_from_user : option Z) (now : Z) : bool * ThrottlingMiddleware :=
  match event_from_user with
  | Some user_id =>
      let cache_key := key_prefix self +:+ pretty user_id in
      if ttl_contains fst (throttle_cache self) cache_key now then (false, self)
      else
        (true,
         {| throttle_cache :=
              TTL.setitem fst (throttle_cache self) (cache_key, ()) now;
            rate_limit := rate_limit self; key_prefix := key_prefix self |})
  | None => (true, self)
  end.

(** The middleware on the updates of a stream, each with the user it comes
    from and the timer reading at its arrival: which of them were passed on,
    and the middleware afterwards. *)
Fixpoint ThrottlingMiddleware_run (self : ThrottlingMiddleware)
    (events : list (option Z * Z)) : list bool * ThrottlingMiddleware :=
  match events with
  | [] => ([], self)
  | event :: rest =>
      let '(passed, self) := ThrottlingMiddleware_call self event.1 event.2 in
      let '(flags, self) := ThrottlingMiddleware_run self rest in
      (passed :: flags, self)
  end.

(** ** app/config.py: access to models by level *)

Definition DEFAULT_TEXT_MODEL : string := "chatgpt-4o-latest".

Definition MODELS_free : list string :=
  ["deepseek-chat-v3-0324"; "gpt-4.1"; "chatgpt-4o-latest"].
Definition MODELS_standard : list string :=
  ["deepseek-chat-v3-0324"; "gpt-4.1"; "chatgpt-4o-latest";
   "llama-3.1-nemotron-ultra-253b-v1"; "qwen3-235b-a22b";
   "phi-4-reasoning-plus"; "grok-3-mini"].
(** [list(set(p for cat in MODEL_CATEGORIES.values() for p in cat))] *)
Definition MODELS_premium : list string :=
  remove_dups (concat (snd <$> MODEL_CATEGORIES)).

(** ** app/keyboards/inline.py: the menu of models *)

(** The callback data of the buttons of the menu. *)
Inductive callback_data :=
  | SelectTextModel (model_name status : string)
  | Menu (action : string).

Record button := { button_text : string; button_data : callback_data }.

(** The buttons, one to a row. *)
Definition get_models_menu (category : string) (models : list string)
    (available_statuses : gmap string string) : list button :=
  ((λ model_name,
      let is_ok :=
        bool_decide (default "OK" (available_statuses !! model_name) = "OK") in
      let prefix := if is_ok then "" else "⚠️ " in
      let status := if is_ok then "ok" else "failed" in
      {| button_text := prefix +:+ model_name;
         button_data := SelectTextModel model_name status |}) <$> models)
  ++ [{| button_text := "⬅️ Назад к категориям"; button_data := Menu "models" |}].

(** ** app/handlers/chat.py: the menus and the callbacks *)

Definition KEY_ERROR : exn :=
  {| exn_is := OtherException; type_name := "KeyError"; status_code := None;
     exn_text := "'model_status'" |}.

(** What the callback handlers answer, by kind; [LimitReached] carries what
    [send_limit_reached_message] sent, or the exception that left the
    handler there. *)
Inductive callback_reply :=
  | EditBlocked
  | LimitReached (r : result reply)
  | EditModelSelected (model : string)
  | EditNewChat (model : string)
  | AlertMaxUnavailable
  | AlertMaxLimit
  | EditMaxActivated.

Section chat_callbacks.
Context `{PyLib} (ADMIN_IDS : list Z).

(** The models a user of [user_level] may choose. *)
Definition accessible_models (user_level : Z) : list string :=
  MODELS_free
  ++ (if bool_decide (1 ≤ user_level) then MODELS_standard else [])
  ++ (if bool_decide (2 ≤ user_level) then MODELS_premium else []).

(** The keyboard [list_models_in_category] puts under the message, or the
    [KeyError] of [cache['model_status']]. *)
Definition list_models_in_category (category : string) (user_id : Z)
    (db : Database) (cache : Cache) (t : clock)
  : result (list button) * Database :=
  let '(user_level, db) := get_user_level ADMIN_IDS user_id db (utc t) in
  let accessible_models := accessible_models user_level in
  let category_models :=
    filter (λ m, m ∈ accessible_models)
      (default [] (snd <$> head (filter (λ c, c.1 = category) MODEL_CATEGORIES))) in
  match model_status cache with
  | Some model_status_cache =>
      (Ok (get_models_menu category category_models
             (get_statuses model_status_cache (mono t))), db)
  | None => (Raise KEY_ERROR, db)
  end.

(** The handler of a button with status [ok].  [sender_id] is
    [callback.message.from_user.id], the sender of the message that carries
    the keyboard: [send_limit_reached_message] is called with that
    message. *)
Definition select_model_handler (model_name : string) (user_id sender_id : Z)
    (state : FSMContext) (db : Database) (cache : Cache) (t : clock)
  : FSMContext * Database * Cache * callback_reply :=
  let '(details, cache) := get_user_details_cached user_id db cache (mono t) in
  if match details with Some d => is_blocked d | None => false end then
    (state, db, cache, EditBlocked)
  else
  let '((daily_limit, _), db) := get_user_limits ADMIN_IDS user_id db (utc t) in
  let requests_today := get_user_requests_today db user_id false (utc t) in
  if reached requests_today daily_limit then
    let '(r, db, cache) := send_limit_reached_message sender_id db cache t in
    (state, db, cache, LimitReached r)
  else
  let model := model_name in
  let db := set_last_used_model db user_id model in
  let cache := invalidate_user_cache user_id cache (mono t) in
  let state :=
    {| current_state := Some ChatInProgress; data_model := model;
       data_history := [] |} in
  (state, db, cache, EditModelSelected model).

(** [new_chat_handler]; a context without a model shows as [""]. *)
Definition new_chat_handler (state : FSMContext) : FSMContext * callback_reply :=
  let state := update_history state [] in
  (state, EditNewChat (data_model state)).

Definition activate_max_mode (user_id : Z) (state : FSMContext) (db : Database)
    (cache : Cache) (t : clock) : FSMContext * Database * callback_reply :=
  if negb (are_max_mode_models_available cache (mono t)) then
    (state, db, AlertMaxUnavailable)
  else
  let '((_, max_mode_limit), db) := get_user_limits ADMIN_IDS user_id db (utc t) in
  let requests_today := get_user_requests_today db user_id true (utc t) in
  if reached requests_today max_mode_limit then (state, db, AlertMaxLimit)
  else
    ({| current_state := Some MaxModeInProgress; data_model := data_model state;
        data_history := data_history state |}, db, EditMaxActivated).
End chat_callbacks.

(** ** app/handlers/group.py *)

(** What the group handler sends, by kind. *)
Inductive group_reply :=
  | ReplyNoLimits
  | ReplyModelUnavailable (model : string)
  | ReplyThinking
  | GroupEditResponse (response_text model : string)
  | GroupEditError.

Record group_handled := {
  g_db : Database;
  g_ai_client : AsyncOpenAI;
  g_cache : Cache;
  g_sent : list group_reply;
  g_animation_task : option task;
  g_raised : option exn;
}.

Section group.
Context `{PyLib} (ADMIN_IDS : list Z).

(** The handler of a group message that starts with the text trigger.
    [prompt] is the text after the trigger, stripped.  [reply_ok], [edit_ok]
    and [notice_ok] tell whether Telegram accepts the replies, the edit that
    carries the answer and the edit that reports an error. *)
Definition handle_group_text_trigger (prompt : string) (user_id : Z)
    (db : Database) (ai_client : AsyncOpenAI) (cache : Cache)
    (reply_ok edit_ok notice_ok : bool) (t0 t1 : clock) : group_handled :=
  let ignored (db : Database) (cache : Cache) (sent : list group_reply) :=
    {| g_db := db; g_ai_client := ai_client; g_cache := cache; g_sent := sent;
       g_animation_task := None; g_raised := None |} in
  if bool_decide (prompt = "") then ignored db cache []
  else
  let '(user_details, cache) := get_user_details_cached user_id db cache (mono t0) in
  match user_details with
  | None => ignored db cache []
  | Some details =>
      if negb (is_verified details) then ignored db cache []
      else if is_blocked details then ignored db cache []
      else
      let '((daily_limit, _), db) := get_user_limits ADMIN_IDS user_id db (utc t0) in
      let requests_today := get_user_requests_today db user_id false (utc t0) in
      if reached requests_today daily_limit then
        ignored db cache (if reply_ok then [ReplyNoLimits] else [])
      else
      let model_to_use :=
        if truthy (last_used_model details)
        then default DEFAULT_TEXT_MODEL (last_used_model details)
        else DEFAULT_TEXT_MODEL in
      if negb (is_model_available model_to_use cache (mono t0)) then
        ignored db cache
          (if reply_ok then [ReplyModelUnavailable model_to_use] else [])
      else
      if negb reply_ok then
        {| g_db := db; g_ai_client := ai_client; g_cache := cache; g_sent := [];
           g_animation_task := None; g_raised := Some TELEGRAM_BAD_REQUEST |}
      else
      let sent := [ReplyThinking] in
      let '(res, ai_client, cache) :=
        get_simple_response ai_client model_to_use
          [{| role := "user"; content := prompt |}] user_id db cache (mono t0) in
      (* except Exception as e: *)
      let failed (db : Database) :=
        {| g_db := db; g_ai_client := ai_client; g_cache := cache;
           g_sent := if notice_ok then sent ++ [GroupEditError] else sent;
           g_animation_task := Some Cancelled;
           g_raised := if notice_ok then None else Some TELEGRAM_BAD_REQUEST |} in
      match res with
      | Ok response_text =>
          let db := add_request db user_id model_to_use false (utc t1) in
          if edit_ok then
            {| g_db := db; g_ai_client := ai_client; g_cache := cache;
               g_sent := sent ++ [GroupEditResponse response_text model_to_use];
               g_animation_task := Some Cancelled; g_raised := None |}
          else failed db
      | Raise e => failed db
      end
  end.
End group.

(** ** Probe rounds: the results collected *)

(** What [gather] gives a probe round: the results of the chat probes and
    of the image probes, or the exception of a chat probe that raised. *)
Definition probe_results (ai_client : AsyncOpenAI)
    (post : string → image_outcome) : result (list (string * string)) :=
  gather ((gather_chat_tests ai_client all_text_models).1
          ++ ((λ m, Ok (test_image_model post m)) <$> all_image_models)).

(** The probe of [model] raises: its request raises an [APIError] that has no
    [status_code]. *)
Definition probe_raises (ai_client : AsyncOpenAI) (model : string) : Prop :=
  ∃ e, create ai_client (test_request model) = Raised e
       ∧ exn_is e = APIError ∧ status_code e = None.

(** ** Sample inputs for probe rounds and a restart *)

(** What the client raises when the provider does not answer within the
    timeout of the request: [openai.APITimeoutError], an [APIError] without
    [status_code]. *)
Definition API_TIMEOUT_ERROR : exn :=
  {| exn_is := APIError; type_name := "APITimeoutError"; status_code := None;
     exn_text := "Request timed out." |}.

(** A provider that does not answer [grok-3] in time and answers every other
    model with the text [ok]. *)
Definition STALLED_CLIENT : AsyncOpenAI :=
  {| create := λ rq,
       if bool_decide (rq_model rq = "grok-3") then Raised API_TIMEOUT_ERROR
       else Returned (Some "ok");
     calls := [] |}.

(** The statuses a probe round records when every probe succeeds. *)
Definition HEALTHY_STATUSES : gmap string string :=
  match probe_results HEALTHY_CLIENT HEALTHY_POST with
  | Ok results => statuses_of_results results
  | Raise _ => ∅
  end.

(** The stand-in for the library, with a [json.loads] that also reads the
    text of [HEALTHY_STATUSES]. *)
Definition restart_lib : PyLib := {|
  fromisoformat := @fromisoformat sample_lib;
  isoformat := @isoformat sample_lib;
  adapt_datetime := @adapt_datetime sample_lib;
  json_dumps := sample_json_dumps;
  json_loads s :=
    head (filter (λ d, sample_json_dumps d = s) (HEALTHY_STATUSES :: sample_dicts));
  hcode := @hcode sample_lib;
  strftime_msk := @strftime_msk sample_lib;
|}.

(** User 9 holds the Max tier until 21:00 UTC on 2025-06-01 and is blocked. *)
Definition BLOCKED_MAX_USER : user_row :=
  {| username := Some "carol"; subscription_level := 3;
     subscription_end := Some "2025-06-01T21:00:00+00:00";
     is_blocked := true; last_used_model := Some "grok-3";
     is_verified := true; has_rewarded_bonus := false;
     last_used_image_model := None; user_instruction := None;
     user_temperature := None |}.
Definition BLOCKED_DB : Database :=
  {| users := {[ 9 := BLOCKED_MAX_USER ]}; requests := []; system_state := ∅ |}.

(** ** app/handlers/settings.py *)

Definition set_user_instruction (db : Database) (user_id : Z)
    (instruction : option string) : Database :=
  update_user (λ u,
    {| username := username u;
       subscription_level := subscription_level u;
       subscription_end := subscription_end u;
       is_blocked := is_blocked u;
       last_used_model := last_used_model u;
       is_verified := is_verified u;
       has_rewarded_bonus := has_rewarded_bonus u;
       last_used_image_model := last_used_image_model u;
       user_instruction := instruction;
       user_temperature := user_temperature u |}) db user_id.

Definition set_user_temperature (db : Database) (user_id : Z)
    (temperature : option Z) : Database :=
  update_user (λ u,
    {| username := username u;
       subscription_level := subscription_level u;
       subscription_end := subscription_end u;
       is_blocked := is_blocked u;
       last_used_model := last_used_model u;
       is_verified := is_verified u;
       has_rewarded_bonus := has_rewarded_bonus u;
       last_used_image_model := last_used_image_model u;
       user_instruction := user_instruction u;
       user_temperature := temperature |}) db user_id.

(** What the settings handlers answer, by kind. *)
Inductive settings_reply :=
  | InstructionTooLong
  | InstructionDeleted
  | InstructionUpdated (instruction : string)
  | TemperatureReset
  | TemperatureSet (temperature : Z)
  | TemperatureOutOfRange
  | TemperatureNotANumber.

Section settings.
(** [len] is Python's [len] of a text.  [float] is Python's [float] of a
    text, in thousandths; [None] is [ValueError]; [inf] and [nan], which fail
    the range test of the handler, count as numbers out of the range. *)
Context (len : string → nat) (float : string → option Z).

(** What [settings_instruction_process] does to the store and the cache,
    and its answer; [instruction] is [message.text.strip()].  The state of
    the conversation is not modelled, nor is the message with the main menu
    that ends both handlers ([get_main_menu] reads the level of the user, a
    read that writes the downgrade of a lapsed subscription: here the write
    is left to the next read of the level). *)
Definition settings_instruction_process (instruction : string) (user_id : Z)
    (db : Database) (cache : Cache) (t : clock)
  : Database * Cache * settings_reply :=
  if bool_decide (1000 < len instruction)%nat then (db, cache, InstructionTooLong)
  else
    let '(db, r) :=
      if bool_decide (instruction = "-")
      then (set_user_instruction db user_id None, InstructionDeleted)
      else (set_user_instruction db user_id (Some instruction),
            InstructionUpdated instruction) in
    (db, invalidate_user_cache user_id cache (mono t), r).

(** What [settings_temperature_process] does to the store and the cache,
    and its answer; [temp_str] is [message.text.strip().replace(',', '.')]. *)
Definition settings_temperature_process (temp_str : string) (user_id : Z)
    (db : Database) (cache : Cache) (t : clock)
  : Database * Cache * settings_reply :=
  if bool_decide (temp_str = "-") then
    (set_user_temperature db user_id None,
     invalidate_user_cache user_id cache (mono t), TemperatureReset)
  else
    match float temp_str with
    | Some temperature =>
        if bool_decide (0 ≤ temperature ≤ 2000) then
          (set_user_temperature db user_id (Some temperature),
           invalidate_user_cache user_id cache (mono t),
           TemperatureSet temperature)
        else (db, cache, TemperatureOutOfRange)
    | None => (db, cache, TemperatureNotANumber)
    end.
End settings.

(** ** app/handlers/group.py: the image trigger *)

Definition DEFAULT_IMAGE_MODEL : string := "gpt-image-1".

(** What the image endpoint does with a generation request: it answers with
    a status, and then [image_url] is what
    [(await response.json())['data'][0]['url']] gives and [text] what
    [await response.text()] gives; or the request raises. *)
Inductive post_outcome :=
  | Response (status : Z) (image_url text : result string)
  | PostRaised (e : exn).

(** Whether Telegram accepts what the handler sends: the replies before the
    request, the waiting message, its deletion, the photo, the edit that
    reports a refusal and the edit that reports an exception. *)
Record telegram := {
  reply_ok : bool;
  waiting_ok : bool;
  delete_ok : bool;
  photo_ok : bool;
  refusal_ok : bool;
  critical_ok : bool;
}.

(** What the image handler sends, by kind. *)
Inductive image_reply :=
  | ImageReplyNoLimits
  | ImageReplyModelUnavailable (model : string)
  | ImageReplyCreating
  | ImageDeleteWaiting
  | ImageReplyPhoto (image_url model prompt : string)
  | ImageEditRefused (status : Z) (error_text : string)
  | ImageEditCritical (e : exn).

(** Everything the image handler can change; [i_posts] are the generation
    requests sent, each with its model and prompt. *)
Record image_handled := {
  i_db : Database;
  i_cache : Cache;
  i_posts : list (string * string);
  i_sent : list image_reply;
  i_animation_task : option task;
  i_raised : option exn;
}.

Section group_image.
Context `{PyLib} (ADMIN_IDS : list Z).

(** The handler of a group message that starts with the image trigger.
    [prompt] is the text after the trigger, stripped; [outcome] is what the
    endpoint does with the request. *)
Definition handle_group_image_trigger (prompt : string) (user_id : Z)
    (db : Database) (cache : Cache) (outcome : post_outcome) (tg : telegram)
    (t0 t1 : clock) : image_handled :=
  let ignored (db : Database) (cache : Cache) (sent : list image_reply) :=
    {| i_db := db; i_cache := cache; i_posts := []; i_sent := sent;
       i_animation_task := None; i_raised := None |} in
  if bool_decide (prompt = "") then ignored db cache []
  else
  let '(user_details, cache) := get_user_details_cached user_id db cache (mono t0) in
  match user_details with
  | None => ignored db cache []
  | Some details =>
      if negb (is_verified details) then ignored db cache []
      else if is_blocked details then ignored db cache []
      else
      let '(user_level, db) := get_user_level ADMIN_IDS user_id db (utc t0) in
      if bool_decide (user_level < 2) then ignored db cache []
      else
      let '((daily_limit, _), db) := get_user_limits ADMIN_IDS user_id db (utc t0) in
      let requests_today := get_user_requests_today db user_id false (utc t0) in
      if reached requests_today daily_limit then
        ignored db cache (if reply_ok tg then [ImageReplyNoLimits] else [])
      else
      let model_to_use :=
        if truthy (last_used_image_model details)
        then default DEFAULT_IMAGE_MODEL (last_used_image_model details)
        else DEFAULT_IMAGE_MODEL in
      if negb (is_model_available model_to_use cache (mono t0)) then
        ignored db cache
          (if reply_ok tg then [ImageReplyModelUnavailable model_to_use] else [])
      else
      if negb (waiting_ok tg) then
        {| i_db := db; i_cache := cache; i_posts := []; i_sent := [];
           i_animation_task := None; i_raised := Some TELEGRAM_BAD_REQUEST |}
      else
      let sent := [ImageReplyCreating] in
      let posts := [(model_to_use, prompt)] in
      (* except Exception as e: *)
      let critical (e : exn) (db : Database) (cache : Cache)
          (sent : list image_reply) :=
        let cache := set_model_failed_in_cache model_to_use cache (mono t1) in
        {| i_db := db; i_cache := cache; i_posts := posts;
           i_sent := if critical_ok tg then sent ++ [ImageEditCritical e] else sent;
           i_animation_task := Some Cancelled;
           i_raised := if critical_ok tg then None else Some TELEGRAM_BAD_REQUEST |} in
      match outcome with
      | PostRaised e => critical e db cache sent
      | Response status image_url text =>
          if bool_decide (status = 200) then
            match image_url with
            | Raise e => critical e db cache sent
            | Ok image_url =>
                let db := add_request db user_id model_to_use false (utc t1) in
                if negb (delete_ok tg) then critical TELEGRAM_BAD_REQUEST db cache sent
                else
                let sent := sent ++ [ImageDeleteWaiting] in
                if negb (photo_ok tg) then critical TELEGRAM_BAD_REQUEST db cache sent
                else
                  {| i_db := db; i_cache := cache; i_posts := posts;
                     i_sent := sent ++ [ImageReplyPhoto image_url model_to_use prompt];
                     i_animation_task := Some Cancelled; i_raised := None |}
            end
          else
            let cache := set_model_failed_in_cache model_to_use cache (mono t1) in
            match text with
            | Raise e => critical e db cache sent
            | Ok error_text =>
                if negb (refusal_ok tg) then critical TELEGRAM_BAD_REQUEST db cache sent
                else
                  {| i_db := db; i_cache := cache; i_posts := posts;
                     i_sent := sent ++ [ImageEditRefused status error_text];
                     i_animation_task := Some Cancelled; i_raised := None |}
            end
      end
  end.
End group_image.

(** * Properties *)

(** ** Facts about the TTL cache *)

Section ttl_facts.
Context {K I : Type} `{EqDecision K} (key_of : I → K).
Implicit Types (c : TTL.t I) (ls : list (I * Z)) (l : I * Z) (k : K).

Lemma popitems_suffix cap ls : TTL.popitems cap ls `suffix_of` ls.
Proof.
  induction ls as [|x ls IH]; simpl; [done|].
  case_decide; [|done]. by apply suffix_cons_r.
Qed.

Lemma popitems_elem_of cap ls l : l ∈ TTL.popitems cap ls → l ∈ ls.
Proof.
  intros Hl. destruct (popitems_suffix cap ls) as [pre ->].
  apply elem_of_app. by right.
Qed.

(** With room for two items the most recent one is never popped. *)
Lemma popitems_keeps_last cap ls l :
  (2 ≤ cap)%nat → ∃ ls', TTL.popitems cap (ls ++ [l]) = ls' ++ [l].
Proof.
  intros Hcap. induction ls as [|x ls IH]; simpl.
  - case_decide; [lia|]. by exists [].
  - case_decide; [done|]. by exists (x :: ls).
Qed.

(** With room for one item only, every older item is popped. *)
Lemma popitems_one ls : TTL.popitems 1 ls = [].
Proof.
  induction ls as [|x ls IH]; simpl; [done|].
  case_decide; [done|]. simpl in *. lia.
Qed.

(** A link that is live stays the link of its key until it expires. *)
Lemma get_link_later c k t t' l :
  TTL.get_link key_of c k t = Some l → t ≤ t' → t' < l.2 →
  TTL.get_link key_of c k t' = Some l.
Proof.
  unfold TTL.get_link, TTL.expire. intros Hget Ht Hl.
  induction (TTL.links c) as [|x ls IH]; [done|].
  rewrite filter_cons in Hget. rewrite filter_cons.
  destruct (decide (t < x.2)) as [Hx|Hx].
  - rewrite filter_cons in Hget. destruct (decide (key_of x.1 = k)) as [Hk|Hk].
    + simpl in Hget. injection Hget as ->.
      rewrite decide_True by done. rewrite filter_cons, decide_True by done.
      done.
    + case_decide.
      * rewrite filter_cons, decide_False by done. by apply IH.
      * by apply IH.
  - rewrite decide_False by lia. by apply IH.
Qed.

(** The links a [__setitem__] keeps do not carry the key that is set. *)
Lemma setitem_links c i now :
  ∃ kept, TTL.links (TTL.setitem key_of c i now) = kept ++ [(i, now + TTL.ttl c)]
          ∧ Forall (λ l, key_of l.1 ≠ key_of i) kept
          ∧ kept ⊆ TTL.links c.
Proof.
  unfold TTL.setitem. simpl. eexists. split; [done|].
  case_bool_decide as Hex.
  - split.
    + apply Forall_forall. intros l Hl. by apply list_elem_of_filter in Hl as [? _].
    + intros l Hl. apply list_elem_of_filter in Hl as [_ Hl].
      unfold TTL.expire in Hl. by apply list_elem_of_filter in Hl as [_ Hl].
  - split.
    + apply Forall_forall. intros l Hl Hk. apply Hex.
      apply Exists_exists. exists l. split; [|done].
      by eapply popitems_elem_of.
    + intros l Hl. apply popitems_elem_of in Hl.
      unfold TTL.expire in Hl. by apply list_elem_of_filter in Hl as [_ Hl].
Qed.

Lemma filter_key_none k ls :
  Forall (λ l, key_of l.1 ≠ k) ls → filter (λ l, key_of l.1 = k) ls = [].
Proof.
  induction 1 as [|x ls Hx _ IH]; [done|].
  by rewrite filter_cons, decide_False.
Qed.

(** What was set is read back until it expires. *)
Lemma get_link_setitem c i now now' :
  now' < now + TTL.ttl c →
  TTL.get_link key_of (TTL.setitem key_of c i now) (key_of i) now'
  = Some (i, now + TTL.ttl c).
Proof.
  intros Hlive. unfold TTL.get_link.
  destruct (setitem_links c i now) as (kept & -> & Hkept & _).
  unfold TTL.expire. rewrite !filter_app.
  rewrite (filter_key_none (key_of i) (filter _ kept)).
  - rewrite filter_cons, decide_True by done.
    rewrite filter_cons, decide_True by done. done.
  - apply Forall_forall. intros l Hl. apply list_elem_of_filter in Hl as [_ Hl].
    revert l Hl. by apply Forall_forall.
Qed.

Lemma get_setitem c i now now' :
  now' < now + TTL.ttl c →
  TTL.get key_of (TTL.setitem key_of c i now) (key_of i) now' = Some i.
Proof. intros Hlive. unfold TTL.get. by rewrite get_link_setitem. Qed.

(** Once expired, it is gone. *)
Lemma get_setitem_expired c i now now' :
  now + TTL.ttl c ≤ now' →
  TTL.get key_of (TTL.setitem key_of c i now) (key_of i) now' = None.
Proof.
  intros Hdead. unfold TTL.get, TTL.get_link.
  destruct (setitem_links c i now) as (kept & -> & Hkept & _).
  unfold TTL.expire. rewrite !filter_app.
  rewrite (filter_key_none (key_of i) (filter _ kept)).
  - rewrite filter_cons, decide_False by (simpl; lia). done.
  - apply Forall_forall. intros l Hl. apply list_elem_of_filter in Hl as [_ Hl].
    revert l Hl. by apply Forall_forall.
Qed.

(** Under a key, a [__setitem__] leaves what it sets or what was there. *)
Lemma get_after_setitem c i now k now' j :
  TTL.get key_of (TTL.setitem key_of c i now) k now' = Some j →
  j = i ∨ ∃ e, (j, e) ∈ TTL.links c ∧ key_of j = k.
Proof.
  unfold TTL.get, TTL.get_link. intros Hget.
  destruct (head _) as [[j' e]|] eqn:Hhead; [|done].
  simpl in Hget. injection Hget as ->.
  apply head_Some_elem_of in Hhead.
  apply list_elem_of_filter in Hhead as [Hk Hin].
  unfold TTL.expire in Hin. apply list_elem_of_filter in Hin as [_ Hin].
  destruct (setitem_links c i now) as (kept & Hlinks & _ & Hsub).
  rewrite Hlinks in Hin. apply elem_of_app in Hin as [Hin|Hin].
  - right. exists e. split; [by apply Hsub|done].
  - apply list_elem_of_singleton in Hin. injection Hin as -> _. by left.
Qed.

Lemma popitems_length cap ls :
  (1 ≤ cap)%nat → (length (TTL.popitems cap ls) + 1 ≤ cap)%nat.
Proof.
  intros Hcap. induction ls as [|x ls IH]; simpl; [lia|].
  case_decide; [done|]. simpl in *. lia.
Qed.

(** [__setitem__] keeps the size invariant. *)
Lemma setitem_wf c i now : TTL.wf c → TTL.wf (TTL.setitem key_of c i now).
Proof.
  unfold TTL.wf, TTL.setitem. simpl. intros Hwf.
  rewrite length_app. simpl.
  case_bool_decide as Hex.
  - apply Exists_exists in Hex as (x & Hx & Hk).
    pose proof (length_filter_lt (λ l, key_of l.1 ≠ key_of i) _ x Hx) as Hlt.
    pose proof (length_filter (λ l, now < l.2) (TTL.links c)) as Hle.
    unfold TTL.expire in *.
    assert (¬ key_of x.1 ≠ key_of i) as Hnn by (intros Hne; by apply Hne).
    specialize (Hlt Hnn). lia.
  - apply popitems_length. lia.
Qed.

(** A cache of one item holds what was set last, and nothing else. *)
Lemma setitem_single c i now :
  TTL.wf c → TTL.maxsize c = 1%positive →
  TTL.links (TTL.setitem key_of c i now) = [(i, now + TTL.ttl c)].
Proof.
  intros Hwf Hmax. pose proof (setitem_wf c i now Hwf) as Hwf'.
  destruct (setitem_links c i now) as (kept & Hlinks & _).
  unfold TTL.wf in Hwf'. rewrite Hlinks in Hwf' |- *.
  replace (TTL.maxsize (TTL.setitem key_of c i now)) with (TTL.maxsize c) in Hwf'
    by done.
  rewrite Hmax, length_app in Hwf'. simpl in Hwf'.
  destruct kept; [done|]. simpl in Hwf'. lia.
Qed.

(** With room for two items, setting another key keeps the most recent
    live item. *)
Lemma setitem_keeps_recent c i now older x :
  TTL.links c = older ++ [x] → now < x.2 → key_of x.1 ≠ key_of i →
  (2 ≤ Pos.to_nat (TTL.maxsize c))%nat →
  ∃ pre, TTL.links (TTL.setitem key_of c i now) = pre ++ [x; (i, now + TTL.ttl c)]
         ∧ pre ⊆ older.
Proof.
  intros Hlinks Hlive Hkey Hcap. unfold TTL.setitem. simpl. rewrite Hlinks.
  unfold TTL.expire. rewrite filter_app.
  rewrite (filter_cons _ x), decide_True, filter_nil by done.
  case_bool_decide as Hex.
  - rewrite filter_app, (filter_cons _ x), decide_True, filter_nil by done.
    eexists. split; [by rewrite <- app_assoc|].
    intros l Hl. apply list_elem_of_filter in Hl as [_ Hl].
    by apply list_elem_of_filter in Hl as [_ Hl].
  - destruct (popitems_keeps_last (Pos.to_nat (TTL.maxsize c))
                (filter (λ l, now < l.2) older) x Hcap) as (ls' & Hpop).
    rewrite Hpop. exists ls'. split; [by rewrite <- app_assoc|].
    destruct (popitems_suffix (Pos.to_nat (TTL.maxsize c))
                (filter (λ l, now < l.2) older ++ [x])) as (front & Hfront).
    rewrite Hpop, app_assoc in Hfront.
    apply app_inj_tail in Hfront as [Hfront _].
    intros l Hl. assert (l ∈ filter (λ l, now < l.2) older) as Hin.
    { rewrite Hfront. apply elem_of_app. by right. }
    by apply list_elem_of_filter in Hin as [_ Hin].
Qed.
End ttl_facts.

(** ** The health registry *)

Section registry_facts.
Implicit Types (cache : Cache) (c : TTL.t ms_item) (d : gmap string string).

Lemma get_statuses_setitem c d now now' :
  now' < now + TTL.ttl c →
  get_statuses (TTL.setitem ms_key c (Statuses d) now) now' = d.
Proof.
  intros Hlive. unfold get_statuses.
  by rewrite (get_setitem ms_key c (Statuses d) now now' Hlive).
Qed.

Lemma unavailable_inv model_name cache now :
  is_model_available model_name cache now = false →
  ∃ c, model_status cache = Some c
       ∧ default "OK" (get_statuses c now !! model_name) ≠ "OK".
Proof.
  unfold is_model_available. destruct (model_status cache) as [c|]; [|done].
  intros Hb. exists c. split; [done|]. by apply bool_decide_eq_false in Hb.
Qed.

(** [markFailed] takes effect at once when the registry cache exists. *)
Lemma mark_failed_unavailable model_name cache c now :
  model_status cache = Some c → 0 < TTL.ttl c →
  is_model_available model_name
    (set_model_failed_in_cache model_name cache now) now = false.
Proof.
  intros Hc Httl. unfold set_model_failed_in_cache. rewrite Hc.
  case_bool_decide as Hst.
  - unfold is_model_available. simpl.
    rewrite get_statuses_setitem by lia.
    by rewrite lookup_insert_eq.
  - unfold is_model_available. rewrite Hc.
    by rewrite Hst.
Qed.

(** [markFailed] of any model leaves an unavailable model unavailable. *)
Lemma mark_failed_keeps_unavailable model_name other cache now :
  (∀ c, model_status cache = Some c → 0 < TTL.ttl c) →
  is_model_available model_name cache now = false →
  is_model_available model_name
    (set_model_failed_in_cache other cache now) now = false.
Proof.
  intros Httl Hun.
  destruct (unavailable_inv _ _ _ Hun) as (c & Hc & Hst).
  unfold set_model_failed_in_cache. rewrite Hc.
  case_bool_decide as Hother; [|done].
  unfold is_model_available. simpl.
  rewrite get_statuses_setitem by (specialize (Httl c Hc); lia).
  apply bool_decide_eq_false.
  destruct (decide (other = model_name)) as [->|Hne].
  - by rewrite lookup_insert_eq.
  - by rewrite lookup_insert_ne.
Qed.

(** An unavailable model stays unavailable while the status item it was
    read from is live. *)
Lemma unavailable_until_expiry model_name cache now :
  is_model_available model_name cache now = false →
  ∃ c l, model_status cache = Some c
    ∧ TTL.get_link ms_key c "statuses" now = Some l
    ∧ now < l.2
    ∧ ∀ now', now ≤ now' < l.2 →
        is_model_available model_name cache now' = false.
Proof.
  intros Hun. destruct (unavailable_inv _ _ _ Hun) as (c & Hc & Hst).
  destruct (TTL.get_link ms_key c "statuses" now) as [l|] eqn:Hl; last first.
  { exfalso. apply Hst. unfold get_statuses, TTL.get. by rewrite Hl. }
  exists c, l. split_and!; [done..| |].
  - unfold TTL.get_link in Hl. apply head_Some_elem_of in Hl.
    apply list_elem_of_filter in Hl as [_ Hl]. unfold TTL.expire in Hl.
    by apply list_elem_of_filter in Hl as [? _].
  - intros now' [Hle Hlt].
    pose proof (get_link_later ms_key c "statuses" now now' l Hl Hle Hlt) as Hl'.
    unfold is_model_available in *. rewrite Hc in *.
    unfold get_statuses, TTL.get in *. by rewrite Hl' , <- Hl.
Qed.

(** The state in which a model stays marked up to the horizon [h]: at every
    instant from [t0] up to [h] the registry cache holds a live status
    dictionary in which the model is not OK. *)
Lemma marked_until_step model_name other cache (t0 h ttl t : Z) :
  h ≤ t0 + ttl → t0 ≤ t < h →
  (∃ c, model_status cache = Some c ∧ TTL.ttl c = ttl
        ∧ ∀ now, t0 ≤ now < h →
            ∃ l d, TTL.get_link ms_key c "statuses" now = Some l
                   ∧ l.1 = Statuses d
                   ∧ default "OK" (d !! model_name) ≠ "OK") →
  ∃ c, model_status (set_model_failed_in_cache other cache t) = Some c
       ∧ TTL.ttl c = ttl
       ∧ ∀ now, t0 ≤ now < h →
           ∃ l d, TTL.get_link ms_key c "statuses" now = Some l
                  ∧ l.1 = Statuses d
                  ∧ default "OK" (d !! model_name) ≠ "OK".
Proof.
  intros Hh Ht (c & Hc & Httl & Hinv).
  unfold set_model_failed_in_cache. rewrite Hc.
  case_bool_decide as Hother; [|by exists c].
  eexists. split; [reflexivity|]. split; [done|].
  intros now Hnow.
  destruct (Hinv t Ht) as (l & d & Hl & Hd & Hm).
  assert (get_statuses c t = d) as ->.
  { unfold get_statuses, TTL.get. rewrite Hl. simpl. by rewrite Hd. }
  eexists _, _. split; [apply (get_link_setitem ms_key); lia|].
  split; [reflexivity|].
  destruct (decide (other = model_name)) as [->|Hne].
  - by rewrite lookup_insert_eq.
  - by rewrite lookup_insert_ne.
Qed.

(** After [set_model_failed_in_cache] the model stays unavailable through
    any further [set_model_failed_in_cache] calls, at every instant before
    the status item expires and within the time to live of the mark. *)
Lemma mark_failed_sequence model_name cache c (ops : list (string * Z))
    (t0 h now : Z) :
  model_status cache = Some c → 0 < TTL.ttl c → h ≤ t0 + TTL.ttl c →
  (∀ c' l, model_status (set_model_failed_in_cache model_name cache t0) = Some c' →
           TTL.get_link ms_key c' "statuses" t0 = Some l → h ≤ l.2) →
  Forall (λ op, t0 ≤ op.2 < h) ops → t0 ≤ now < h →
  is_model_available model_name
    (mark_all ops (set_model_failed_in_cache model_name cache t0)) now = false.
Proof.
  intros Hc Httl Hh Hlink Hops Hnow.
  pose proof (mark_failed_unavailable model_name cache c t0 Hc Httl) as Hun.
  destruct (unavailable_until_expiry _ _ _ Hun) as (c' & l & Hc' & Hl & Hlive & _).
  assert (TTL.ttl c' = TTL.ttl c) as Httl'.
  { revert Hc'. unfold set_model_failed_in_cache. rewrite Hc.
    case_bool_decide; simpl; [|rewrite Hc]; by intros [= <-]. }
  assert (∃ c1, model_status
                  (mark_all ops (set_model_failed_in_cache model_name cache t0))
                = Some c1
            ∧ TTL.ttl c1 = TTL.ttl c
            ∧ ∀ t, t0 ≤ t < h →
                ∃ l d, TTL.get_link ms_key c1 "statuses" t = Some l
                       ∧ l.1 = Statuses d
                       ∧ default "OK" (d !! model_name) ≠ "OK") as Hinv.
  { unfold mark_all.
    generalize dependent (set_model_failed_in_cache model_name cache t0).
    intros failed Hlink Hun Hc'.
    assert (∃ c1, model_status failed = Some c1 ∧ TTL.ttl c1 = TTL.ttl c
              ∧ ∀ t, t0 ≤ t < h →
                  ∃ l d, TTL.get_link ms_key c1 "statuses" t = Some l
                         ∧ l.1 = Statuses d
                         ∧ default "OK" (d !! model_name) ≠ "OK") as Hbase.
    { exists c'. split_and!; [done..|]. intros t [Hle Hlt].
      specialize (Hlink c' l Hc' Hl).
      pose proof (get_link_later ms_key c' "statuses" t0 t l Hl Hle) as Hl'.
      rewrite Hl' by lia.
      destruct (unavailable_inv _ _ _ Hun) as (c2 & Hc2 & Hst).
      rewrite Hc' in Hc2. injection Hc2 as <-.
      unfold get_statuses, TTL.get in Hst. rewrite Hl in Hst. simpl in Hst.
      destruct l as [[d|text] e]; [|done]. by exists (Statuses d, e), d. }
    clear Hlink Hun Hc'. revert failed Hbase.
    induction Hops as [|op ops Hop _ IH]; intros failed Hbase; [done|].
    simpl. apply IH. by eapply marked_until_step. }
  destruct Hinv as (c1 & Hc1 & _ & Hinv).
  destruct (Hinv now Hnow) as (l1 & d & Hl1 & Hd & Hm).
  unfold is_model_available. rewrite Hc1.
  unfold get_statuses, TTL.get. rewrite Hl1. simpl. rewrite Hd.
  by apply bool_decide_eq_false.
Qed.
End registry_facts.

(** ** Probe rounds and the registry cache *)

Section probe_round_facts.
Context `{PyLib}.
Implicit Types (cache : Cache) (c : TTL.t ms_item) (db : Database)
  (results : list (string * string)).

(** The registry cache after the two writes of a probe round. *)
Lemma apply_results_cache results db cache c now now_utc :
  model_status cache = Some c →
  model_status (apply_results results db cache now now_utc).2 =
    Some (TTL.setitem ms_key
            (TTL.setitem ms_key c (Statuses (statuses_of_results results)) now)
            (LastReport (report_of results now_utc)) now).
Proof. intros Hc. unfold apply_results. by rewrite Hc. Qed.

Lemma apply_results_no_cache results db cache now now_utc :
  model_status cache = None →
  (apply_results results db cache now now_utc).2 = cache.
Proof. intros Hc. unfold apply_results. by rewrite Hc. Qed.

(** A model the round reports as OK is available afterwards. *)
Lemma probe_ok_available results db cache now now_utc model_name now' :
  statuses_of_results results !! model_name = Some "OK" →
  is_model_available model_name
    (apply_results results db cache now now_utc).2 now' = true.
Proof.
  intros Hok. unfold is_model_available.
  destruct (model_status cache) as [c|] eqn:Hc; last first.
  { rewrite apply_results_no_cache by done. by rewrite Hc. }
  rewrite (apply_results_cache _ _ _ c) by done.
  apply bool_decide_eq_true. unfold get_statuses.
  destruct (TTL.get _ _ _ _) as [j|] eqn:Hget; [|done].
  apply get_after_setitem in Hget as [->|(e & Hin & Hk)]; [done|].
  destruct (setitem_links ms_key c (Statuses (statuses_of_results results)) now)
    as (kept & Hlinks & Hkept & _).
  rewrite Hlinks in Hin. apply elem_of_app in Hin as [Hin|Hin].
  - rewrite Forall_forall in Hkept. by destruct (Hkept _ Hin).
  - apply list_elem_of_singleton in Hin. injection Hin as -> _. by rewrite Hok.
Qed.

(** In a registry cache of one item the report evicts the statuses the
    round has just written: every model reads as available afterwards,
    whatever the round reported. *)
Lemma probe_round_forgets results db cache c now now_utc model_name now' :
  model_status cache = Some c → TTL.wf c → TTL.maxsize c = 1%positive →
  is_model_available model_name
    (apply_results results db cache now now_utc).2 now' = true.
Proof.
  intros Hc Hwf Hmax. unfold is_model_available.
  rewrite (apply_results_cache _ _ _ c) by done.
  unfold get_statuses, TTL.get, TTL.get_link.
  rewrite setitem_single; [|by apply setitem_wf|done].
  unfold TTL.expire. rewrite filter_cons. case_decide; [|done].
  by rewrite filter_cons, decide_False.
Qed.

(** With room for two items the statuses stay next to the report. *)
Lemma probe_round_retains results db cache c now now_utc now' :
  model_status cache = Some c → (2 ≤ Pos.to_nat (TTL.maxsize c))%nat →
  now ≤ now' < now + TTL.ttl c →
  ∃ c', model_status (apply_results results db cache now now_utc).2 = Some c'
        ∧ get_statuses c' now' = statuses_of_results results.
Proof.
  intros Hc Hcap [Hle Hlt]. eexists. split; [by apply apply_results_cache|].
  set (S := Statuses (statuses_of_results results)).
  set (R := LastReport (report_of results now_utc)).
  destruct (setitem_links ms_key c S now) as (kept & Hlinks & Hkept & _).
  destruct (setitem_keeps_recent ms_key (TTL.setitem ms_key c S now) R now
              kept (S, now + TTL.ttl c)) as (pre & Hpre & Hsub);
    [done|simpl; lia|done|done|].
  replace (TTL.ttl (TTL.setitem ms_key c S now)) with (TTL.ttl c) in Hpre by done.
  assert (Forall (λ l, ms_key l.1 ≠ "statuses") pre) as Hno.
  { apply Forall_forall. intros l Hl. rewrite Forall_forall in Hkept.
    by apply Hkept, Hsub. }
  unfold get_statuses, TTL.get, TTL.get_link. rewrite Hpre.
  unfold TTL.expire. rewrite !filter_app.
  rewrite (filter_key_none ms_key "statuses" (filter _ pre)); last first.
  { apply Forall_forall. intros l Hl. apply list_elem_of_filter in Hl as [_ Hl].
    rewrite Forall_forall in Hno. by apply Hno. }
  rewrite filter_cons, decide_True by (simpl; lia).
  by rewrite filter_cons, decide_True.
Qed.
End probe_round_facts.

(** ** C7, C10, C2: availability, failure marks and recovery *)

(** C7.  A model that was never probed and never marked failed is available:
    [is_model_available] answers [True] when the cache dictionary has no
    ["model_status"] entry, when the registry cache holds no live status
    dictionary, and when the status dictionary has no entry for the model. *)
Theorem is_model_available_fail_open (model_name : string) (cache : Cache) (now : Z) :
  model_status cache = None
  ∨ (∃ c, model_status cache = Some c
          ∧ TTL.get ms_key c "statuses" now = None)
  ∨ (∃ c d, model_status cache = Some c
            ∧ TTL.get ms_key c "statuses" now = Some (Statuses d)
            ∧ d !! model_name = None) →
  is_model_available model_name cache now = true.
Proof.
  unfold is_model_available, get_statuses.
  intros [Hnone|[(c & Hc & Hget)|(c & d & Hc & Hget & Hd)]].
  - by rewrite Hnone.
  - by rewrite Hc, Hget.
  - by rewrite Hc, Hget, Hd.
Qed.

Lemma is_model_available_fail_open_witness :
  is_model_available "gpt-4.1" NO_CACHE 0 = true
  ∧ is_model_available "gpt-4.1" GLOBAL_CACHE 0 = true
  ∧ is_model_available "gpt-4.1"
      (set_model_failed_in_cache "grok-3" GLOBAL_CACHE 0) 1 = true.
Proof.
  split_and!.
  - apply is_model_available_fail_open. by left.
  - apply is_model_available_fail_open. right; left.
    eexists. split; [reflexivity|]. by vm_compute.
  - apply is_model_available_fail_open. right; right.
    eexists _, _. split; [reflexivity|]. split; [by vm_compute|]. by vm_compute.
Defined.

(** C10 as stated does not hold of its own instances.  The cache dictionary
    [bot.py] creates binds ["model_status"] to the registry cache from the
    start and keeps it bound: what expires are the items of the registry
    cache.  Before the first probe round, and again once what the registry
    cache held has expired, it holds no statuses, and there
    [set_model_failed_in_cache] does record the mark: the cache changes and
    the model reads as unavailable. *)
Lemma mark_failed_in_empty_registry :
  let expired := set_model_failed_in_cache "grok-3" GLOBAL_CACHE 0 in
  set_model_failed_in_cache "gpt-4.1" GLOBAL_CACHE 0 ≠ GLOBAL_CACHE
  ∧ is_model_available "gpt-4.1"
      (set_model_failed_in_cache "gpt-4.1" GLOBAL_CACHE 0) 0 = false
  ∧ (λ c, TTL.get ms_key c "statuses" 600) <$> model_status expired = Some None
  ∧ set_model_failed_in_cache "gpt-4.1" expired 600 ≠ expired
  ∧ is_model_available "gpt-4.1"
      (set_model_failed_in_cache "gpt-4.1" expired 600) 600 = false.
Proof.
  cbv zeta. split_and!; by vm_compute.
Qed.

(** C10, amended.  [set_model_failed_in_cache] changes nothing, and the model
    still reads as available, when the cache dictionary has no
    ["model_status"] entry at all.  When the entry is there and the registry
    cache holds no live statuses (before the first probe round, or after
    they have expired), the call writes a status dictionary that holds the
    mark of this model alone, and the model reads as unavailable for the
    time to live of the registry cache. *)
Theorem set_model_failed_without_registry (model_name : string) (cache : Cache)
    (now now' : Z) :
  (model_status cache = None →
   set_model_failed_in_cache model_name cache now = cache
   ∧ is_model_available model_name
       (set_model_failed_in_cache model_name cache now) now' = true)
  ∧ (∀ c, model_status cache = Some c →
       TTL.get ms_key c "statuses" now = None →
       model_status (set_model_failed_in_cache model_name cache now)
       = Some (TTL.setitem ms_key c (Statuses {[model_name := "FAILED"]}) now)
       ∧ (now' < now + TTL.ttl c →
          is_model_available model_name
            (set_model_failed_in_cache model_name cache now) now' = false)).
Proof.
  split.
  - intros Hnone. unfold set_model_failed_in_cache, is_model_available.
    by rewrite Hnone, Hnone.
  - intros c Hc Hget.
    assert (get_statuses c now = ∅) as Hempty.
    { unfold get_statuses. by rewrite Hget. }
    unfold set_model_failed_in_cache, is_model_available.
    rewrite Hc, Hempty.
    rewrite bool_decide_eq_true_2 by by rewrite lookup_empty.
    cbn [model_status]. rewrite insert_empty. split; [done|].
    intros Hlive. rewrite get_statuses_setitem by done.
    by rewrite lookup_singleton_eq.
Qed.

Lemma set_model_failed_without_registry_witness :
  (set_model_failed_in_cache "gpt-4.1" NO_CACHE 0 = NO_CACHE
   ∧ is_model_available "gpt-4.1"
       (set_model_failed_in_cache "gpt-4.1" NO_CACHE 0) 5 = true)
  ∧ model_status (set_model_failed_in_cache "gpt-4.1" GLOBAL_CACHE 0)
    = Some (TTL.setitem ms_key (TTL.mk 1 600 [])
              (Statuses {["gpt-4.1" := "FAILED"]}) 0)
  ∧ is_model_available "gpt-4.1"
      (set_model_failed_in_cache "gpt-4.1" GLOBAL_CACHE 0) 599 = false.
Proof.
  split.
  - apply (set_model_failed_without_registry "gpt-4.1" NO_CACHE 0 5). reflexivity.
  - destruct (set_model_failed_without_registry "gpt-4.1" GLOBAL_CACHE 0 599)
      as [_ Hempty].
    destruct (Hempty (TTL.mk 1 600 []) eq_refl eq_refl) as [Hwritten Hunavailable].
    split; [exact Hwritten|]. apply Hunavailable. simpl. lia.
Defined.

(** C2 as stated does not hold.  Without a ["model_status"] entry the mark is
    not recorded at all; and in the cache [bot.py] creates the mark is
    forgotten 600 s after it was written, with no probe round in between. *)
Lemma mark_failed_recovers_without_probe :
  is_model_available "gpt-4.1"
    (set_model_failed_in_cache "gpt-4.1" NO_CACHE 0) 0 = true
  ∧ is_model_available "gpt-4.1"
      (set_model_failed_in_cache "gpt-4.1" GLOBAL_CACHE 0) 599 = false
  ∧ is_model_available "gpt-4.1"
      (set_model_failed_in_cache "gpt-4.1" GLOBAL_CACHE 0) 600 = true.
Proof. by vm_compute. Qed.

(** C2, amended.  When the cache dictionary has a ["model_status"] entry
    (with a positive time to live):
    - right after [set_model_failed_in_cache] the model is unavailable;
    - no later [set_model_failed_in_cache], of this or another model, makes
      an unavailable model available;
    - what [is_model_available] answers does not change as time passes
      while the status item it reads is live, so an unavailable model stays
      unavailable until that item expires;
    - hence after [set_model_failed_in_cache] the model is unavailable
      through every sequence of further [set_model_failed_in_cache] calls,
      at every instant before the horizon [h], which is neither later than
      the time to live after the mark nor later than the expiry of the
      status item;
    - a probe round that reports the model as OK makes it available. *)
Theorem mark_failed_until_expiry_or_probe `{PyLib} (model_name : string) :
  (∀ cache c now,
     model_status cache = Some c → 0 < TTL.ttl c →
     is_model_available model_name
       (set_model_failed_in_cache model_name cache now) now = false)
  ∧ (∀ cache other now,
       (∀ c, model_status cache = Some c → 0 < TTL.ttl c) →
       is_model_available model_name cache now = false →
       is_model_available model_name
         (set_model_failed_in_cache other cache now) now = false)
  ∧ (∀ cache c l now now',
       model_status cache = Some c →
       TTL.get_link ms_key c "statuses" now = Some l →
       now ≤ now' < l.2 →
       is_model_available model_name cache now'
       = is_model_available model_name cache now)
  ∧ (∀ cache c (ops : list (string * Z)) t0 h now,
       model_status cache = Some c → 0 < TTL.ttl c → h ≤ t0 + TTL.ttl c →
       (∀ c' l,
          model_status (set_model_failed_in_cache model_name cache t0) = Some c' →
          TTL.get_link ms_key c' "statuses" t0 = Some l → h ≤ l.2) →
       Forall (λ op, t0 ≤ op.2 < h) ops → t0 ≤ now < h →
       is_model_available model_name
         (mark_all ops (set_model_failed_in_cache model_name cache t0)) now
       = false)
  ∧ (∀ results db cache now now_utc now',
       statuses_of_results results !! model_name = Some "OK" →
       is_model_available model_name
         (apply_results results db cache now now_utc).2 now' = true).
Proof.
  split_and!.
  - intros cache c now Hc Httl. by eapply mark_failed_unavailable.
  - intros cache other now Httl Hun. by apply mark_failed_keeps_unavailable.
  - intros cache c l now now' Hc Hl [Hle Hlt].
    pose proof (get_link_later ms_key c "statuses" now now' l Hl Hle Hlt) as Hl'.
    unfold is_model_available. rewrite Hc.
    unfold get_statuses, TTL.get. by rewrite Hl', Hl.
  - intros cache c ops t0 h now Hc Httl Hh Hlink Hops Hnow.
    by eapply mark_failed_sequence.
  - intros results db cache now now_utc now' Hok. by apply probe_ok_available.
Qed.

Lemma mark_failed_until_expiry_or_probe_witness :
  let failed := set_model_failed_in_cache "gpt-4.1" GLOBAL_CACHE 0 in
  is_model_available "gpt-4.1" failed 0 = false
  ∧ is_model_available "gpt-4.1" (set_model_failed_in_cache "grok-3" failed 0) 0 = false
  ∧ is_model_available "gpt-4.1" failed 599 = is_model_available "gpt-4.1" failed 0
  ∧ is_model_available "gpt-4.1"
      (mark_all [("grok-3", 100); ("gpt-4.1", 300)] failed) 599 = false
  ∧ is_model_available "gpt-4.1"
      (@apply_results sample_lib [("gpt-4.1", "OK")] EMPTY_DB failed 10
         1748779200000000).2 10 = true.
Proof.
  intros failed.
  destruct (@mark_failed_until_expiry_or_probe sample_lib "gpt-4.1")
    as (Hmark & Hkeep & Hstable & Hsequence & Hprobe).
  split_and!.
  - eapply Hmark; [reflexivity|]. simpl. lia.
  - apply Hkeep.
    + intros c [= <-]. by vm_compute.
    + by vm_compute.
  - eapply Hstable; [reflexivity|by vm_compute|]. simpl. lia.
  - eapply (Hsequence GLOBAL_CACHE _ _ 0 600 599); [reflexivity|simpl; lia..| | |lia].
    + intros c' l [= <-] Hl. vm_compute in Hl. injection Hl as <-. simpl. lia.
    + repeat constructor; simpl; lia.
  - apply Hprobe. by vm_compute.
Defined.

(** A probe round that reports a marked model as failed again: in the cache
    [bot.py] creates the model reads as available afterwards, in a cache with
    room for two items it stays unavailable. *)
Lemma probe_round_after_mark_failed :
  let results := [("gpt-4.1", "Timeout"); ("grok-3", "OK")] in
  is_model_available "gpt-4.1"
    (@apply_results sample_lib results EMPTY_DB
       (set_model_failed_in_cache "gpt-4.1" GLOBAL_CACHE 0) 10
       1748779200000000).2 10 = true
  ∧ is_model_available "gpt-4.1"
      (@apply_results sample_lib results EMPTY_DB
         (set_model_failed_in_cache "gpt-4.1" (cache_of_size 2) 0) 10
         1748779200000000).2 10 = false.
Proof. by vm_compute. Qed.

(** ** C5: the startup check *)

Section startup_facts.
Context `{PyLib}.
Implicit Types (cache : Cache) (db : Database) (ai_client : AsyncOpenAI).

Lemma gather_chat_tests_calls ai_client models :
  calls (gather_chat_tests ai_client models).2
  = calls ai_client ++ (test_request <$> models).
Proof.
  revert ai_client. induction models as [|m models IH]; intros ai_client; simpl.
  - by rewrite app_nil_r.
  - destruct (gather_chat_tests _ models) as [rs ai'] eqn:Hg. simpl.
    pose proof (IH {| create := create ai_client;
                      calls := calls ai_client ++ [test_request m] |}) as IH'.
    rewrite Hg in IH'. simpl in IH'.
    by rewrite IH', <- app_assoc.
Qed.

(** A probe round sends one chat probe per text model; when it returns, it
    has stamped the snapshot in the store with the current time, and when it
    raises, it has written nothing. *)
Lemma scheduled_model_test_effects ai_client post db cache now now_utc :
  let '(res, ai_client', db', cache') :=
    scheduled_model_test ai_client post db cache now now_utc in
  calls ai_client' = calls ai_client ++ (test_request <$> all_text_models)
  ∧ match res with
    | Ok _ => ∃ value, get_system_state db' "model_status"
                       = Some (value, adapt_datetime now_utc)
    | Raise _ => db' = db ∧ cache' = cache
    end.
Proof.
  unfold scheduled_model_test.
  pose proof (gather_chat_tests_calls ai_client all_text_models) as Hcalls.
  destruct (gather_chat_tests ai_client all_text_models) as [rs ai'].
  destruct (gather _) as [results|e]; [|done].
  destruct (apply_results _ _ _ _ _) as [db' cache'] eqn:Hres.
  split; [done|]. unfold apply_results in Hres. injection Hres as <- _.
  eexists. unfold get_system_state, set_system_state. simpl.
  rewrite lookup_insert_ne by done. by rewrite lookup_insert_eq.
Qed.

(** A snapshot that is present, readable and younger than ten minutes is
    loaded, and no probe round runs. *)
Lemma startup_loads_recent ai_client post db cache now now_utc
    status_json status_timestamp_str report updated status_timestamp :
  get_system_state db "model_status" = Some (status_json, status_timestamp_str) →
  get_system_state db "last_report" = Some (report, updated) →
  fromisoformat status_timestamp_str = Some status_timestamp →
  aware status_timestamp = true →
  now_utc - instant status_timestamp < ten_minutes →
  (∀ c, model_status cache = Some c → is_Some (json_loads status_json)) →
  ∃ cache', startup_model_check ai_client post db cache now now_utc
            = (Ok (), ai_client, db, cache')
    ∧ match model_status cache with
      | Some c =>
          ∃ statuses, json_loads status_json = Some statuses
            ∧ model_status cache' =
                Some (TTL.setitem ms_key
                        (TTL.setitem ms_key c (Statuses statuses) now)
                        (LastReport report) now)
      | None => cache' = cache
      end.
Proof.
  intros Hst Hrep Hparse Haware Hage Hjson.
  unfold startup_model_check, load_recent_status.
  rewrite Hst, Hrep, Hparse, Haware. simpl.
  rewrite bool_decide_eq_true_2 by done.
  destruct (model_status cache) as [c|] eqn:Hc.
  - destruct (Hjson c eq_refl) as [statuses Hs]. rewrite Hs.
    eexists. split; [done|]. by exists statuses.
  - by eexists.
Qed.

(** Otherwise the full check runs: when a row of the snapshot is missing,
    when its timestamp cannot be read or compared, when it is ten minutes
    old or older, and when the registry cache exists but the stored
    statuses are not JSON. *)
Lemma startup_runs_full_check ai_client post db cache now now_utc :
  get_system_state db "model_status" = None
  ∨ get_system_state db "last_report" = None
  ∨ (∃ status_json status_timestamp_str,
       get_system_state db "model_status" = Some (status_json, status_timestamp_str)
       ∧ (fromisoformat status_timestamp_str = None
          ∨ (∃ ts, fromisoformat status_timestamp_str = Some ts
                   ∧ (aware ts = false
                      ∨ ten_minutes ≤ now_utc - instant ts
                      ∨ (is_Some (model_status cache)
                         ∧ json_loads status_json = None))))) →
  startup_model_check ai_client post db cache now now_utc
  = scheduled_model_test ai_client post db cache now now_utc.
Proof.
  unfold startup_model_check, load_recent_status.
  intros [Hst|[Hrep|(js & ts_str & Hst & Hcases)]].
  - by rewrite Hst.
  - rewrite Hrep. by destruct (get_system_state db "model_status").
  - rewrite Hst. destruct (get_system_state db "last_report") as [rep|]; [|done].
    destruct Hcases as [Hnone|(ts & Hts & Hcases)].
    + by rewrite Hnone.
    + rewrite Hts. destruct Hcases as [Hnaive|[Hold|[[c Hc] Hjson]]].
      * by rewrite Hnaive.
      * destruct (aware ts); [|done]. simpl.
        by rewrite bool_decide_eq_false_2 by lia.
      * destruct (aware ts); [|done]. simpl.
        case_bool_decide; [|done]. by rewrite Hc, Hjson.
Qed.
End startup_facts.

(** C5.  At 12:05 the snapshot of 12:00 is adopted and no probe is sent, at
    12:20 a probe round runs instead.  But in the registry cache [bot.py]
    creates, which holds one item, writing the report evicts the statuses
    that were just loaded: [gpt-4.1], which the snapshot reports as timed
    out, reads as available after the startup check.  With room for two
    items the same call leaves it unavailable. *)
Theorem startup_adoption_loses_statuses :
  let '(res, ai_client, db, cache) :=
    @startup_model_check sample_lib HEALTHY_CLIENT HEALTHY_POST SNAPSHOT_DB
      GLOBAL_CACHE 0 1748779500000000 in
  let '(res20, ai_client20, _, _) :=
    @startup_model_check sample_lib HEALTHY_CLIENT HEALTHY_POST SNAPSHOT_DB
      GLOBAL_CACHE 0 1748780400000000 in
  let '(_, _, _, cache2) :=
    @startup_model_check sample_lib HEALTHY_CLIENT HEALTHY_POST SNAPSHOT_DB
      (cache_of_size 2) 0 1748779500000000 in
  res = Ok () ∧ res20 = Ok ()
  ∧ calls ai_client = [] ∧ db = SNAPSHOT_DB
  ∧ length (calls ai_client20) = 12%nat
  ∧ (λ c, get_last_report c 0) <$> model_status cache = Some (Some "report")
  ∧ (λ c, get_statuses c 0) <$> model_status cache = Some ∅
  ∧ is_model_available "gpt-4.1" cache 0 = true
  ∧ is_model_available "gpt-4.1" cache2 0 = false.
Proof. vm_compute. split_and!; reflexivity. Qed.

(** ** C8: the daily count *)

Lemma count_add_request (db : Database) (user_id : Z) (model : string)
    (max_mode : bool) (t : Z) (user_id' : Z) (max_mode' : bool) (now_utc : Z) :
  get_user_requests_today (add_request db user_id model max_mode t)
    user_id' max_mode' now_utc
  = get_user_requests_today db user_id' max_mode' now_utc
    + (if bool_decide (user_id = user_id' ∧ msk_date t = msk_date now_utc
                       ∧ max_mode = max_mode') then 1 else 0).
Proof.
  unfold get_user_requests_today, add_request. simpl.
  rewrite filter_app, length_app, filter_cons, filter_nil. simpl.
  case_decide; case_bool_decide; simpl; try lia; naive_solver.
Qed.

(** C8.  [get_user_requests_today] counts the rows of the user and mode whose
    recorded date is the MSK calendar day of the moment of the call: rows
    recorded on any other day add nothing, and a request recorded by
    [add_request] adds one exactly when it was recorded on the same MSK day
    for the same user and mode.  Nothing resets the table. *)
Theorem requests_today_counts_msk_day (db : Database) (user_id : Z)
    (max_mode : bool) (now_utc : Z) :
  (get_user_requests_today db user_id max_mode now_utc
   = Z.of_nat (length (filter
       (λ r, req_user_id r = user_id ∧ is_max_mode r = max_mode)
       (filter (λ r, request_date r = msk_date now_utc) (requests db)))))
  ∧ (Forall (λ r, req_user_id r = user_id → request_date r ≠ msk_date now_utc)
       (requests db) →
     get_user_requests_today db user_id max_mode now_utc = 0)
  ∧ (∀ model t,
       msk_date t ≠ msk_date now_utc →
       get_user_requests_today (add_request db user_id model max_mode t)
         user_id max_mode now_utc
       = get_user_requests_today db user_id max_mode now_utc)
  ∧ (∀ model t,
       msk_date t = msk_date now_utc →
       get_user_requests_today (add_request db user_id model max_mode t)
         user_id max_mode now_utc
       = get_user_requests_today db user_id max_mode now_utc + 1).
Proof.
  split_and!.
  - unfold get_user_requests_today. f_equal. f_equal.
    induction (requests db) as [|r rs IH]; [done|].
    rewrite !filter_cons. repeat case_decide; simpl;
      rewrite ?filter_cons; repeat case_decide; simpl;
      rewrite ?IH; try done; naive_solver.
  - unfold get_user_requests_today. intros Hall.
    induction Hall as [|r rs Hr _ IH]; [done|].
    rewrite filter_cons. case_decide; [naive_solver|done].
  - intros model t Hday. rewrite count_add_request.
    rewrite bool_decide_eq_false_2 by naive_solver. lia.
  - intros model t Hday. rewrite count_add_request.
    by rewrite bool_decide_eq_true_2.
Qed.

(** A request recorded at 20:59:59 UTC (23:59:59 MSK) counts that day and no
    longer one second later. *)
Lemma requests_today_counts_msk_day_witness :
  let db := add_request EMPTY_DB 8 "gpt-4.1" false 1748811599000000 in
  get_user_requests_today db 8 false 1748811599000000 = 1
  ∧ get_user_requests_today db 8 false 1748811600000000 = 0
  ∧ get_user_requests_today
      (add_request db 8 "gpt-4.1" false 1748811600000000) 8 false
      1748811600000000 = 1.
Proof.
  intros db. split_and!.
  - destruct (requests_today_counts_msk_day EMPTY_DB 8 false 1748811599000000)
      as (_ & _ & _ & Hsame).
    unfold db. rewrite Hsame by reflexivity. reflexivity.
  - destruct (requests_today_counts_msk_day db 8 false 1748811600000000)
      as (_ & Hother & _ & _).
    apply Hother. repeat constructor. intros _. by vm_compute.
  - destruct (requests_today_counts_msk_day db 8 false 1748811600000000)
      as (_ & Hother & _ & Hsame).
    rewrite Hsame by reflexivity. rewrite Hother; [reflexivity|].
    repeat constructor. intros _. by vm_compute.
Defined.

(** ** C6: the limits of a user *)

Section limits_facts.
Context `{PyLib} (ADMIN_IDS : list Z).
Implicit Types (db : Database) (user : user_row).




End limits_facts.


(** ** C3, C4: the ensemble *)

Section ensemble_facts.
Context `{PyLib}.
Implicit Types (ai_client : AsyncOpenAI) (db : Database) (cache : Cache)
  (results : list (string * option string)).

(** One call sends one request to the model and hands its outcome on. *)
Lemma get_simple_response_spec ai_client model messages user_id db cache now :
  ∃ rq, rq_model rq = model
    ∧ (get_simple_response ai_client model messages user_id db cache now).1.2
      = {| create := create ai_client; calls := calls ai_client ++ [rq] |}
    ∧ (get_simple_response ai_client model messages user_id db cache now).1.1
      = match create ai_client rq with
        | Returned None => Ok ""
        | Returned (Some response_text) => Ok response_text
        | Raised e => Raise e
        end.
Proof.
  unfold get_simple_response.
  destruct (get_user_details_cached user_id db cache now) as [details cache'].
  unfold chat_completions_create.
  exists (final_request model messages details). split; [done|].
  by destruct (create ai_client _) as [[?|]|?].
Qed.

(** A participant never raises and never yields [None]: it yields the text
    of the answer, the empty text for an answer without content, or the
    failure text with the type of the exception. *)
Lemma participant_response_spec ai_client model prompt user_id db cache now :
  ∃ rq, rq_model rq = model
    ∧ (_get_participant_response ai_client model prompt user_id db cache now).1.2
      = {| create := create ai_client; calls := calls ai_client ++ [rq] |}
    ∧ (_get_participant_response ai_client model prompt user_id db cache now).1.1
      = (model,
         Some match create ai_client rq with
              | Returned None => ""
              | Returned (Some response_text) => response_text
              | Raised e =>
                  "ОШИБКА: Модель не смогла обработать запрос. (" +:+
                    type_name e +:+ ")"
              end).
Proof.
  unfold _get_participant_response.
  destruct (get_simple_response_spec ai_client model
              [{| role := "user"; content := prompt |}] user_id db cache now)
    as (rq & Hmodel & Hclient & Hres).
  destruct (get_simple_response _ _ _ _ _ _ _) as [[res ai'] cache'].
  simpl in *. exists rq. split; [done|].
  destruct res as [response|e]; simpl; (split; [done|]);
    destruct (create ai_client rq) as [[?|]|?]; by simplify_eq.
Qed.

(** Each participant is sent one request, and nobody else is; the log lists
    the requests in task order. *)
Lemma gather_participants_calls ai_client models prompt user_id db cache now :
  ∃ new, calls (gather_participants ai_client models prompt user_id db cache now).1.2
         = calls ai_client ++ new
    ∧ create (gather_participants ai_client models prompt user_id db cache now).1.2
      = create ai_client
    ∧ rq_model <$> new = models.
Proof.
  revert ai_client cache. induction models as [|m models IH];
    intros ai_client cache; simpl.
  - exists []. by rewrite app_nil_r.
  - destruct (participant_response_spec ai_client m prompt user_id db cache now)
      as (rq & Hmodel & Hclient & _).
    destruct (_get_participant_response _ _ _ _ _ _ _) as [[r ai1] cache1].
    simpl in Hclient. subst ai1.
    destruct (IH {| create := create ai_client; calls := calls ai_client ++ [rq] |}
                cache1) as (new & Hcalls & Hcreate & Hmodels).
    destruct (gather_participants _ models _ _ _ _ _) as [[rs ai2] cache2].
    simpl in *. exists (rq :: new). split_and!.
    + by rewrite Hcalls, <- app_assoc.
    + done.
    + rewrite fmap_cons. by rewrite Hmodel, Hmodels.
Qed.

(** What the loop over the results computes. *)
Lemma collect_spec results parts n :
  collect results parts n
  = (parts ++ (participant_part <$> results),
     (n + length (filter
        (λ r, String.prefix ERROR_MARK (safe_response_text r.2) = false)
        results))%nat).
Proof.
  revert parts n. induction results as [|r results IH]; intros parts n; simpl.
  - by rewrite app_nil_r, Nat.add_0_r.
  - rewrite IH, <- app_assoc, filter_cons. simpl.
    case_decide as Hmark; rewrite Hmark || (apply not_false_is_true in Hmark;
      rewrite Hmark); simpl; f_equal; lia.
Qed.

(** When every call to a participant raises, every result carries the error
    mark. *)
Lemma gather_all_raise ai_client models prompt user_id db cache now :
  (∀ rq, rq_model rq ∈ models → ∃ e, create ai_client rq = Raised e) →
  Forall (λ r, String.prefix ERROR_MARK (safe_response_text r.2) = true)
    (gather_participants ai_client models prompt user_id db cache now).1.1.
Proof.
  revert ai_client cache. induction models as [|m models IH];
    intros ai_client cache Hraise; simpl; [by constructor|].
  destruct (participant_response_spec ai_client m prompt user_id db cache now)
    as (rq & Hmodel & Hclient & Hres).
  destruct (_get_participant_response _ _ _ _ _ _ _) as [[r ai1] cache1].
  simpl in Hclient, Hres. subst ai1 r.
  specialize (IH {| create := create ai_client; calls := calls ai_client ++ [rq] |}
                cache1).
  destruct (gather_participants _ models _ _ _ _ _) as [[rs ai2] cache2].
  simpl in *. constructor.
  - destruct (Hraise rq) as [e ->]; [rewrite Hmodel; by left|]. reflexivity.
  - apply IH. intros rq' Hrq'. apply Hraise. by right.
Qed.

Lemma get_simple_response_request ai_client model messages user_id db cache now :
  ∃ details,
    (get_simple_response ai_client model messages user_id db cache now).1.2
    = {| create := create ai_client;
         calls := calls ai_client ++ [final_request model messages details] |}
    ∧ (get_simple_response ai_client model messages user_id db cache now).1.1
      = match create ai_client (final_request model messages details) with
        | Returned None => Ok ""
        | Returned (Some response_text) => Ok response_text
        | Raised e => Raise e
        end.
Proof.
  unfold get_simple_response.
  destruct (get_user_details_cached user_id db cache now) as [details cache'].
  unfold chat_completions_create. exists details.
  by destruct (create ai_client _) as [[?|]|?].
Qed.

Lemma final_request_last model messages details m :
  last (rq_messages (final_request model (messages ++ [m]) details)) = Some m.
Proof.
  unfold final_request. simpl. by rewrite app_assoc, last_snoc.
Qed.

(** When some participant result is a non-error response, the arbiter is
    asked once, last, with a prompt made of the fixed head, one labelled part
    per participant, in order, with the text its result carries (answer or
    failure text), and the closing line; the run returns the arbiter's text,
    and fails with the arbiter error when the arbiter's call raises. *)
Lemma get_max_mode_response_prompt ai_client prompt user_id db cache now :
  let results :=
    (gather_participants ai_client MAX_MODE_PARTICIPANTS prompt user_id db
       cache now).1.1 in
  Exists (λ r, String.prefix ERROR_MARK (safe_response_text r.2) = false) results →
  ∃ rq, rq_model rq = MAX_MODE_ARBITER
    ∧ last (calls (get_max_mode_response ai_client prompt user_id db cache now).1.2)
      = Some rq
    ∧ content <$> last (rq_messages rq)
      = Some (String.concat nl
                (meta_prompt_head prompt ++ (participant_part <$> results) ++
                 [nl +:+ "**ТВОЙ ИТОГОВЫЙ РЕЗУЛЬТАТ (выполни ШАГ 2 и ШАГ 3):**"]))
    ∧ (get_max_mode_response ai_client prompt user_id db cache now).1.1
      = match create ai_client rq with
        | Returned None => Ok ""
        | Returned (Some final_response_text) => Ok final_response_text
        | Raised _ => Raise ARBITER_FAILED
        end.
Proof.
  intros results Hsome. unfold get_max_mode_response. subst results.
  destruct (gather_participants_calls ai_client MAX_MODE_PARTICIPANTS prompt
              user_id db cache now) as (new & Hcalls & Hcreate & Hmodels).
  destruct (gather_participants _ _ _ _ _ _ _) as [[results ai1] cache1].
  simpl in Hsome, Hcalls, Hcreate. rewrite collect_spec.
  rewrite bool_decide_eq_false_2; last first.
  { apply Exists_exists in Hsome as (r & Hr & Hmark). simpl.
    destruct (filter _ results) eqn:Hfilter; [|done].
    exfalso. by apply (filter_nil_not_elem_of _ _ r Hfilter Hmark). }
  match goal with
  | |- context [get_simple_response ai1 ?m [?x] ?u ?d ?c ?t] =>
      destruct (get_simple_response_request ai1 m [x] u d c t)
        as (details & Hclient & Hres);
      pose proof (final_request_last m [] details x) as Hlast;
      change ([] ++ [x]) with [x] in Hlast;
      destruct (get_simple_response ai1 m [x] u d c t)
        as [[res ai2] cache2];
      exists (final_request m [x] details)
  end.
  simpl in Hclient, Hres. subst ai2. rewrite Hcreate in Hres.
  split_and!; [reflexivity| | |].
  - destruct res; simpl; by rewrite last_snoc.
  - rewrite Hlast, <- app_assoc. reflexivity.
  - rewrite Hres. by destruct (create ai_client _) as [[?|]|?].
Qed.

(** When every call to a participant returns a response without text
    content, every result is the empty text, which carries no error mark. *)
Lemma gather_all_mute ai_client models prompt user_id db cache now :
  (∀ rq, rq_model rq ∈ models → create ai_client rq = Returned None) →
  (gather_participants ai_client models prompt user_id db cache now).1.1
  = (λ m, (m, Some "")) <$> models.
Proof.
  revert ai_client cache. induction models as [|m models IH];
    intros ai_client cache Hmute; simpl; [done|].
  destruct (participant_response_spec ai_client m prompt user_id db cache now)
    as (rq & Hmodel & Hclient & Hres).
  destruct (_get_participant_response _ _ _ _ _ _ _) as [[r ai1] cache1].
  simpl in Hclient, Hres. subst ai1 r.
  specialize (IH {| create := create ai_client; calls := calls ai_client ++ [rq] |}
                cache1).
  destruct (gather_participants _ models _ _ _ _ _) as [[rs ai2] cache2].
  simpl in *. f_equal.
  - rewrite (Hmute rq); [done|]. rewrite Hmodel. by left.
  - apply IH. intros rq' Hrq'. apply Hmute. by right.
Qed.

(** The requests of a run in which some participant result is a non-error
    response: the participants', then one to the arbiter, whose outcome
    decides how the run ends. *)
Lemma get_max_mode_response_arbiter ai_client prompt user_id db cache now :
  Exists (λ r, String.prefix ERROR_MARK (safe_response_text r.2) = false)
    (gather_participants ai_client MAX_MODE_PARTICIPANTS prompt user_id db
       cache now).1.1 →
  ∃ pre rq,
    calls (get_max_mode_response ai_client prompt user_id db cache now).1.2
    = calls ai_client ++ pre ++ [rq]
    ∧ rq_model <$> pre = MAX_MODE_PARTICIPANTS
    ∧ rq_model rq = MAX_MODE_ARBITER
    ∧ (get_max_mode_response ai_client prompt user_id db cache now).1.1
      = match create ai_client rq with
        | Returned None => Ok ""
        | Returned (Some final_response_text) => Ok final_response_text
        | Raised _ => Raise ARBITER_FAILED
        end.
Proof.
  intros Hsome. unfold get_max_mode_response.
  destruct (gather_participants_calls ai_client MAX_MODE_PARTICIPANTS prompt
              user_id db cache now) as (pre & Hcalls & Hcreate & Hmodels).
  destruct (gather_participants _ _ _ _ _ _ _) as [[results ai1] cache1].
  simpl in Hsome, Hcalls, Hcreate. rewrite collect_spec.
  rewrite bool_decide_eq_false_2; last first.
  { apply Exists_exists in Hsome as (r & Hr & Hmark). simpl.
    destruct (filter _ results) eqn:Hfilter; [|done].
    exfalso. by apply (filter_nil_not_elem_of _ _ r Hfilter Hmark). }
  match goal with
  | |- context [get_simple_response ai1 ?m ?msgs ?u ?d ?c ?t] =>
      destruct (get_simple_response_spec ai1 m msgs u d c t)
        as (rq & Hmodel & Hclient & Hres);
      destruct (get_simple_response ai1 m msgs u d c t) as [[res ai2] cache2]
  end.
  simpl in Hclient, Hres. subst ai2. rewrite Hcreate in Hres.
  exists pre, rq. split_and!; [|done|done|].
  - destruct res; simpl; by rewrite Hcalls, <- app_assoc.
  - rewrite Hres. by destruct (create ai_client rq) as [[?|]|?].
Qed.

(** When every participant result carries the error mark, the run raises the
    all-participants-failed error and has sent the participants' requests
    only. *)
Lemma get_max_mode_response_all_marked ai_client prompt user_id db cache now :
  Forall (λ r, String.prefix ERROR_MARK (safe_response_text r.2) = true)
    (gather_participants ai_client MAX_MODE_PARTICIPANTS prompt user_id db
       cache now).1.1 →
  (get_max_mode_response ai_client prompt user_id db cache now).1.1
  = Raise ALL_FAILED
  ∧ ∃ new,
      calls (get_max_mode_response ai_client prompt user_id db cache now).1.2
      = calls ai_client ++ new
      ∧ rq_model <$> new = MAX_MODE_PARTICIPANTS.
Proof.
  intros Hall. unfold get_max_mode_response.
  destruct (gather_participants_calls ai_client MAX_MODE_PARTICIPANTS prompt
              user_id db cache now) as (new & Hcalls & _ & Hmodels).
  destruct (gather_participants _ _ _ _ _ _ _) as [[results ai1] cache1].
  simpl in Hall, Hcalls. rewrite collect_spec.
  assert (filter (λ r, String.prefix ERROR_MARK (safe_response_text r.2) = false)
            results = []) as ->.
  { induction Hall as [|r rs Hr _ IH]; [done|].
    rewrite filter_cons, decide_False; [done|]. by rewrite Hr. }
  simpl. split; [done|]. by exists new.
Qed.
End ensemble_facts.

Lemma arbiter_not_participant : MAX_MODE_ARBITER ∉ MAX_MODE_PARTICIPANTS.
Proof. apply (bool_decide_unpack _). by vm_compute. Qed.

(** C4.  The claim holds of participants that raise and fails of
    participants that answer without text.  When every call to a participant
    returns a response without text content, no participant has returned a
    non-error response (a non-text response is a failure: the run has a
    failure text for it, and its log line for the all-failed case reads "all
    participants returned an error or empty content"); yet the run does not
    raise the all-participants-failed error: it sends the arbiter a request,
    after the six to the participants, and ends as the arbiter's call does.
    When every call to a participant raises, the run raises the
    all-participants-failed error, and the only requests it has sent are the
    six to the participants: none goes to the arbiter. *)
Theorem empty_answers_reach_arbiter `{PyLib} (ai_client : AsyncOpenAI)
    (prompt : string) (user_id : Z) (db : Database) (cache : Cache) (now : Z) :
  let r := get_max_mode_response ai_client prompt user_id db cache now in
  ((∀ rq, rq_model rq ∈ MAX_MODE_PARTICIPANTS → create ai_client rq = Returned None) →
   r.1.1 ≠ Raise ALL_FAILED
   ∧ ∃ pre rq,
       calls r.1.2 = calls ai_client ++ pre ++ [rq]
       ∧ rq_model <$> pre ≡ₚ MAX_MODE_PARTICIPANTS
       ∧ rq_model rq = MAX_MODE_ARBITER
       ∧ r.1.1 = match create ai_client rq with
                 | Returned None => Ok ""
                 | Returned (Some final_response_text) => Ok final_response_text
                 | Raised _ => Raise ARBITER_FAILED
                 end)
  ∧ ((∀ rq, rq_model rq ∈ MAX_MODE_PARTICIPANTS →
        ∃ e, create ai_client rq = Raised e) →
     r.1.1 = Raise ALL_FAILED
     ∧ ∃ new,
         calls r.1.2 = calls ai_client ++ new
         ∧ rq_model <$> new ≡ₚ MAX_MODE_PARTICIPANTS
         ∧ Forall (λ rq, rq_model rq ≠ MAX_MODE_ARBITER) new).
Proof.
  intros r. subst r. split.
  - intros Hmute.
    destruct (get_max_mode_response_arbiter ai_client prompt user_id db cache now)
      as (pre & rq & Hcalls & Hmodels & Harbiter & Hres).
    { rewrite gather_all_mute by done. by left. }
    split.
    + rewrite Hres.
      destruct (create ai_client rq) as [[?|]|?]; try done;
        intros [= Heq]; by vm_compute in Heq.
    + exists pre, rq. by rewrite Hmodels.
  - intros Hraise.
    destruct (get_max_mode_response_all_marked ai_client prompt user_id db cache now)
      as (Hres & new & Hcalls & Hmodels); [by apply gather_all_raise|].
    split; [done|]. exists new. split_and!; [done|by rewrite Hmodels|].
    apply Forall_forall. intros rq Hrq Harbiter.
    assert (rq_model rq ∈ MAX_MODE_PARTICIPANTS) as Hin.
    { rewrite <- Hmodels. by apply list_elem_of_fmap_2. }
    rewrite Harbiter in Hin. by destruct arbiter_not_participant.
Qed.

(** Six participants that answer without text: the run returns the
    arbiter's text after seven requests.  Six participants that time out:
    the run raises after six requests. *)
Lemma empty_answers_reach_arbiter_witness :
  let mute :=
    @get_max_mode_response sample_lib MUTE_CLIENT "2+2?" 8 USERS_DB GLOBAL_CACHE 0 in
  let failing :=
    @get_max_mode_response sample_lib FAILING_CLIENT "2+2?" 8 USERS_DB
      GLOBAL_CACHE 0 in
  (mute.1.1 = Ok "final" ∧ length (calls mute.1.2) = 7%nat
   ∧ rq_model <$> last (calls mute.1.2) = Some MAX_MODE_ARBITER)
  ∧ failing.1.1 = Raise ALL_FAILED ∧ length (calls failing.1.2) = 6%nat
  ∧ Forall (λ rq, rq_model rq ≠ MAX_MODE_ARBITER) (calls failing.1.2).
Proof.
  cbv zeta. split.
  - destruct (@empty_answers_reach_arbiter sample_lib MUTE_CLIENT "2+2?" 8
                USERS_DB GLOBAL_CACHE 0) as [Hmute _].
    destruct Hmute as (_ & pre & rq & Hcalls & Hmodels & Harbiter & Hres).
    { intros rq Hin. unfold MUTE_CLIENT. cbn [create].
      rewrite bool_decide_eq_false_2; [done|].
      intros Heq. rewrite Heq in Hin. by destruct arbiter_not_participant. }
    rewrite Hres, Hcalls. split_and!.
    + unfold MUTE_CLIENT. cbn [create]. by rewrite bool_decide_eq_true_2.
    + apply Permutation_length in Hmodels. rewrite length_fmap in Hmodels.
      rewrite !length_app, Hmodels. reflexivity.
    + rewrite app_assoc, last_snoc. simpl. by rewrite Harbiter.
  - destruct (@empty_answers_reach_arbiter sample_lib FAILING_CLIENT "2+2?" 8
                USERS_DB GLOBAL_CACHE 0) as [_ Hfailing].
    destruct Hfailing as (Hres & new & Hcalls & Hmodels & Hnone).
    { intros rq _. by exists TIMEOUT_ERROR. }
    rewrite Hres, Hcalls. split_and!; [done| |done].
    apply Permutation_length in Hmodels. rewrite length_fmap in Hmodels.
    simpl. by rewrite Hmodels.
Defined.

(** C3.  In this run [grok-3] times out, [gpt-4.1] answers without text
    content and the four other participants answer.  The run returns the
    arbiter's text.  The synthesis prompt carries the failure text with the
    exception type for [grok-3]; for [gpt-4.1] it carries an empty answer and
    no failure text: [get_simple_response] turns a response without content
    into the empty string, so [get_max_mode_response] never sees [None] and
    never uses its text for a missing answer. *)
Theorem response_without_text_gets_no_placeholder :
  let '(res, ai_client, _) :=
    @get_max_mode_response sample_lib MIXED_CLIENT "2+2?" 8 USERS_DB
      GLOBAL_CACHE 0 in
  res = Ok "final"
  ∧ rq_model <$> last (calls ai_client) = Some MAX_MODE_ARBITER
  ∧ ∃ meta_prompt, last_prompt ai_client = Some meta_prompt
      ∧ occurs ("(<code>grok-3</code>):**" +:+ nl +:+
                "ОШИБКА: Модель не смогла обработать запрос. (TimeoutError)" +:+
                nl +:+ "---") meta_prompt = true
      ∧ occurs ("(<code>gpt-4.1</code>):**" +:+ nl +:+ nl +:+ "---")
          meta_prompt = true
      ∧ occurs "ОШИБКА: Модель не вернула текстовый ответ." meta_prompt = false.
Proof.
  vm_compute. split_and!; [reflexivity..|].
  eexists. split_and!; reflexivity.
Qed.

Section participant_texts.
Context `{PyLib}.

(** A participant whose call raises is represented by the failure text with
    the type of the exception; one whose response has no text content is
    represented by the empty text, which counts as a successful response. *)
Lemma participant_texts (ai_client : AsyncOpenAI) (model prompt : string)
    (user_id : Z) (db : Database) (cache : Cache) (now : Z) :
  ∃ rq, rq_model rq = model
    ∧ ∀ text,
        (_get_participant_response ai_client model prompt user_id db cache now).1.1
        = (model, text) →
        match create ai_client rq with
        | Raised e =>
            text = Some ("ОШИБКА: Модель не смогла обработать запрос. (" +:+
                         type_name e +:+ ")")
            ∧ String.prefix ERROR_MARK (safe_response_text text) = true
        | Returned None =>
            text = Some ""
            ∧ String.prefix ERROR_MARK (safe_response_text text) = false
        | Returned (Some response_text) => text = Some response_text
        end.
Proof.
  destruct (participant_response_spec ai_client model prompt user_id db cache now)
    as (rq & Hmodel & _ & Hres).
  exists rq. split; [done|]. intros text Htext. rewrite Hres in Htext.
  injection Htext as <-.
  destruct (create ai_client rq) as [[?|]|e]; [done|done|].
  split; [done|]. unfold safe_response_text. simpl.
  unfold ERROR_MARK. reflexivity.
Qed.
End participant_texts.

(** ** C9: the animation task *)

(** [send_limit_reached_message] sends, reads and writes nothing. *)
Lemma send_limit_reached_message_raises (user_id : Z) (db : Database)
    (cache : Cache) (t : clock) :
  send_limit_reached_message user_id db cache t
  = (Raise (attribute_error "Bot" "get"), db, cache).
Proof. reflexivity. Qed.

(** C9.  Whatever the backend does (it answers, it raises [APIError] or
    [RuntimeError], it raises another exception) and whether or not Telegram
    accepts the edits of the waiting message, the handlers of chat and Max
    Mode messages leave no animation task running: the task exists exactly when the waiting
    message was sent, and then [cancel()] has been called on it. *)
Theorem animation_task_cancelled `{PyLib} (ADMIN_IDS : list Z) (text : string)
    (user_id : Z) (state : FSMContext) (db : Database) (ai_client : AsyncOpenAI)
    (cache : Cache) (edit_ok notice_ok : bool) (t0 t1 : clock) :
  let chat :=
    handle_chat_message ADMIN_IDS text user_id state db ai_client cache edit_ok
      notice_ok t0 t1 in
  let max_mode :=
    handle_max_mode_message ADMIN_IDS text user_id state db ai_client cache
      edit_ok notice_ok t0 t1 in
  h_animation_task chat ≠ Some Running
  ∧ h_animation_task max_mode ≠ Some Running
  ∧ (AnswerThinking ∈ h_sent chat ↔ h_animation_task chat = Some Cancelled)
  ∧ (AnswerMaxProcessing ∈ h_sent max_mode
     ↔ h_animation_task max_mode = Some Cancelled).
Proof.
  intros chat max_mode. split_and!.
  - unfold chat, handle_chat_message, last_edit. by repeat case_match.
  - unfold max_mode, handle_max_mode_message, last_edit. by repeat case_match.
  - unfold chat, handle_chat_message, send_limit_reached_message, last_edit.
    repeat case_match; simplify_eq; simpl; split; intros Hx; try done;
      try (by set_solver).
  - unfold max_mode, handle_max_mode_message, last_edit.
    repeat case_match; simplify_eq; simpl; split; intros Hx; try done;
      try (by set_solver).
Qed.

(** ** C1: usage is recorded after success only *)

Section usage_facts.
Context `{PyLib} (ADMIN_IDS : list Z).
Implicit Types (db : Database) (cache : Cache) (ai_client : AsyncOpenAI).

Lemma get_user_level_requests user_id db now_utc :
  requests (get_user_level ADMIN_IDS user_id db now_utc).2 = requests db.
Proof. unfold get_user_level. by repeat case_match. Qed.

Lemma get_user_limits_requests user_id db now_utc :
  requests (get_user_limits ADMIN_IDS user_id db now_utc).2 = requests db.
Proof.
  unfold get_user_limits.
  pose proof (get_user_level_requests user_id db now_utc) as Hlv.
  destruct (get_user_level _ _ _ _) as [level db1].
  by repeat case_match.
Qed.

Lemma snoc_neq {A} (l : list A) (x : A) : l ++ [x] ≠ l.
Proof.
  intros Heq. apply (f_equal length) in Heq.
  rewrite length_app in Heq. simpl in Heq. lia.
Qed.

Lemma app_snoc_neq {A} (l pre : list A) (x : A) : l ++ pre ++ [x] ≠ l.
Proof.
  intros Heq. apply (f_equal length) in Heq.
  rewrite !length_app in Heq. simpl in Heq. lia.
Qed.

(** The requests of one ensemble run: the participants', then, when the
    run returns, one to the arbiter that was answered; when the run raises,
    none to the arbiter or one that raised. *)
Lemma get_max_mode_response_spec ai_client prompt user_id db cache now :
  ∃ pre, rq_model <$> pre = MAX_MODE_PARTICIPANTS ∧
    match (get_max_mode_response ai_client prompt user_id db cache now).1.1 with
    | Ok _ =>
        ∃ rq content,
          calls (get_max_mode_response ai_client prompt user_id db cache now).1.2
          = calls ai_client ++ pre ++ [rq]
          ∧ rq_model rq = MAX_MODE_ARBITER
          ∧ create ai_client rq = Returned content
    | Raise e =>
        exn_is e = RuntimeError
        ∧ (calls (get_max_mode_response ai_client prompt user_id db cache now).1.2
           = calls ai_client ++ pre
           ∨ ∃ rq e',
               calls (get_max_mode_response ai_client prompt user_id db cache now).1.2
               = calls ai_client ++ pre ++ [rq]
               ∧ create ai_client rq = Raised e')
    end.
Proof.
  unfold get_max_mode_response.
  destruct (gather_participants_calls ai_client MAX_MODE_PARTICIPANTS prompt
              user_id db cache now) as (pre & Hcalls & Hcreate & Hmodels).
  destruct (gather_participants _ _ _ _ _ _ _) as [[results ai1] cache1].
  simpl in Hcalls, Hcreate. exists pre. split; [done|].
  destruct (collect results _ 0) as [parts n].
  case_bool_decide; simpl; [by auto|].
  match goal with
  | |- context [get_simple_response ai1 ?m ?msgs ?u ?d ?c ?t] =>
      destruct (get_simple_response_spec ai1 m msgs u d c t)
        as (rq & Hmodel & Hclient & Hres);
      destruct (get_simple_response ai1 m msgs u d c t) as [[res ai2] cache2]
  end.
  simpl in Hclient, Hres. subst ai2. rewrite Hcreate in Hres.
  destruct res as [final|e]; simpl.
  - exists rq. rewrite Hcalls, <- app_assoc.
    destruct (create ai_client rq) as [[?|]|?] eqn:Hout; naive_solver.
  - split; [done|]. right. exists rq. rewrite Hcalls, <- app_assoc.
    destruct (create ai_client rq) as [[?|]|?] eqn:Hout; naive_solver.
Qed.
End usage_facts.

(** C1.  Let [N] be the limit [get_user_limits] resolves for the mode and let
    the admission check be [requests_today < N].  Each handler leaves the
    table of requests as it was or adds one row to it ([add_request]); it adds
    the row if and only if the admission check passed and the backend call
    was made and returned (for Max Mode: the arbiter's call).  When the check
    fails nothing is sent to the backend and nothing is recorded; when the
    backend call raises nothing is recorded. *)
Theorem usage_recorded_iff_admitted_and_completed `{PyLib} (ADMIN_IDS : list Z)
    (text : string) (user_id : Z) (state : FSMContext) (db : Database)
    (ai_client : AsyncOpenAI) (cache : Cache) (edit_ok notice_ok : bool)
    (t0 t1 : clock) :
  let limits := get_user_limits ADMIN_IDS user_id db (utc t0) in
  let admitted (max_mode : bool) :=
    reached (get_user_requests_today limits.2 user_id max_mode (utc t0))
            (if max_mode then limits.1.2 else limits.1.1) = false in
  let chat :=
    handle_chat_message ADMIN_IDS text user_id state db ai_client cache edit_ok
      notice_ok t0 t1 in
  let max_mode :=
    handle_max_mode_message ADMIN_IDS text user_id state db ai_client cache
      edit_ok notice_ok t0 t1 in
  ((requests (h_db chat) = requests db
    ∨ requests (h_db chat)
      = requests db ++ [{| req_user_id := user_id; req_model := data_model state;
                           request_date := msk_date (utc t1);
                           is_max_mode := false |}])
   ∧ (requests (h_db chat) ≠ requests db
      ↔ admitted false
        ∧ ∃ rq content, calls (h_ai_client chat) = calls ai_client ++ [rq]
                        ∧ create ai_client rq = Returned content)
   ∧ (¬ admitted false →
      requests (h_db chat) = requests db
      ∧ calls (h_ai_client chat) = calls ai_client))
  ∧ ((requests (h_db max_mode) = requests db
      ∨ requests (h_db max_mode)
        = requests db ++ [{| req_user_id := user_id;
                             req_model := "max_mode_ensemble";
                             request_date := msk_date (utc t1);
                             is_max_mode := true |}])
     ∧ (requests (h_db max_mode) ≠ requests db
        ↔ admitted true
          ∧ ∃ pre rq content,
              calls (h_ai_client max_mode) = calls ai_client ++ pre ++ [rq]
              ∧ rq_model rq = MAX_MODE_ARBITER
              ∧ create ai_client rq = Returned content)
     ∧ (¬ admitted true →
        requests (h_db max_mode) = requests db
        ∧ calls (h_ai_client max_mode) = calls ai_client)).
Proof.
  intros limits admitted chat max_mode.
  pose proof (get_user_limits_requests ADMIN_IDS user_id db (utc t0)) as Hreq.
  fold limits in Hreq. split.
  - unfold chat, handle_chat_message.
    destruct (get_user_details_cached user_id db cache (mono t0)) as [details cache1].
    destruct (match details with Some d => is_blocked d | None => false end).
    { simpl. split_and!; [by left| |done].
      split; [done|]. intros (_ & rq & content & Hcalls & _).
      symmetry in Hcalls. by apply snoc_neq in Hcalls. }
    unfold admitted. simpl.
    destruct limits as [[daily_limit max_limit] db1] eqn:Hlimits.
    unfold limits in Hlimits. rewrite Hlimits. simpl in *.
    destruct (reached _ daily_limit) eqn:Hreached.
    { unfold send_limit_reached_message. simpl in *. rewrite Hreq.
      split_and!; [by left| |done]. split; [done|]. by intros [? _]. }
    destruct (is_model_available _ _ _); simpl; last first.
    { rewrite Hreq. split_and!; [by left| |done].
      split; [done|]. intros (_ & rq & content & Hcalls & _).
      symmetry in Hcalls. by apply snoc_neq in Hcalls. }
    match goal with
    | |- context [get_simple_response ai_client ?m ?msgs ?u ?d ?c ?t] =>
        destruct (get_simple_response_spec ai_client m msgs u d c t)
          as (rq & Hmodel & Hclient & Hres);
        destruct (get_simple_response ai_client m msgs u d c t)
          as [[res ai1] cache2]
    end.
    simpl in Hclient, Hres. subst ai1.
    destruct res as [response_text|e].
    + assert (∃ content, create ai_client rq = Returned content) as [content Hout].
      { destruct (create ai_client rq) as [[?|]|?]; by eauto. }
      unfold last_edit. destruct edit_ok, notice_ok; simpl; rewrite Hreq.
      all: split_and!; [by right| |by intros []].
      all: split; [intros _; split; [done|]; by exists rq, content|].
      all: intros _; by apply snoc_neq.
    + assert (∃ e', create ai_client rq = Raised e') as [e' Hout].
      { destruct (create ai_client rq) as [[?|]|?]; by eauto. }
      unfold last_edit.
      case_bool_decide; destruct notice_ok; simpl; rewrite Hreq.
      all: split_and!; [by left| |by intros []].
      all: split; [done|]; intros (_ & rq' & content & Hcalls & Hret).
      all: apply app_inv_head in Hcalls; injection Hcalls as <-.
      all: by rewrite Hout in Hret.
  - unfold max_mode, handle_max_mode_message.
    destruct (are_max_mode_models_available cache (mono t0)); simpl; last first.
    { split_and!; [by left| |].
      - split; [done|]. intros (_ & pre & rq & content & Hcalls & _).
        symmetry in Hcalls. by apply app_snoc_neq in Hcalls.
      - done. }
    unfold admitted. simpl.
    destruct limits as [[daily_limit max_limit] db1] eqn:Hlimits.
    unfold limits in Hlimits. rewrite Hlimits. simpl in *.
    destruct (reached _ max_limit) eqn:Hreached; simpl.
    { rewrite Hreq. split_and!; [by left| |done]. split; [done|]. by intros [? _]. }
    destruct (get_max_mode_response_spec ai_client text user_id db1 cache (mono t0))
      as (pre & Hmodels & Hspec).
    destruct (get_max_mode_response _ _ _ _ _ _) as [[res ai1] cache2].
    simpl in Hspec. destruct res as [response_text|e].
    + destruct Hspec as (rq & content & Hcalls & Hmodel & Hout).
      unfold last_edit. destruct edit_ok, notice_ok; simpl; rewrite Hreq.
      all: split_and!; [by right| |by intros []].
      all: split; [intros _; split; [done|]; by exists pre, rq, content|].
      all: intros _; by apply snoc_neq.
    + destruct Hspec as (Hrt & Hcalls). unfold last_edit.
      case_bool_decide; destruct notice_ok; simpl; rewrite Hreq.
      all: split_and!; [by left| |by intros []].
      all: split; [done|]; intros (_ & pre' & rq' & content & Hcalls' & Harb & Hret).
      all: destruct Hcalls as [Hcalls|(rq & e' & Hcalls & Hraised)];
        rewrite Hcalls in Hcalls'; apply app_inv_head in Hcalls'.
      all: try (apply app_inj_tail in Hcalls' as [_ <-]; by rewrite Hraised in Hret).
      all: assert (rq_model rq' ∈ MAX_MODE_PARTICIPANTS) as Hin
        by (rewrite <- Hmodels, Hcalls', fmap_app; apply elem_of_app; right;
            by apply list_elem_of_singleton).
      all: rewrite Harb in Hin; by destruct arbiter_not_participant.
Qed.

(** The free user 8 has a daily limit of 3.  With three requests recorded
    today the fourth message is rejected: nothing is sent to the backend and
    nothing is recorded.  With two recorded the message is answered and
    recorded. *)
Lemma usage_recorded_iff_admitted_and_completed_witness :
  let rejected :=
    @handle_chat_message sample_lib SAMPLE_ADMINS "2+2?" 8 CHAT_STATE (quota_db 3)
      HEALTHY_CLIENT GLOBAL_CACHE true true NOON NOON in
  let answered :=
    @handle_chat_message sample_lib SAMPLE_ADMINS "2+2?" 8 CHAT_STATE (quota_db 2)
      HEALTHY_CLIENT GLOBAL_CACHE true true NOON NOON in
  (requests (h_db rejected) = requests (quota_db 3)
   ∧ calls (h_ai_client rejected) = calls HEALTHY_CLIENT)
  ∧ requests (h_db answered) ≠ requests (quota_db 2).
Proof.
  intros rejected answered. split.
  - destruct (@usage_recorded_iff_admitted_and_completed sample_lib SAMPLE_ADMINS
                "2+2?" 8 CHAT_STATE (quota_db 3) HEALTHY_CLIENT GLOBAL_CACHE true
                true NOON NOON) as ((_ & _ & Hrejected) & _).
    apply Hrejected. by vm_compute.
  - destruct (@usage_recorded_iff_admitted_and_completed sample_lib SAMPLE_ADMINS
                "2+2?" 8 CHAT_STATE (quota_db 2) HEALTHY_CLIENT GLOBAL_CACHE true
                true NOON NOON) as ((_ & Hiff & _) & _).
    apply Hiff. split; [by vm_compute|].
    eexists _, (Some "ok"). split; [by vm_compute|reflexivity].
Defined.

(** * The rest of the program *)
(** ** More facts about the TTL cache *)

Section ttl_more_facts.
Context {K I : Type} `{EqDecision K} (key_of : I → K).
Implicit Types (c : TTL.t I) (ls : list (I * Z)).

Lemma expire_expire now now' ls :
  now ≤ now' → TTL.expire now' (TTL.expire now ls) = TTL.expire now' ls.
Proof.
  intros Hle. unfold TTL.expire. apply list_filter_filter_l. intros l. lia.
Qed.

(** A key without a live item has none later either. *)
Lemma get_none_later c k now now' :
  TTL.get key_of c k now = None → now ≤ now' → TTL.get key_of c k now' = None.
Proof.
  unfold TTL.get, TTL.get_link. intros Hnone Hle.
  destruct (head (filter _ (TTL.expire now _))) eqn:Hhead; [done|].
  apply head_None in Hhead.
  destruct (filter _ (TTL.expire now' _)) as [|x rest] eqn:Hlater; [done|].
  assert (x ∈ filter (λ l, key_of l.1 = k) (TTL.expire now' (TTL.links c))) as Hx
    by (rewrite Hlater; left).
  apply list_elem_of_filter in Hx as [Hk Hx].
  apply list_elem_of_filter in Hx as [Hlive Hx].
  assert (x ∈ filter (λ l, key_of l.1 = k) (TTL.expire now (TTL.links c))) as Hin.
  { apply list_elem_of_filter. split; [done|].
    apply list_elem_of_filter. split; [lia|done]. }
  rewrite Hhead in Hin. by apply elem_of_nil in Hin.
Qed.

Lemma get_delitem c k now : TTL.get key_of (ttl_delitem key_of c k) k now = None.
Proof.
  unfold TTL.get, TTL.get_link, ttl_delitem, TTL.expire. simpl.
  rewrite !list_filter_filter.
  rewrite (list_filter_iff _ (λ _, False)) by naive_solver.
  by induction (TTL.links c).
Qed.

Lemma get_delitem_ne c k k' now :
  k ≠ k' →
  TTL.get key_of (ttl_delitem key_of c k) k' now = TTL.get key_of c k' now.
Proof.
  intros Hne. unfold TTL.get, TTL.get_link, ttl_delitem, TTL.expire. simpl.
  rewrite !list_filter_filter. do 2 f_equal.
  apply list_filter_iff. naive_solver.
Qed.

Lemma popitems_room cap ls : (length ls < cap)%nat → TTL.popitems cap ls = ls.
Proof. intros Hlen. destruct ls; simpl in *; [done|]. case_decide; [lia|done]. Qed.

(** Setting one key leaves the items of the other keys alone while the cache
    has room. *)
Lemma get_setitem_other c i now k now' :
  key_of i ≠ k → now ≤ now' →
  (length (TTL.links c) < Pos.to_nat (TTL.maxsize c))%nat →
  TTL.get key_of (TTL.setitem key_of c i now) k now' = TTL.get key_of c k now'.
Proof.
  intros Hne Hle Hroom. unfold TTL.get, TTL.get_link, TTL.setitem. simpl.
  do 2 f_equal. unfold TTL.expire at 1. rewrite !filter_app.
  rewrite (filter_key_none key_of k (filter _ [_])).
  2:{ apply Forall_forall. intros l Hl. apply list_elem_of_filter in Hl as [_ Hl].
      apply list_elem_of_singleton in Hl as ->. done. }
  rewrite app_nil_r.
  case_bool_decide.
  - unfold TTL.expire. rewrite !list_filter_filter.
    apply list_filter_iff. intros l. split; [naive_solver|].
    intros [Hk Hl]. split_and!; [done|done|congruence|lia].
  - rewrite popitems_room.
    + by apply (f_equal (filter _)), expire_expire.
    + pose proof (length_filter (λ l, now < l.2) (TTL.links c)).
      unfold TTL.expire. lia.
Qed.
End ttl_more_facts.

(** ** The throttling middleware *)

Section throttling_facts.
Implicit Types (self : ThrottlingMiddleware) (events : list (option Z * Z)).

Lemma throttle_key_inj (prefix : string) (u v : Z) :
  prefix +:+ pretty u = prefix +:+ pretty v → u = v.
Proof. intros Heq. apply (inj (String.app _)) in Heq. by apply (inj pretty). Qed.

Lemma setitem_length {K I : Type} `{EqDecision K} (key_of : I → K)
    (c : TTL.t I) i now :
  (length (TTL.links (TTL.setitem key_of c i now)) ≤ length (TTL.links c) + 1)%nat.
Proof.
  unfold TTL.setitem. simpl. rewrite length_app. simpl.
  pose proof (length_filter (λ l, now < l.2) (TTL.links c)) as Hle.
  unfold TTL.expire. case_bool_decide.
  - pose proof (length_filter (λ l, key_of l.1 ≠ key_of i)
                  (filter (λ l, now < l.2) (TTL.links c))). lia.
  - destruct (popitems_suffix (Pos.to_nat (TTL.maxsize c))
                (filter (λ l, now < l.2) (TTL.links c))) as (front & Hfront).
    apply (f_equal length) in Hfront. rewrite length_app in Hfront. lia.
Qed.

Lemma ThrottlingMiddleware_call_cache self user now :
  TTL.maxsize (throttle_cache (ThrottlingMiddleware_call self user now).2)
  = TTL.maxsize (throttle_cache self)
  ∧ TTL.ttl (throttle_cache (ThrottlingMiddleware_call self user now).2)
    = TTL.ttl (throttle_cache self)
  ∧ key_prefix (ThrottlingMiddleware_call self user now).2 = key_prefix self
  ∧ (length (TTL.links (throttle_cache (ThrottlingMiddleware_call self user now).2))
     ≤ length (TTL.links (throttle_cache self)) + 1)%nat.
Proof.
  unfold ThrottlingMiddleware_call. destruct user as [user_id|]; simpl.
  - case_match; simpl; split_and!; try done; [lia|].
    exact (setitem_length fst (throttle_cache self)
             (key_prefix self +:+ pretty user_id, ()) now).
  - split_and!; try done. lia.
Qed.

Lemma ThrottlingMiddleware_run_cons self event rest :
  ThrottlingMiddleware_run self (event :: rest)
  = ((ThrottlingMiddleware_call self event.1 event.2).1
       :: (ThrottlingMiddleware_run
             (ThrottlingMiddleware_call self event.1 event.2).2 rest).1,
     (ThrottlingMiddleware_run
        (ThrottlingMiddleware_call self event.1 event.2).2 rest).2).
Proof.
  simpl. destruct (ThrottlingMiddleware_call _ _ _) as [passed self']. simpl.
  by destruct (ThrottlingMiddleware_run self' rest).
Qed.

(** A call leaves the live key of a user live while the cache has room. *)
Lemma ThrottlingMiddleware_call_keeps_live self user now (user_id t' : Z) :
  now ≤ t' →
  (length (TTL.links (throttle_cache self))
   < Pos.to_nat (TTL.maxsize (throttle_cache self)))%nat →
  ttl_contains fst (throttle_cache self)
    (key_prefix self +:+ pretty user_id) t' = true →
  ttl_contains fst (throttle_cache (ThrottlingMiddleware_call self user now).2)
    (key_prefix self +:+ pretty user_id) t' = true.
Proof.
  intros Hle Hroom Hlive. unfold ThrottlingMiddleware_call.
  destruct user as [v|]; [|done]. case_match eqn:Hcontains; [done|].
  unfold ttl_contains in *. apply bool_decide_eq_true in Hlive.
  apply bool_decide_eq_false in Hcontains. apply bool_decide_eq_true.
  destruct (decide (v = user_id)) as [->|Hne].
  - exfalso. apply Hcontains. destruct (TTL.get _ _ _ now) eqn:Hget; [done|].
    rewrite (get_none_later fst _ _ now t') in Hlive by done.
    by destruct Hlive.
  - cbn [snd throttle_cache]. rewrite get_setitem_other; [done| |done|done].
    simpl. intros Hkey. by apply throttle_key_inj in Hkey.
Qed.

(** While a user's key is live, the user's events are dropped, whatever the
    other users send. *)
Lemma throttled_while_live events : ∀ self (user_id t e : Z),
  (∀ t', t ≤ t' → t' < e →
     ttl_contains fst (throttle_cache self)
       (key_prefix self +:+ pretty user_id) t' = true) →
  Forall (λ event, t ≤ event.2) events →
  StronglySorted Z.le (snd <$> events) →
  (length (TTL.links (throttle_cache self)) + length events
   ≤ Pos.to_nat (TTL.maxsize (throttle_cache self)))%nat →
  ∀ (j : nat) tj, events !! j = Some (Some user_id, tj) → tj < e →
    (ThrottlingMiddleware_run self events).1 !! j = Some false.
Proof.
  induction events as [|event rest IH]; intros self user_id t e Hlive Hfrom Hsorted
    Hroom j tj Hj He; [done|].
  rewrite ThrottlingMiddleware_run_cons.
  apply Forall_cons in Hfrom as [Ht Hfrom].
  rewrite fmap_cons in Hsorted. apply StronglySorted_inv in Hsorted as [Hsorted Hhd].
  pose proof (ThrottlingMiddleware_call_cache self event.1 event.2)
    as (Hmax & Httl & Hprefix & Hlen).
  cbn [length] in Hroom. cbn [fst]. rewrite lookup_cons in Hj. rewrite lookup_cons.
  destruct j as [|j].
  - injection Hj as ->. cbn [fst snd] in *. unfold ThrottlingMiddleware_call.
    by rewrite Hlive.
  - apply (IH _ user_id event.2 e) with (tj := tj); try done.
    + intros t' Ht' He'. rewrite Hprefix.
      apply ThrottlingMiddleware_call_keeps_live; [done|lia|].
      apply Hlive; [lia|done].
    + apply Forall_forall. intros ev Hev.
      rewrite Forall_forall in Hhd. apply Hhd.
      apply list_elem_of_fmap. by exists ev.
    + rewrite Hmax. lia.
Qed.

(** Two events of one user that both reach the handler are at least the
    cache's [ttl] apart. *)
Lemma throttled_apart events : ∀ self (user_id : Z) (i j : nat) (ti tj : Z),
  StronglySorted Z.le (snd <$> events) →
  (length (TTL.links (throttle_cache self)) + length events
   ≤ Pos.to_nat (TTL.maxsize (throttle_cache self)))%nat →
  events !! i = Some (Some user_id, ti) →
  events !! j = Some (Some user_id, tj) → (i < j)%nat →
  (ThrottlingMiddleware_run self events).1 !! i = Some true →
  (ThrottlingMiddleware_run self events).1 !! j = Some true →
  ti + TTL.ttl (throttle_cache self) ≤ tj.
Proof.
  induction events as [|event rest IH]; intros self user_id i j ti tj Hsorted Hroom
    Hi Hj Hij Hpi Hpj; [done|].
  rewrite ThrottlingMiddleware_run_cons in Hpi, Hpj.
  rewrite fmap_cons in Hsorted. apply StronglySorted_inv in Hsorted as [Hsorted Hhd].
  pose proof (ThrottlingMiddleware_call_cache self event.1 event.2)
    as (Hmax & Httl & Hprefix & Hlen).
  cbn [length] in Hroom. cbn [fst] in Hpi, Hpj.
  rewrite lookup_cons in Hi. rewrite lookup_cons in Hj.
  rewrite lookup_cons in Hpi. rewrite lookup_cons in Hpj.
  destruct j as [|j]; [lia|].
  destruct i as [|i].
  - injection Hi as ->. cbn [fst snd] in *.
    destruct (decide (tj < ti + TTL.ttl (throttle_cache self))) as [Hlt|]; [|lia].
    assert ((ThrottlingMiddleware_run
               (ThrottlingMiddleware_call self (Some user_id) ti).2 rest).1 !! j
            = Some false) as Hdropped; [|by rewrite Hdropped in Hpj].
    apply (throttled_while_live rest _ user_id ti
             (ti + TTL.ttl (throttle_cache self))) with (tj := tj); try done.
    + intros t' _ Ht'. rewrite Hprefix. injection Hpi as Hpi. revert Hpi.
      unfold ThrottlingMiddleware_call. case_match; [done|]. intros _.
      unfold ttl_contains. apply bool_decide_eq_true.
      cbn [snd throttle_cache].
      pose proof (get_setitem fst (throttle_cache self)
                    (key_prefix self +:+ pretty user_id, ()) ti t' Ht') as Hget.
      cbn [fst] in Hget. by rewrite Hget.
    + apply Forall_forall. intros ev Hev.
      rewrite Forall_forall in Hhd. apply Hhd.
      apply list_elem_of_fmap. by exists ev.
    + rewrite Hmax. lia.
  - rewrite <- Httl. apply (IH _ user_id i j); try done; [rewrite Hmax|]; lia.
Qed.
End throttling_facts.

(** X1.  The flood guard: among at most 10000 updates that arrive in the
    order of their timer readings, two updates of the same user that both
    reach the handlers are at least [rate_limit] apart.  Updates of other
    users and updates without a user do not shorten the distance. *)
Theorem throttling_rate (rate_limit : Z) (key_prefix : string)
    (events : list (option Z * Z)) (user_id : Z) (i j : nat) (ti tj : Z) :
  StronglySorted Z.le (snd <$> events) →
  (length events ≤ Pos.to_nat 10000)%nat →
  events !! i = Some (Some user_id, ti) →
  events !! j = Some (Some user_id, tj) → (i < j)%nat →
  let passed :=
    (ThrottlingMiddleware_run
       (ThrottlingMiddleware_init rate_limit key_prefix) events).1 in
  passed !! i = Some true → passed !! j = Some true →
  ti + rate_limit ≤ tj.
Proof.
  intros Hsorted Hlen Hi Hj Hij passed Hpi Hpj.
  by apply (throttled_apart events
              (ThrottlingMiddleware_init rate_limit key_prefix) user_id i j).
Qed.

Lemma throttling_rate_witness :
  (ThrottlingMiddleware_run (ThrottlingMiddleware_init 10 "antiflood_")
     [(Some 5, 0); (Some 6, 3); (None, 4); (Some 5, 9); (Some 5, 10)]).1
  = [true; true; true; false; true]
  ∧ 0 + 10 ≤ 10.
Proof.
  split; [by vm_compute|].
  apply (throttling_rate 10 "antiflood_"
           [(Some 5, 0); (Some 6, 3); (None, 4); (Some 5, 9); (Some 5, 10)]
           5 0 4 0 10).
  - repeat (constructor; simpl; try lia).
  - vm_compute. lia.
  - reflexivity.
  - reflexivity.
  - lia.
  - by vm_compute.
  - by vm_compute.
Defined.

(** X2.  One call of the flood guard: an update without a user is always
    passed on and leaves the guard as it was; a dropped update leaves the
    guard as it was, so it does not extend the pause; after an update of a
    user was passed on at [now], the user's updates are dropped before
    [now + ttl] and passed on again from [now + ttl]. *)
Theorem throttling_window (self : ThrottlingMiddleware) (user_id now now' : Z) :
  let r := ThrottlingMiddleware_call self (Some user_id) now in
  ThrottlingMiddleware_call self None now = (true, self)
  ∧ (r.1 = false → r.2 = self)
  ∧ (r.1 = true → now' < now + TTL.ttl (throttle_cache self) →
     ThrottlingMiddleware_call r.2 (Some user_id) now' = (false, r.2))
  ∧ (r.1 = true → now + TTL.ttl (throttle_cache self) ≤ now' →
     (ThrottlingMiddleware_call r.2 (Some user_id) now').1 = true).
Proof.
  intros r. subst r. split; [done|].
  destruct (ThrottlingMiddleware_call self (Some user_id) now) as [passed self']
    eqn:Hcall.
  cbn [fst snd]. unfold ThrottlingMiddleware_call in Hcall.
  destruct (ttl_contains _ _ _ now) eqn:Hcontains; injection Hcall as <- <-.
  { split_and!; [done|intros [=]|intros [=]]. }
  split_and!; [intros [=]|intros _ Hnow'|intros _ Hnow'];
    unfold ThrottlingMiddleware_call, ttl_contains;
    cbn [throttle_cache key_prefix].
  - pose proof (get_setitem fst (throttle_cache self)
                  (key_prefix self +:+ pretty user_id, ()) now now' Hnow') as Hget.
    cbn [fst] in Hget. by rewrite Hget.
  - pose proof (get_setitem_expired fst (throttle_cache self)
                  (key_prefix self +:+ pretty user_id, ()) now now' Hnow') as Hget.
    cbn [fst] in Hget. by rewrite Hget.
Qed.

(** ** The user cache and the writes to [users] *)

Section user_cache_facts.
Context `{PyLib} (ADMIN_IDS : list Z).

Lemma get_user_update_user set_row db user_id :
  get_user (update_user set_row db user_id) user_id = set_row <$> get_user db user_id.
Proof. unfold get_user, update_user. simpl. apply lookup_alter_eq. Qed.

Lemma get_user_update_user_ne set_row db user_id other :
  user_id ≠ other →
  get_user (update_user set_row db user_id) other = get_user db other.
Proof. intros Hne. unfold get_user, update_user. simpl. by apply lookup_alter_ne. Qed.

(** After an invalidation the user's details come from the store. *)
Lemma invalidate_user_cache_read user_id db cache now now' :
  now ≤ now' →
  (get_user_details_cached user_id db (invalidate_user_cache user_id cache now)
     now').1
  = get_user_details db user_id.
Proof.
  intros Hle. unfold invalidate_user_cache, get_user_details_cached.
  destruct (user_details cache) as [user_cache|] eqn:Hcache; [|by rewrite Hcache].
  unfold ttl_contains. case_bool_decide as Hin; simpl.
  - rewrite get_delitem. by destruct (get_user_details db user_id).
  - rewrite Hcache.
    rewrite (get_none_later fst user_cache user_id now now'); [|  |done].
    + by destruct (get_user_details db user_id).
    + destruct (TTL.get _ _ _ now); [|done]. by destruct Hin.
Qed.

Lemma get_user_level_not_admin user_id db now_utc :
  user_id ∉ ADMIN_IDS →
  get_user_level ADMIN_IDS user_id db now_utc
  = match get_user db user_id with
    | None => (0, db)
    | Some user =>
        let level := subscription_level user in
        let end_date_str := subscription_end user in
        if truthy end_date_str && bool_decide (0 < level) then
          match fromisoformat (default "" end_date_str) with
          | Some end_date =>
              if negb (aware end_date) then (level, db)
              else if bool_decide (instant end_date < now_utc) then
                (0, update_subscription db user_id 0 30 now_utc)
              else (level, db)
          | None => (level, db)
          end
        else (level, db)
    end.
Proof. intros Hna. unfold get_user_level. by rewrite bool_decide_eq_false_2. Qed.

Lemma get_user_limits_not_admin user_id db now_utc :
  user_id ∉ ADMIN_IDS →
  get_user_limits ADMIN_IDS user_id db now_utc
  = let level := (get_user_level ADMIN_IDS user_id db now_utc).1 in
    let db' := (get_user_level ADMIN_IDS user_id db now_utc).2 in
    let bonus :=
      if bool_decide (level = 0) then
        match get_user_details db' user_id with
        | Some details => has_rewarded_bonus details
        | None => false
        end
      else false in
    (if bonus then (Finite REWARD_LIMIT, Finite 0)
     else (Finite (LIMITS level).1, Finite (LIMITS level).2), db').
Proof.
  intros Hna. unfold get_user_limits.
  destruct (get_user_level ADMIN_IDS user_id db now_utc) as [level db'].
  rewrite bool_decide_eq_false_2 by done. simpl. by case_match.
Qed.
End user_cache_facts.

(** X3.  The user cache: a row read from the store at [now] is served from
    the cache, whatever the store says meanwhile, until [now + ttl]; from
    then on the store is read again. *)
Theorem user_details_cached_for_ttl (user_id : Z) (db db' : Database)
    (cache : Cache) (user_cache : TTL.t (Z * user_row)) (details : user_row)
    (now now' : Z) :
  user_details cache = Some user_cache →
  TTL.get fst user_cache user_id now = None →
  get_user_details db user_id = Some details →
  let r := get_user_details_cached user_id db cache now in
  r.1 = Some details
  ∧ (now' < now + TTL.ttl user_cache →
     get_user_details_cached user_id db' r.2 now' = (Some details, r.2))
  ∧ (now + TTL.ttl user_cache ≤ now' →
     (get_user_details_cached user_id db' r.2 now').1 = get_user_details db' user_id).
Proof.
  intros Hcache Hmiss Hrow r.
  assert (r = (Some details,
               {| model_status := model_status cache;
                  user_details :=
                    Some (TTL.setitem fst user_cache (user_id, details) now) |}))
    as -> by (subst r; unfold get_user_details_cached;
              by rewrite Hcache, Hmiss, Hrow).
  cbn [fst snd].
  split; [done|]. split; intros Hnow'; unfold get_user_details_cached;
    cbn [user_details].
  - pose proof (get_setitem fst user_cache (user_id, details) now now' Hnow')
      as Hget.
    cbn [fst] in Hget. by rewrite Hget.
  - pose proof (get_setitem_expired fst user_cache (user_id, details) now now' Hnow')
      as Hget.
    cbn [fst] in Hget. rewrite Hget. by destruct (get_user_details db' user_id).
Qed.

Lemma user_details_cached_for_ttl_witness :
  let r := get_user_details_cached 8 USERS_DB GLOBAL_CACHE 0 in
  r.1 = Some FREE_USER
  ∧ get_user_details_cached 8 (block_user USERS_DB 8 true) r.2 299
    = (Some FREE_USER, r.2)
  ∧ (get_user_details_cached 8 (block_user USERS_DB 8 true) r.2 300).1
    = get_user_details (block_user USERS_DB 8 true) 8.
Proof.
  destruct (user_details_cached_for_ttl 8 USERS_DB (block_user USERS_DB 8 true)
              GLOBAL_CACHE (TTL.mk 1000 300 []) FREE_USER 0 299)
    as (H1 & H2 & _); [reflexivity..|].
  destruct (user_details_cached_for_ttl 8 USERS_DB (block_user USERS_DB 8 true)
              GLOBAL_CACHE (TTL.mk 1000 300 []) FREE_USER 0 300)
    as (_ & _ & H3); [reflexivity..|].
  split; [exact H1|]. split; [apply H2; simpl; lia|apply H3; simpl; lia].
Defined.

(** X4.  [invalidate_user_cache]: the next read of the user's details, at any
    later time, returns what the store holds; the registry and the cached rows
    of the other users are left as they were. *)
Theorem invalidate_user_cache_refetches (user_id : Z) (db : Database)
    (cache : Cache) (now now' : Z) :
  now ≤ now' →
  let cache' := invalidate_user_cache user_id cache now in
  (get_user_details_cached user_id db cache' now').1 = get_user_details db user_id
  ∧ model_status cache' = model_status cache
  ∧ (∀ other, other ≠ user_id →
       (λ c, TTL.get fst c other now') <$> user_details cache'
       = (λ c, TTL.get fst c other now') <$> user_details cache).
Proof.
  intros Hle cache'. subst cache'.
  split; [by apply invalidate_user_cache_read|].
  unfold invalidate_user_cache.
  destruct (user_details cache) as [user_cache|] eqn:Hcache; [|by rewrite Hcache].
  case_match; simpl; [|by rewrite Hcache].
  split; [done|]. intros other Hne. by rewrite get_delitem_ne.
Qed.

Lemma invalidate_user_cache_refetches_witness :
  let cached := (get_user_details_cached 8 USERS_DB GLOBAL_CACHE 0).2 in
  let db := block_user USERS_DB 8 true in
  is_blocked <$> (get_user_details_cached 8 db cached 10).1 = Some false
  ∧ is_blocked <$>
      (get_user_details_cached 8 db (invalidate_user_cache 8 cached 10) 10).1
    = Some true.
Proof.
  split; [reflexivity|].
  destruct (invalidate_user_cache_refetches 8 (block_user USERS_DB 8 true)
              (get_user_details_cached 8 USERS_DB GLOBAL_CACHE 0).2 10 10)
    as (Hread & _); [lia|].
  cbv zeta. rewrite Hread. reflexivity.
Defined.

(** ** The chat handler, stage by stage *)

Section chat_stages.
Context `{PyLib} (ADMIN_IDS : list Z).

(** The chat handler with its intermediate results named. *)
Lemma handle_chat_message_stages text user_id state db ai_client cache
    edit_ok notice_ok t0 t1 :
  let dc := get_user_details_cached user_id db cache (mono t0) in
  let lim := get_user_limits ADMIN_IDS user_id db (utc t0) in
  let model := data_model state in
  let history := data_history state ++ [{| role := "user"; content := text |}] in
  let resp :=
    get_simple_response ai_client model history user_id lim.2 dc.2 (mono t0) in
  handle_chat_message ADMIN_IDS text user_id state db ai_client cache edit_ok
    notice_ok t0 t1
  = if match dc.1 with Some d => is_blocked d | None => false end then
      {| h_state := state; h_db := db; h_ai_client := ai_client; h_cache := dc.2;
         h_sent := [AnswerBlocked]; h_animation_task := None; h_raised := None |}
    else if reached (get_user_requests_today lim.2 user_id false (utc t0)) lim.1.1
    then
      {| h_state := state_clear state; h_db := lim.2; h_ai_client := ai_client;
         h_cache := dc.2; h_sent := []; h_animation_task := None;
         h_raised := Some (attribute_error "Bot" "get") |}
    else if negb (is_model_available model dc.2 (mono t0)) then
      {| h_state := state; h_db := lim.2; h_ai_client := ai_client;
         h_cache := dc.2; h_sent := [AnswerModelUnavailable model];
         h_animation_task := None; h_raised := None |}
    else
      match resp.1.1 with
      | Ok response_text =>
          let answered :=
            history ++ [{| role := "assistant"; content := response_text |}] in
          let db' := add_request lim.2 user_id model false (utc t1) in
          if edit_ok then
            {| h_state := update_history state (last10 answered); h_db := db';
               h_ai_client := resp.1.2; h_cache := resp.2;
               h_sent := [AnswerThinking; EditResponse response_text model];
               h_animation_task := Some Cancelled; h_raised := None |}
          else
            {| h_state := update_history state (removelast answered); h_db := db';
               h_ai_client := resp.1.2; h_cache := resp.2;
               h_sent :=
                 (last_edit notice_ok (EditUnexpected TELEGRAM_BAD_REQUEST)
                    [AnswerThinking]).1;
               h_animation_task := Some Cancelled;
               h_raised :=
                 (last_edit notice_ok (EditUnexpected TELEGRAM_BAD_REQUEST)
                    [AnswerThinking]).2 |}
      | Raise e =>
          let marks := bool_decide (exn_is e = APIError ∨ exn_is e = RuntimeError) in
          let notice := if marks then EditModelDisabled model else EditUnexpected e in
          {| h_state := update_history state (removelast history); h_db := lim.2;
             h_ai_client := resp.1.2;
             h_cache :=
               if marks then set_model_failed_in_cache model resp.2 (mono t1)
               else resp.2;
             h_sent := (last_edit notice_ok notice [AnswerThinking]).1;
             h_animation_task := Some Cancelled;
             h_raised := (last_edit notice_ok notice [AnswerThinking]).2 |}
      end.
Proof.
  intros dc lim model history resp. unfold handle_chat_message.
  subst resp. fold model. fold history.
  destruct dc as [details cache1] eqn:Hdc. unfold dc in Hdc. rewrite Hdc.
  cbn [fst snd].
  destruct (match details with Some d => is_blocked d | None => false end); [done|].
  destruct lim as [[daily_limit max_limit] db1] eqn:Hlim. unfold lim in Hlim.
  rewrite Hlim. cbn [fst snd].
  destruct (reached _ daily_limit); [done|].
  destruct (negb (is_model_available model cache1 (mono t0))); [done|].
  destruct (get_simple_response _ _ _ _ _ _ _) as [[res ai1] cache2].
  cbn [fst snd]. destruct res as [response_text|e].
  - destruct edit_ok; [done|]. unfold last_edit. by destruct notice_ok.
  - unfold last_edit. case_bool_decide; by destruct notice_ok.
Qed.

End chat_stages.

(** X5.  Blocking a user from the admin card works at once: the handler
    writes the flag and drops the user's cached row, so the user's next chat
    message is answered with the blocked notice, nothing is sent to the
    backend, and the conversation and the store are left alone.  The second
    part shows what the invalidation is for: with the flag written but a live
    cached row that still says unblocked, the message is not refused. *)
Theorem block_takes_effect `{PyLib} (ADMIN_IDS : list Z) (text : string)
    (user_id : Z) (state : FSMContext) (db : Database) (ai_client : AsyncOpenAI)
    (cache : Cache) (edit_ok notice_ok : bool) (t t0 t1 : clock) :
  is_Some (get_user db user_id) → mono t ≤ mono t0 →
  (let after := handle_user_action Block user_id db cache t in
   let h :=
     handle_chat_message ADMIN_IDS text user_id state after.1 ai_client after.2
       edit_ok notice_ok t0 t1 in
   h_sent h = [AnswerBlocked] ∧ h_state h = state ∧ h_db h = after.1
   ∧ h_ai_client h = ai_client)
  ∧ (∀ user_cache row,
       user_details cache = Some user_cache →
       TTL.get fst user_cache user_id (mono t0) = Some (user_id, row) →
       is_blocked row = false →
       h_sent (handle_chat_message ADMIN_IDS text user_id state
                 (block_user db user_id true) ai_client cache edit_ok notice_ok
                 t0 t1) ≠ [AnswerBlocked]).
Proof.
  intros [user Huser] Hle. split.
  - cbn [handle_user_action fst snd]. rewrite handle_chat_message_stages.
    cbv zeta. rewrite invalidate_user_cache_read by done.
    change (get_user_details ?d ?u) with (get_user d u).
    unfold block_user. rewrite get_user_update_user, Huser. by simpl.
  - intros user_cache row Hcache Hget Hrow. rewrite handle_chat_message_stages.
    cbv zeta. unfold get_user_details_cached at 1 2.
    rewrite Hcache, Hget. cbn [fst snd]. rewrite Hrow.
    destruct (reached _ _); [done|].
    destruct (negb _); [done|].
    destruct (get_simple_response _ _ _ _ _ _ _).1.1; unfold last_edit;
      repeat case_match; done.
Qed.

Lemma block_takes_effect_witness :
  let after := @handle_user_action sample_lib Block 8 USERS_DB GLOBAL_CACHE NOON in
  let h :=
    @handle_chat_message sample_lib SAMPLE_ADMINS "2+2?" 8 CHAT_STATE after.1
      HEALTHY_CLIENT after.2 true true NOON NOON in
  h_sent h = [AnswerBlocked] ∧ h_state h = CHAT_STATE ∧ h_db h = after.1
  ∧ h_ai_client h = HEALTHY_CLIENT.
Proof.
  apply (@block_takes_effect sample_lib SAMPLE_ADMINS "2+2?" 8 CHAT_STATE USERS_DB
           HEALTHY_CLIENT GLOBAL_CACHE true true NOON NOON NOON).
  - eexists. reflexivity.
  - simpl. lia.
Defined.

(** ** Subscriptions, registration and the bonus *)

Section account_facts.
Context `{PyLib} (ADMIN_IDS : list Z).

Lemma get_user_update_subscription db user_id level days now_utc user :
  get_user db user_id = Some user →
  get_user (update_subscription db user_id level days now_utc) user_id
  = Some {| username := username user;
            subscription_level := level;
            subscription_end :=
              Some (isoformat (if bool_decide (level = 0) then now_utc
                               else now_utc + days * usec_per_day));
            is_blocked := is_blocked user;
            last_used_model := last_used_model user;
            is_verified := is_verified user;
            has_rewarded_bonus := has_rewarded_bonus user;
            last_used_image_model := last_used_image_model user;
            user_instruction := user_instruction user;
            user_temperature := user_temperature user |}.
Proof.
  intros Huser. unfold get_user, update_subscription in *. simpl.
  by rewrite lookup_alter_eq, Huser.
Qed.

(** A user whose stored level is 0 is on level 0, and reading the level
    writes nothing. *)
Lemma get_user_level_zero user_id db now_utc user :
  user_id ∉ ADMIN_IDS → get_user db user_id = Some user →
  subscription_level user = 0 →
  get_user_level ADMIN_IDS user_id db now_utc = (0, db).
Proof.
  intros Hna Huser Hlevel. rewrite get_user_level_not_admin, Huser by done.
  cbv zeta. rewrite Hlevel. by rewrite andb_false_r.
Qed.

(** The bonus flag changes neither the level nor what reading the level
    writes to the subscription. *)
Lemma get_user_level_set_reward_bonus user_id db now_utc user :
  user_id ∉ ADMIN_IDS → get_user db user_id = Some user →
  (get_user_level ADMIN_IDS user_id (set_reward_bonus db user_id) now_utc).1
  = (get_user_level ADMIN_IDS user_id db now_utc).1
  ∧ has_rewarded_bonus <$>
      get_user
        (get_user_level ADMIN_IDS user_id (set_reward_bonus db user_id) now_utc).2
        user_id
    = Some true.
Proof.
  intros Hna Huser. rewrite !get_user_level_not_admin by done.
  assert (get_user (set_reward_bonus db user_id) user_id
          = Some {| username := username user;
                    subscription_level := subscription_level user;
                    subscription_end := subscription_end user;
                    is_blocked := is_blocked user;
                    last_used_model := last_used_model user;
                    is_verified := is_verified user;
                    has_rewarded_bonus := true;
                    last_used_image_model := last_used_image_model user;
                    user_instruction := user_instruction user;
                    user_temperature := user_temperature user |}) as Hrow.
  { unfold set_reward_bonus. by rewrite get_user_update_user, Huser. }
  rewrite Hrow, Huser. cbn [subscription_level subscription_end].
  destruct (truthy _ && _); [|cbn [fst snd]; by rewrite Hrow].
  destruct (fromisoformat _) as [end_date|]; [|cbn [fst snd]; by rewrite Hrow].
  destruct (negb _); [cbn [fst snd]; by rewrite Hrow|].
  case_bool_decide; [|cbn [fst snd]; by rewrite Hrow].
  cbn [fst snd]. split; [done|].
  by rewrite (get_user_update_subscription _ _ _ _ _ _ Hrow).
Qed.
End account_facts.

(** X6.  Revoking a subscription from the admin card puts the user on the
    free tier at once, whatever the tier was: the daily limit is the free one,
    or the bonus one if the user holds the bonus, Max Mode is closed, reading
    the limits writes nothing more, and the next read of the user's details
    shows level 0. *)
Theorem revoke_takes_effect `{PyLib} (ADMIN_IDS : list Z) (user_id : Z)
    (db : Database) (cache : Cache) (t : clock) (user : user_row)
    (now now_utc : Z) :
  user_id ∉ ADMIN_IDS → get_user db user_id = Some user → mono t ≤ now →
  let after := handle_user_action Revoke user_id db cache t in
  get_user_limits ADMIN_IDS user_id after.1 now_utc
  = ((Finite (if has_rewarded_bonus user then REWARD_LIMIT else 3), Finite 0),
     after.1)
  ∧ subscription_level <$> (get_user_details_cached user_id after.1 after.2 now).1
    = Some 0.
Proof.
  intros Hna Huser Hle after. subst after. cbn [handle_user_action fst snd].
  pose proof (get_user_update_subscription db user_id 0 30 (utc t) user Huser)
    as Hrow.
  split.
  - rewrite get_user_limits_not_admin by done.
    rewrite (get_user_level_zero ADMIN_IDS _ _ _ _ Hna Hrow) by done.
    cbv zeta. cbn [fst snd].
    change (get_user_details ?d ?u) with (get_user d u). rewrite Hrow.
    cbn [has_rewarded_bonus]. rewrite bool_decide_eq_true_2 by done.
    by destruct (has_rewarded_bonus user).
  - rewrite invalidate_user_cache_read by done.
    change (get_user_details ?d ?u) with (get_user d u). by rewrite Hrow.
Qed.

Lemma revoke_takes_effect_witness :
  let after := @handle_user_action sample_lib Revoke 7 USERS_DB GLOBAL_CACHE NOON in
  @get_user_limits sample_lib SAMPLE_ADMINS 7 after.1 (utc NOON)
  = ((Finite 7, Finite 0), after.1)
  ∧ subscription_level <$> (get_user_details_cached 7 after.1 after.2 0).1 = Some 0.
Proof.
  apply (@revoke_takes_effect sample_lib SAMPLE_ADMINS 7 USERS_DB GLOBAL_CACHE NOON
           EXPIRED_USER 0 (utc NOON)).
  - apply (bool_decide_unpack _). by vm_compute.
  - reflexivity.
  - simpl. lia.
Defined.

(** X7.  A granted subscription: [update_subscription] with a level above 0
    stores the end date [days] days ahead, and [get_user_level] then reports
    the granted level up to and including that instant without writing; the
    first read after it reports level 0 and writes the downgrade back.  The
    hypotheses on the library say that the stored end date is read back as
    written. *)
Theorem granted_subscription_honoured `{PyLib} (ADMIN_IDS : list Z) (user_id : Z)
    (db : Database) (user : user_row) (level days now_utc now' : Z) :
  user_id ∉ ADMIN_IDS → get_user db user_id = Some user → 0 < level →
  let end_date := now_utc + days * usec_per_day in
  isoformat end_date ≠ "" →
  fromisoformat (isoformat end_date) = Some {| instant := end_date; aware := true |} →
  let db' := update_subscription db user_id level days now_utc in
  (now' ≤ end_date →
   get_user_limits ADMIN_IDS user_id db' now'
   = ((Finite (LIMITS level).1, Finite (LIMITS level).2), db'))
  ∧ (end_date < now' →
     get_user_level ADMIN_IDS user_id db' now'
     = (0, update_subscription db' user_id 0 30 now')).
Proof.
  intros Hna Huser Hlevel end_date Hiso Hparse db'.
  pose proof (get_user_update_subscription db user_id level days now_utc user Huser)
    as Hrow.
  rewrite bool_decide_eq_false_2 in Hrow by lia. fold end_date db' in Hrow.
  assert (∀ now', get_user_level ADMIN_IDS user_id db' now'
                  = if bool_decide (end_date < now')
                    then (0, update_subscription db' user_id 0 30 now')
                    else (level, db')) as Hlevel'.
  { intros t. rewrite get_user_level_not_admin, Hrow by done.
    cbn [subscription_level subscription_end truthy default].
    rewrite !bool_decide_eq_true_2 by done. cbn [andb]. unfold id.
    by rewrite Hparse. }
  split; intros Hnow'.
  - rewrite get_user_limits_not_admin, Hlevel' by done.
    rewrite bool_decide_eq_false_2 by lia. cbv zeta. cbn [fst snd].
    by rewrite bool_decide_eq_false_2 by lia.
  - by rewrite Hlevel', bool_decide_eq_true_2.
Qed.

Lemma granted_subscription_honoured_witness :
  let granted := 1748692800000000 in
  let db' := @update_subscription sample_lib USERS_DB 8 2 1 granted in
  @get_user_limits sample_lib SAMPLE_ADMINS 8 db' 1748779200000000
  = ((Finite 100, Finite 0), db')
  ∧ @get_user_level sample_lib SAMPLE_ADMINS 8 db' 1748779500000000
    = (0, @update_subscription sample_lib db' 8 0 30 1748779500000000).
Proof.
  destruct (@granted_subscription_honoured sample_lib SAMPLE_ADMINS 8 USERS_DB
              FREE_USER 2 1 1748692800000000 1748779200000000) as [Hbefore _].
  { apply (bool_decide_unpack _). by vm_compute. }
  { reflexivity. }
  { lia. }
  { by vm_compute. }
  { by vm_compute. }
  destruct (@granted_subscription_honoured sample_lib SAMPLE_ADMINS 8 USERS_DB
              FREE_USER 2 1 1748692800000000 1748779500000000) as [_ Hafter].
  { apply (bool_decide_unpack _). by vm_compute. }
  { reflexivity. }
  { lia. }
  { by vm_compute. }
  { by vm_compute. }
  split; [apply Hbefore; by vm_compute|apply Hafter; by vm_compute].
Defined.

(** X8.  Registration: [add_user] reports a new user exactly when the store
    has no row for the id.  For a known user it may replace the user name but
    keeps the subscription, its end date and the blocked, verified and bonus
    flags; a new row starts on level 0, unblocked, unverified and without
    bonus.  The rows of other users and the recorded requests are left
    alone. *)
Theorem add_user_keeps_account (lower : string → string) (db : Database)
    (user_id : Z) (name : option string) :
  let r := add_user lower db user_id name in
  (r.1 = true ↔ get_user db user_id = None)
  ∧ (∀ user, get_user db user_id = Some user →
       ∃ user', get_user r.2 user_id = Some user'
         ∧ subscription_level user' = subscription_level user
         ∧ subscription_end user' = subscription_end user
         ∧ is_blocked user' = is_blocked user
         ∧ is_verified user' = is_verified user
         ∧ has_rewarded_bonus user' = has_rewarded_bonus user)
  ∧ (get_user db user_id = None →
       ∃ user', get_user r.2 user_id = Some user'
         ∧ username user' = stored_username lower name
         ∧ subscription_level user' = 0
         ∧ is_blocked user' = false
         ∧ is_verified user' = false
         ∧ has_rewarded_bonus user' = false)
  ∧ (∀ other, other ≠ user_id → get_user r.2 other = get_user db other)
  ∧ requests r.2 = requests db.
Proof.
  intros r. subst r. unfold add_user.
  destruct (get_user db user_id) as [user|] eqn:Huser.
  - case_bool_decide; cbn [fst snd].
    + split_and!; [done| |done| |done].
      * intros ? [= <-]. rewrite get_user_update_user, Huser. by eexists.
      * intros other Hne. by rewrite get_user_update_user_ne.
    + split_and!; [done| |done|done|done].
      intros ? [= <-]. by eexists.
  - cbn [fst snd]. split_and!; [done|done| | |done].
    + intros _. unfold get_user. cbn [users]. rewrite lookup_insert_eq. by eexists.
    + intros other Hne. unfold get_user. cbn [users]. by rewrite lookup_insert_ne.
Qed.

(** X9.  The channel bonus.  [check_reward_subscription_handler] sets the
    flag only when the user is a member of every reward channel; otherwise the
    store and the cache are left alone.  Once the flag is set, a user on
    level 0 has the bonus limit of 7 requests a day; on any other level the
    flag changes nothing, the limits are those of the level. *)
Theorem reward_bonus_limits `{PyLib} (ADMIN_IDS : list Z) (user_id : Z)
    (db : Database) (cache : Cache) (t : clock) (now_utc : Z) :
  user_id ∉ ADMIN_IDS → is_Some (get_user db user_id) →
  let level := (get_user_level ADMIN_IDS user_id db now_utc).1 in
  let after := check_reward_subscription_handler AllSubscribed user_id db cache t in
  (get_user_limits ADMIN_IDS user_id after.1 now_utc).1
  = (if bool_decide (level = 0) then (Finite REWARD_LIMIT, Finite 0)
     else (Finite (LIMITS level).1, Finite (LIMITS level).2))
  ∧ ∀ check, check ≠ AllSubscribed →
      check_reward_subscription_handler check user_id db cache t = (db, cache).
Proof.
  intros Hna [user Huser] level after. subst level after.
  split; [|by intros []].
  cbn [check_reward_subscription_handler fst].
  destruct (get_user_level_set_reward_bonus ADMIN_IDS user_id db now_utc user
              Hna Huser) as [Hlevel Hbonus].
  rewrite get_user_limits_not_admin by done. cbv zeta. cbn [fst].
  rewrite Hlevel. case_bool_decide; [|done].
  change (get_user_details ?d ?u) with (get_user d u).
  destruct (get_user (get_user_level _ _ (set_reward_bonus _ _) _).2 _)
    as [details|]; [|done].
  simpl in Hbonus. injection Hbonus as ->. done.
Qed.

Lemma reward_bonus_limits_witness :
  (@get_user_limits sample_lib SAMPLE_ADMINS 8
     (check_reward_subscription_handler AllSubscribed 8 USERS_DB GLOBAL_CACHE
        NOON).1 (utc NOON)).1
  = (Finite 7, Finite 0).
Proof.
  apply (@reward_bonus_limits sample_lib SAMPLE_ADMINS 8 USERS_DB GLOBAL_CACHE NOON
           (utc NOON)).
  - apply (bool_decide_unpack _). by vm_compute.
  - eexists. reflexivity.
Defined.

(** ** Probe rounds and the registry *)

Section probe_facts.
Context `{PyLib}.
Implicit Types (cache : Cache) (c : TTL.t ms_item) (d : gmap string string).

(** The status a round records for a model is the one of the model's last
    result. *)
Lemma statuses_of_results_lookup results model :
  statuses_of_results results !! model
  = snd <$> last (filter (λ r, r.1 = model) results).
Proof.
  unfold statuses_of_results.
  induction results as [|r results IH] using rev_ind; [done|].
  rewrite foldl_app, filter_app. simpl.
  rewrite filter_cons, filter_nil. case_decide as Hr.
  - rewrite last_snoc. simpl. rewrite <- Hr. by rewrite lookup_insert_eq.
  - rewrite app_nil_r, lookup_insert_ne by done. apply IH.
Qed.

Lemma filter_none {A} (P : A → Prop) `{!∀ x, Decision (P x)} (l : list A) :
  Forall (λ x, ¬ P x) l → filter P l = [].
Proof.
  induction 1 as [|x l Hx _ IH]; [done|]. by rewrite filter_cons, decide_False.
Qed.

Lemma last_all_equal {A} (x : A) (l : list A) :
  Forall (λ y, y = x) l → l ≠ [] → last l = Some x.
Proof.
  intros Hall Hne. destruct l as [|y l] using rev_ind; [done|].
  rewrite last_snoc. apply Forall_app in Hall as [_ Hy].
  by apply Forall_singleton in Hy as ->.
Qed.

(** Results computed from the model name alone. *)
Lemma statuses_of_results_fmap (f : string → string * string) models model :
  (∀ m, (f m).1 = m) →
  snd <$> last (filter (λ r, r.1 = model) (f <$> models))
  = if decide (model ∈ models) then Some (f model).2 else None.
Proof.
  intros Hf. case_decide as Hin.
  - rewrite (last_all_equal (f model)); [done| |].
    + apply Forall_forall. intros r Hr. apply list_elem_of_filter in Hr as [Hk Hr].
      apply list_elem_of_fmap in Hr as (m & -> & _). rewrite Hf in Hk. by subst.
    + intros Hnil. apply (filter_nil_not_elem_of _ _ (f model)) in Hnil.
      * apply Hnil. apply list_elem_of_fmap. by exists model.
      * apply Hf.
  - rewrite filter_none; [done|].
    apply Forall_forall. intros r Hr Hk.
    apply list_elem_of_fmap in Hr as (m & -> & Hm). rewrite Hf in Hk. by subst.
Qed.

(** [gather], list by list. *)
Lemma gather_app {A} (tasks1 tasks2 : list (result A)) :
  gather (tasks1 ++ tasks2)
  = match gather tasks1 with
    | Ok results1 =>
        match gather tasks2 with
        | Ok results2 => Ok (results1 ++ results2)
        | Raise e => Raise e
        end
    | Raise e => Raise e
    end.
Proof.
  induction tasks1 as [|[a|e] tasks1 IH]; simpl.
  - by destruct (gather tasks2).
  - rewrite IH. destruct (gather tasks1); [|done]. by destruct (gather tasks2).
  - done.
Qed.

Lemma gather_fmap_Ok {A B} (f : A → B) (l : list A) :
  gather ((λ x, Ok (f x)) <$> l) = Ok (f <$> l).
Proof.
  induction l as [|x l IH]; [done|]. rewrite fmap_cons. cbn [gather].
  by rewrite IH.
Qed.

(** [gather] returns when every task returns, with their results. *)
Lemma gather_fmap {A B} (g : A → result B) (d : A → B) (l : list A) results :
  gather (g <$> l) = Ok results →
  results = (λ x, match g x with Ok r => r | Raise _ => d x end) <$> l
  ∧ ∀ x, x ∈ l → ∃ r, g x = Ok r.
Proof.
  revert results. induction l as [|x l IH]; intros results.
  - intros [= <-]. split; [done|]. intros x Hx. by apply elem_of_nil in Hx.
  - rewrite !fmap_cons. cbn [gather].
    destruct (g x) as [r|e] eqn:Hg; [|done].
    destruct (gather (g <$> l)) as [rs|e] eqn:Hrest; [|done].
    intros [= <-]. destruct (IH rs eq_refl) as [-> Hall]. split; [done|].
    intros y [->|Hy]%elem_of_cons; eauto.
Qed.

(** [gather] raises what one of its tasks raises. *)
Lemma gather_fmap_raise {A B} (g : A → result B) (l : list A) e :
  gather (g <$> l) = Raise e → ∃ x, x ∈ l ∧ g x = Raise e.
Proof.
  induction l as [|x l IH]; [done|]. rewrite fmap_cons. cbn [gather].
  destruct (g x) as [r|e'] eqn:Hg.
  - destruct (gather (g <$> l)) as [rs|e'']; [done|]. intros [= ->].
    destruct IH as (y & Hy & Hgy); [done|]. exists y. split; [by right|done].
  - intros [= ->]. exists x. split; [by left|done].
Qed.

Lemma gather_fmap_returns {A B} (g : A → result B) (l : list A) :
  (∀ x, x ∈ l → ∃ r, g x = Ok r) → ∃ results, gather (g <$> l) = Ok results.
Proof.
  intros Hall. destruct (gather (g <$> l)) as [results|e] eqn:Hg; [by eexists|].
  apply gather_fmap_raise in Hg as (x & Hx & Hgx).
  destruct (Hall x Hx) as [r Hr]. congruence.
Qed.

Lemma test_chat_model_result ai_client ai_client' model :
  create ai_client = create ai_client' →
  (test_chat_model ai_client model).1 = (test_chat_model ai_client' model).1
  ∧ create (test_chat_model ai_client model).2 = create ai_client.
Proof. intros Hcreate. unfold test_chat_model. simpl. by rewrite Hcreate. Qed.

Lemma gather_chat_tests_cons ai_client m models :
  gather_chat_tests ai_client (m :: models)
  = ((test_chat_model ai_client m).1
       :: (gather_chat_tests (test_chat_model ai_client m).2 models).1,
     (gather_chat_tests (test_chat_model ai_client m).2 models).2).
Proof.
  cbn [gather_chat_tests]. destruct (test_chat_model ai_client m) as [r ai1].
  cbn [fst snd]. by destruct (gather_chat_tests ai1 models).
Qed.

Lemma gather_chat_tests_results models : ∀ ai_client,
  (gather_chat_tests ai_client models).1
  = (λ m, (test_chat_model ai_client m).1) <$> models
  ∧ create (gather_chat_tests ai_client models).2 = create ai_client.
Proof.
  induction models as [|m models IH]; intros ai_client; [done|].
  rewrite gather_chat_tests_cons. cbn [fst snd].
  destruct (test_chat_model_result ai_client ai_client m eq_refl) as [_ Hcreate].
  destruct (IH (test_chat_model ai_client m).2) as [Hrs Hcreate'].
  split; [|congruence]. rewrite fmap_cons. f_equal. rewrite Hrs.
  apply list_fmap_ext. intros _ m' _.
  by apply test_chat_model_result.
Qed.

(** A chat probe raises exactly when its request raises an [APIError] that
    has no [status_code]. *)
Lemma test_chat_model_raises ai_client model :
  (∃ e, (test_chat_model ai_client model).1 = Raise e)
  ↔ probe_raises ai_client model.
Proof.
  unfold test_chat_model, probe_raises. simpl.
  destruct (create ai_client (test_request model)) as [content|e] eqn:Hout.
  - split; [by intros [? ?]|]. by intros (? & ? & _).
  - destruct (exn_is e) eqn:Hclass.
    + destruct (status_code e) as [status|] eqn:Hstatus.
      * split; [by intros [? ?]|]. intros (e' & [= <-] & _ & Hnone). congruence.
      * split; [|by eexists]. intros _. by exists e.
    + split; [by intros [? ?]|]. intros (e' & [= <-] & Hapi & _). congruence.
    + split; [by intros [? ?]|]. intros (e' & [= <-] & Hapi & _). congruence.
    + split; [by intros [? ?]|]. intros (e' & [= <-] & Hapi & _). congruence.
Qed.

(** A chat probe that returns reports its model, and reports ["OK"] exactly
    when the provider returned. *)
Lemma test_chat_model_ok ai_client model r :
  (test_chat_model ai_client model).1 = Ok r →
  r.1 = model
  ∧ (r.2 = "OK"
     ↔ ∃ content, create ai_client (test_request model) = Returned content).
Proof.
  unfold test_chat_model. simpl.
  destruct (create ai_client (test_request model)) as [content|e].
  - intros [= <-]. split; [done|]. split; [by eexists|done].
  - destruct (exn_is e); [destruct (status_code e)|..]; intros [= <-];
      (split; [done|]); (split; [done|by intros [? ?]]).
Qed.

(** An image probe is recorded as ["OK"] exactly on HTTP 200. *)
Lemma test_image_model_ok post model :
  (test_image_model post model).1 = model
  ∧ ((test_image_model post model).2 = "OK" ↔ post model = HttpStatus 200).
Proof.
  unfold test_image_model. destruct (post model) as [status| |name]; simpl.
  - case_bool_decide as Hs; simpl; [by subst|].
    split; [done|]. split; [done|]. by intros [= ?].
  - done.
  - done.
Qed.

Lemma text_models_not_image_models model :
  model ∈ all_text_models → model ∉ all_image_models.
Proof.
  intros Hin Him. revert Hin.
  assert (Forall (λ m, m ∉ all_text_models) all_image_models) as Hall.
  { apply (bool_decide_unpack _). by vm_compute. }
  rewrite Forall_forall in Hall. by apply Hall.
Qed.

(** The tasks of a round are the chat probes, then the image probes, which
    always return. *)
Lemma probe_results_chat ai_client post :
  probe_results ai_client post
  = match gather ((λ m, (test_chat_model ai_client m).1) <$> all_text_models) with
    | Ok chat_results =>
        Ok (chat_results ++ (test_image_model post <$> all_image_models))
    | Raise e => Raise e
    end.
Proof.
  unfold probe_results.
  destruct (gather_chat_tests_results all_text_models ai_client) as [-> _].
  by rewrite gather_app, gather_fmap_Ok.
Qed.

(** A round raises exactly when one of its chat probes does. *)
Lemma probe_results_raises ai_client post :
  (∃ e, probe_results ai_client post = Raise e)
  ↔ ∃ m, m ∈ all_text_models ∧ probe_raises ai_client m.
Proof.
  rewrite probe_results_chat. split.
  - intros [e He].
    destruct (gather _) as [chat_results|e'] eqn:Hg; [done|].
    apply gather_fmap_raise in Hg as (m & Hm & Hraise).
    exists m. split; [done|]. apply test_chat_model_raises. by eexists.
  - intros (m & Hm & Hraise). apply test_chat_model_raises in Hraise as [e He].
    destruct (gather _) as [chat_results|e'] eqn:Hg; [|by eexists].
    apply (gather_fmap _ (λ m, (m, ""))) in Hg as [_ Hall].
    destruct (Hall m Hm) as [r Hr]. congruence.
Qed.

(** What a round that returns records for each model. *)
Lemma probe_results_lookup ai_client post results model :
  probe_results ai_client post = Ok results →
  statuses_of_results results !! model
  = if decide (model ∈ all_image_models)
    then Some (test_image_model post model).2
    else if decide (model ∈ all_text_models)
         then match (test_chat_model ai_client model).1 with
              | Ok r => Some r.2
              | Raise _ => None
              end
         else None.
Proof.
  rewrite probe_results_chat.
  destruct (gather _) as [chat_results|e] eqn:Hg; [|done]. intros Heq.
  assert (results = chat_results ++ (test_image_model post <$> all_image_models))
    as -> by congruence.
  clear Heq. apply (gather_fmap _ (λ m, (m, ""))) in Hg as [-> Hall].
  set (f := λ m, match (test_chat_model ai_client m).1 with
                 | Ok r => r
                 | Raise _ => (m, "")
                 end).
  assert (∀ m, (f m).1 = m) as Hf.
  { intros m. unfold f.
    destruct (test_chat_model ai_client m).1 as [r|e] eqn:Hr; [|done].
    by apply test_chat_model_ok in Hr as [? _]. }
  rewrite statuses_of_results_lookup, filter_app.
  pose proof (statuses_of_results_fmap (test_image_model post) all_image_models
                model (λ m, proj1 (test_image_model_ok post m))) as Himage.
  pose proof (statuses_of_results_fmap f all_text_models model Hf) as Htext.
  rewrite last_app.
  destruct (last (filter _ (test_image_model post <$> _))) as [x|] eqn:Hlast;
    cbn [fmap option_fmap option_map] in Himage.
  - destruct (decide (model ∈ all_image_models)); [|done].
    simpl. by rewrite Himage.
  - destruct (decide (model ∈ all_image_models)); [done|]. rewrite Htext.
    destruct (decide (model ∈ all_text_models)) as [Hin|]; [|done].
    unfold f. by destruct (Hall model Hin) as [r ->].
Qed.

(** A round writes what [gather] gave it, or nothing. *)
Lemma scheduled_model_test_results ai_client post db cache now now_utc :
  scheduled_model_test ai_client post db cache now now_utc
  = match probe_results ai_client post with
    | Ok results =>
        (Ok (), (gather_chat_tests ai_client all_text_models).2,
         (apply_results results db cache now now_utc).1,
         (apply_results results db cache now now_utc).2)
    | Raise e =>
        (Raise e, (gather_chat_tests ai_client all_text_models).2, db, cache)
    end.
Proof.
  unfold scheduled_model_test, probe_results.
  destruct (gather_chat_tests ai_client all_text_models) as [tasks ai1].
  cbn [fst snd]. destruct (gather _) as [results|e]; [|done].
  by destruct (apply_results results db cache now now_utc).
Qed.

(** With room for both keys, the statuses and the report written one after
    the other can both be read while they are live. *)
Lemma two_writes_read c d report now now' :
  (2 ≤ Pos.to_nat (TTL.maxsize c))%nat → now ≤ now' < now + TTL.ttl c →
  let c' :=
    TTL.setitem ms_key (TTL.setitem ms_key c (Statuses d) now)
      (LastReport report) now in
  get_statuses c' now' = d ∧ get_last_report c' now' = Some report.
Proof.
  intros Hcap [Hle Hlt] c'. subst c'. split.
  - set (S := Statuses d). set (R := LastReport report).
    destruct (setitem_links ms_key c S now) as (kept & Hlinks & Hkept & _).
    destruct (setitem_keeps_recent ms_key (TTL.setitem ms_key c S now) R now
                kept (S, now + TTL.ttl c)) as (pre & Hpre & Hsub);
      [done|simpl; lia|done|done|].
    replace (TTL.ttl (TTL.setitem ms_key c S now)) with (TTL.ttl c) in Hpre by done.
    assert (Forall (λ l, ms_key l.1 ≠ "statuses") pre) as Hno.
    { apply Forall_forall. intros l Hl. rewrite Forall_forall in Hkept.
      by apply Hkept, Hsub. }
    unfold get_statuses, TTL.get, TTL.get_link. rewrite Hpre.
    unfold TTL.expire. rewrite !filter_app.
    rewrite (filter_key_none ms_key "statuses" (filter _ pre)); last first.
    { apply Forall_forall. intros l Hl. apply list_elem_of_filter in Hl as [_ Hl].
      rewrite Forall_forall in Hno. by apply Hno. }
    rewrite filter_cons, decide_True by (simpl; lia).
    by rewrite filter_cons, decide_True.
  - unfold get_last_report.
    by rewrite (get_setitem ms_key _ (LastReport report) now now').
Qed.

(** With room for one key only, the report replaces the statuses. *)
Lemma two_writes_single c d report now now' :
  TTL.wf c → TTL.maxsize c = 1%positive →
  get_statuses
    (TTL.setitem ms_key (TTL.setitem ms_key c (Statuses d) now)
       (LastReport report) now) now' = ∅.
Proof.
  intros Hwf Hmax. unfold get_statuses, TTL.get, TTL.get_link.
  rewrite setitem_single; [|by apply setitem_wf|done].
  unfold TTL.expire. rewrite filter_cons, filter_nil.
  case_decide; [|done]. by rewrite filter_cons, decide_False.
Qed.

(** A model that was available and is then marked failed is unavailable for
    the [ttl] of the registry cache. *)
Lemma mark_failed_window model_name cache c now now' :
  model_status cache = Some c →
  get_statuses c now !! model_name ≠ Some "FAILED" →
  now' < now + TTL.ttl c →
  is_model_available model_name
    (set_model_failed_in_cache model_name cache now) now' = false.
Proof.
  intros Hc Hst Hlt. unfold set_model_failed_in_cache. rewrite Hc.
  rewrite bool_decide_eq_true_2 by done.
  unfold is_model_available. cbn [model_status].
  rewrite get_statuses_setitem by done. by rewrite lookup_insert_eq.
Qed.
End probe_facts.

(** X10.  What a probe round means for availability.  The round raises
    exactly when the request of some text model's probe raises an [APIError]
    that has no [status_code] (a timeout of the request, a failed connection):
    the handler of [test_chat_model] then raises [AttributeError], [gather]
    hands it on, and the round ends before it writes anything, so the store
    and the cache are as before and every model reads as it did before the
    round.  When the round returns: in a registry cache with room for two
    items, for the [ttl] after the round a text model is available exactly
    when its probe request returned (with or without text), an image model
    exactly when its probe got HTTP 200, and a model the round does not probe
    is available; in a registry cache with room for one item, as [bot.py]
    creates it, every model is available after the round, whatever the probes
    gave. *)
Theorem probe_round_availability `{PyLib} (ai_client : AsyncOpenAI)
    (post : string → image_outcome) (db : Database) (cache : Cache)
    (c : TTL.t ms_item) (now now_utc now' : Z) (model : string) :
  model_status cache = Some c →
  let round := scheduled_model_test ai_client post db cache now now_utc in
  let cache' := round.2 in
  ((∃ e, round.1.1.1 = Raise e)
   ↔ ∃ m, m ∈ all_text_models
       ∧ ∃ e, create ai_client (test_request m) = Raised e
           ∧ exn_is e = APIError ∧ status_code e = None)
  ∧ ((∃ e, round.1.1.1 = Raise e) → round.1.2 = db ∧ cache' = cache)
  ∧ (round.1.1.1 = Ok () →
     ((2 ≤ Pos.to_nat (TTL.maxsize c))%nat → now ≤ now' < now + TTL.ttl c →
      (model ∈ all_text_models →
       (is_model_available model cache' now' = true
        ↔ ∃ content, create ai_client (test_request model) = Returned content))
      ∧ (model ∈ all_image_models →
         (is_model_available model cache' now' = true
          ↔ post model = HttpStatus 200))
      ∧ (model ∉ all_text_models → model ∉ all_image_models →
         is_model_available model cache' now' = true))
     ∧ (TTL.maxsize c = 1%positive → TTL.wf c →
        is_model_available model cache' now' = true)).
Proof.
  intros Hc round cache'. subst cache' round.
  rewrite scheduled_model_test_results.
  pose proof (probe_results_raises ai_client post) as Hraises.
  unfold probe_raises in Hraises.
  destruct (probe_results ai_client post) as [results|e] eqn:Hresults;
    cbn [fst snd]; split_and!.
  - rewrite <- Hraises. split; by intros [? ?].
  - by intros [? ?].
  - intros _. unfold is_model_available.
    rewrite (apply_results_cache _ _ _ _ _ _ Hc). split.
    + intros Hcap Hlive.
      destruct (two_writes_read c (statuses_of_results results)
                  (report_of results now_utc) now now' Hcap Hlive) as [-> _].
      rewrite (probe_results_lookup ai_client post results model Hresults).
      rewrite bool_decide_eq_true. split_and!.
      * intros Htext. pose proof (text_models_not_image_models model Htext).
        rewrite decide_False, decide_True by done.
        destruct (test_chat_model ai_client model).1 as [r|e] eqn:Hr.
        -- simpl. by apply test_chat_model_ok in Hr as [_ ?].
        -- destruct (proj2 Hraises) as [? ?]; [|done]. exists model.
           split; [done|].
           apply (test_chat_model_raises ai_client model). by eexists.
      * intros Himage. rewrite decide_True by done. simpl.
        apply test_image_model_ok.
      * intros Htext Himage. by rewrite !decide_False.
    + intros Hmax Hwf. by rewrite (two_writes_single c _ _ now now' Hwf Hmax).
  - rewrite <- Hraises. split; by eauto.
  - done.
  - done.
Qed.

Lemma probe_round_availability_witness :
  let round (ai_client : AsyncOpenAI) (cache : Cache) :=
    @scheduled_model_test sample_lib ai_client HEALTHY_POST EMPTY_DB cache 0
      1748779200000000 in
  is_model_available "gpt-4.1" (round MIXED_CLIENT (cache_of_size 2)).2 599 = true
  ∧ is_model_available "grok-3" (round MIXED_CLIENT (cache_of_size 2)).2 599 = false
  ∧ is_model_available "grok-3" (round MIXED_CLIENT GLOBAL_CACHE).2 599 = true
  ∧ (∃ e, (round STALLED_CLIENT (cache_of_size 2)).1.1.1 = Raise e)
  ∧ (round STALLED_CLIENT (cache_of_size 2)).1.2 = EMPTY_DB
  ∧ (round STALLED_CLIENT (cache_of_size 2)).2 = cache_of_size 2.
Proof.
  cbv zeta.
  assert ((@scheduled_model_test sample_lib MIXED_CLIENT HEALTHY_POST EMPTY_DB
             (cache_of_size 2) 0 1748779200000000).1.1.1 = Ok ()) as Hreturns.
  { by vm_compute. }
  split_and!.
  - destruct (@probe_round_availability sample_lib MIXED_CLIENT HEALTHY_POST
                EMPTY_DB (cache_of_size 2) (TTL.mk 2 600 []) 0 1748779200000000
                599 "gpt-4.1" eq_refl) as (_ & _ & Hround).
    destruct (Hround Hreturns) as [Hroom _].
    destruct Hroom as (Htext & _); [simpl; lia|simpl; lia|].
    apply Htext; [apply (bool_decide_unpack _); by vm_compute|].
    by eexists.
  - by vm_compute.
  - by vm_compute.
  - destruct (@probe_round_availability sample_lib STALLED_CLIENT HEALTHY_POST
                EMPTY_DB (cache_of_size 2) (TTL.mk 2 600 []) 0 1748779200000000
                599 "grok-3" eq_refl) as (Hraises & _ & _).
    apply Hraises. exists "grok-3".
    split; [apply (bool_decide_unpack _); by vm_compute|].
    by exists API_TIMEOUT_ERROR.
  - by vm_compute.
  - by vm_compute.
Defined.

(** X11.  A probe round followed by a restart.  When the round has returned
    (no probe raised) and the process starts again less than ten minutes
    after it, [startup_model_check] returns without sending a probe, leaves
    the store as the round left it, and, in a registry cache with room for
    two items, the statuses and the report it loads are the ones the round
    recorded.  The hypotheses on the library say that the timestamp and the
    JSON text written by the round are read back as written. *)
Theorem probe_round_then_restart `{PyLib} (ai_client : AsyncOpenAI)
    (post : string → image_outcome) (db : Database) (cache : Cache)
    (now now_utc : Z) (results : list (string * string))
    (ai_client2 : AsyncOpenAI) (post2 : string → image_outcome)
    (cache2 : Cache) (now2 now_utc2 : Z) :
  let round := scheduled_model_test ai_client post db cache now now_utc in
  round.1.1.1 = Ok () →
  probe_results ai_client post = Ok results →
  fromisoformat (adapt_datetime now_utc)
  = Some {| instant := now_utc; aware := true |} →
  json_loads (json_dumps (statuses_of_results results))
  = Some (statuses_of_results results) →
  now_utc2 - now_utc < ten_minutes →
  let db' := round.1.2 in
  let r := startup_model_check ai_client2 post2 db' cache2 now2 now_utc2 in
  r.1.1.1 = Ok () ∧ r.1.1.2 = ai_client2 ∧ r.1.2 = db'
  ∧ (model_status cache2 = None → r.2 = cache2)
  ∧ (∀ c2 now',
       model_status cache2 = Some c2 → (2 ≤ Pos.to_nat (TTL.maxsize c2))%nat →
       now2 ≤ now' < now2 + TTL.ttl c2 →
       ∃ c', model_status r.2 = Some c'
         ∧ get_statuses c' now' = statuses_of_results results
         ∧ get_last_report c' now' = Some (report_of results now_utc)).
Proof.
  intros round _ Hresults Hparse Hjson Hage db' r.
  assert (get_system_state db' "model_status"
          = Some (json_dumps (statuses_of_results results), adapt_datetime now_utc))
    as Hstatus.
  { subst db' round. rewrite scheduled_model_test_results, Hresults.
    cbn [fst snd].
    unfold apply_results, get_system_state, set_system_state. cbn [fst system_state].
    rewrite lookup_insert_ne by done. by rewrite lookup_insert_eq. }
  assert (get_system_state db' "last_report"
          = Some (report_of results now_utc, adapt_datetime now_utc)) as Hreport.
  { subst db' round. rewrite scheduled_model_test_results, Hresults.
    cbn [fst snd].
    unfold apply_results, get_system_state, set_system_state. cbn [fst system_state].
    by rewrite lookup_insert_eq. }
  destruct (startup_loads_recent ai_client2 post2 db' cache2 now2 now_utc2 _ _ _ _ _
              Hstatus Hreport Hparse eq_refl Hage) as (cache' & Hr & Hcache').
  { intros _ _. by rewrite Hjson. }
  fold r in Hr. rewrite Hr. cbn [fst snd]. split_and!; [done|done|done| |].
  - intros Hnone. by rewrite Hnone in Hcache'.
  - intros c2 now' Hc2 Hcap Hlive. rewrite Hc2 in Hcache'.
    destruct Hcache' as (statuses & Hloads & Hcache').
    rewrite Hjson in Hloads. injection Hloads as <-.
    eexists. split; [done|]. by apply two_writes_read.
Qed.

Lemma probe_round_then_restart_witness :
  let db' :=
    (@scheduled_model_test restart_lib HEALTHY_CLIENT HEALTHY_POST EMPTY_DB
       (cache_of_size 2) 0 1748779200000000).1.2 in
  let r :=
    @startup_model_check restart_lib FAILING_CLIENT HEALTHY_POST db'
      (cache_of_size 2) 7 1748779500000000 in
  r.1.1.1 = Ok () ∧ r.1.1.2 = FAILING_CLIENT ∧ r.1.2 = db'
  ∧ ∃ c', model_status r.2 = Some c' ∧ get_statuses c' 7 = HEALTHY_STATUSES.
Proof.
  assert (∃ results, probe_results HEALTHY_CLIENT HEALTHY_POST = Ok results
                     ∧ statuses_of_results results = HEALTHY_STATUSES)
    as (results & Hresults & Hstatuses).
  { unfold HEALTHY_STATUSES.
    destruct (probe_results HEALTHY_CLIENT HEALTHY_POST) as [results|e] eqn:Hr;
      [by exists results|by vm_compute in Hr]. }
  destruct (@probe_round_then_restart restart_lib HEALTHY_CLIENT HEALTHY_POST
              EMPTY_DB (cache_of_size 2) 0 1748779200000000 results
              FAILING_CLIENT HEALTHY_POST (cache_of_size 2) 7 1748779500000000)
    as (Hreturns & Hclient & Hdb & _ & Hloaded).
  - by vm_compute.
  - exact Hresults.
  - by vm_compute.
  - rewrite Hstatuses. by vm_compute.
  - by vm_compute.
  - split; [exact Hreturns|]. split; [exact Hclient|]. split; [exact Hdb|].
    destruct (Hloaded (TTL.mk 2 600 []) 7 eq_refl) as (c' & Hc' & Hloads & _);
      [simpl; lia|simpl; lia|].
    exists c'. split; [exact Hc'|]. by rewrite Hloads.
Defined.

(** X12.  One failure closes Max Mode: once a participant or the arbiter has
    been marked failed (which [handle_chat_message] does when an ordinary chat
    request to that model fails), for the [ttl] of the registry cache
    [are_max_mode_models_available] is false, a Max Mode message of any user
    is turned away with the state cleared and nothing sent to the backend,
    and Max Mode cannot be activated. *)
Theorem max_mode_closed_by_one_failure `{PyLib} (ADMIN_IDS : list Z)
    (model : string) (cache : Cache) (c : TTL.t ms_item) (now : Z)
    (text : string) (user_id : Z) (state : FSMContext) (db : Database)
    (ai_client : AsyncOpenAI) (edit_ok notice_ok : bool) (t0 t1 : clock) :
  model ∈ MAX_MODE_PARTICIPANTS ++ [MAX_MODE_ARBITER] →
  model_status cache = Some c →
  get_statuses c now !! model ≠ Some "FAILED" →
  mono t0 < now + TTL.ttl c →
  let cache' := set_model_failed_in_cache model cache now in
  are_max_mode_models_available cache' (mono t0) = false
  ∧ handle_max_mode_message ADMIN_IDS text user_id state db ai_client cache'
      edit_ok notice_ok t0 t1
    = {| h_state := state_clear state; h_db := db; h_ai_client := ai_client;
         h_cache := cache'; h_sent := [AnswerMaxUnavailable];
         h_animation_task := None; h_raised := None |}
  ∧ activate_max_mode ADMIN_IDS user_id state db cache' t0
    = (state, db, AlertMaxUnavailable).
Proof.
  intros Hin Hc Hst Hlive cache'.
  assert (are_max_mode_models_available cache' (mono t0) = false) as Hclosed.
  { unfold are_max_mode_models_available.
    destruct (forallb _ _) eqn:Hall; [|done].
    rewrite forallb_forall in Hall. specialize (Hall model).
    rewrite <- list_elem_of_In in Hall. specialize (Hall Hin).
    subst cache'. by rewrite (mark_failed_window model cache c now) in Hall. }
  split; [done|]. unfold handle_max_mode_message, activate_max_mode.
  by rewrite Hclosed.
Qed.

Lemma max_mode_closed_by_one_failure_witness :
  let cache' := set_model_failed_in_cache "gpt-4.1" GLOBAL_CACHE 0 in
  are_max_mode_models_available cache' 599 = false
  ∧ @handle_max_mode_message sample_lib SAMPLE_ADMINS "2+2?" 1 CHAT_STATE USERS_DB
      HEALTHY_CLIENT cache' true true {| mono := 599; utc := utc NOON |} NOON
    = {| h_state := state_clear CHAT_STATE; h_db := USERS_DB;
         h_ai_client := HEALTHY_CLIENT; h_cache := cache';
         h_sent := [AnswerMaxUnavailable]; h_animation_task := None;
         h_raised := None |}
  ∧ @activate_max_mode sample_lib SAMPLE_ADMINS 1 CHAT_STATE USERS_DB cache'
      {| mono := 599; utc := utc NOON |}
    = (CHAT_STATE, USERS_DB, AlertMaxUnavailable).
Proof.
  apply (@max_mode_closed_by_one_failure sample_lib SAMPLE_ADMINS "gpt-4.1"
           GLOBAL_CACHE (TTL.mk 1 600 []) 0 "2+2?" 1 CHAT_STATE USERS_DB
           HEALTHY_CLIENT true true {| mono := 599; utc := utc NOON |} NOON).
  - apply (bool_decide_unpack _). by vm_compute.
  - reflexivity.
  - by vm_compute.
  - simpl. lia.
Defined.

(** ** The ensemble, request by request *)

Section ensemble_requests.
Context `{PyLib}.
Implicit Types (ai_client : AsyncOpenAI) (db : Database) (cache : Cache).

(** The request of a participant ends with the user's prompt. *)
Lemma participant_request ai_client model prompt user_id db cache now :
  ∃ rq, rq_model rq = model
    ∧ last (rq_messages rq) = Some {| role := "user"; content := prompt |}
    ∧ (_get_participant_response ai_client model prompt user_id db cache now).1.2
      = {| create := create ai_client; calls := calls ai_client ++ [rq] |}.
Proof.
  unfold _get_participant_response.
  destruct (get_simple_response_request ai_client model
              [{| role := "user"; content := prompt |}] user_id db cache now)
    as (details & Hclient & _).
  destruct (get_simple_response _ _ _ _ _ _ _) as [[res ai'] cache'].
  cbn [fst snd] in Hclient. subst ai'. eexists. split_and!; [| |by destruct res].
  - done.
  - apply (final_request_last model [] details).
Qed.

Lemma gather_participants_requests models prompt user_id db now :
  ∀ ai_client cache,
  ∃ new, calls (gather_participants ai_client models prompt user_id db cache now).1.2
         = calls ai_client ++ new
    ∧ rq_model <$> new = models
    ∧ Forall (λ rq, last (rq_messages rq)
                    = Some {| role := "user"; content := prompt |}) new.
Proof.
  induction models as [|m models IH]; intros ai_client cache.
  - exists []. simpl. by rewrite app_nil_r.
  - cbn [gather_participants].
    destruct (participant_request ai_client m prompt user_id db cache now)
      as (rq & Hmodel & Hlast & Hclient).
    destruct (_get_participant_response _ _ _ _ _ _ _) as [[r ai1] cache1].
    cbn [fst snd] in Hclient. subst ai1.
    destruct (IH {| create := create ai_client; calls := calls ai_client ++ [rq] |}
                cache1) as (new & Hcalls & Hmodels & Hlasts).
    destruct (gather_participants _ models _ _ _ _ _) as [[rs ai2] cache2].
    cbn [fst snd calls] in *. exists (rq :: new). split_and!.
    + by rewrite Hcalls, <- app_assoc.
    + rewrite fmap_cons. by rewrite Hmodel, Hmodels.
    + by constructor.
Qed.
End ensemble_requests.

(** X13.  The protocol of an ensemble run.  The six participants are asked
    first, once each and nobody else, each with the user's prompt as its last
    message, whatever the others answer; the order of these six requests
    among themselves is not fixed, since their tasks run concurrently.  Then
    either no participant gave a non-error text, no further request is sent
    and the run raises the all-participants-failed error; or the arbiter is
    asked exactly once, and the run returns the arbiter's text (the empty
    text if the answer has none) or, if that call raises, the arbiter-failed
    error.  No other exception leaves the run. *)
Theorem ensemble_protocol `{PyLib} (ai_client : AsyncOpenAI) (prompt : string)
    (user_id : Z) (db : Database) (cache : Cache) (now : Z) :
  let r := get_max_mode_response ai_client prompt user_id db cache now in
  ∃ pre,
    rq_model <$> pre ≡ₚ MAX_MODE_PARTICIPANTS
    ∧ Forall (λ rq, last (rq_messages rq)
                    = Some {| role := "user"; content := prompt |}) pre
    ∧ match r.1.1 with
      | Ok response_text =>
          ∃ rq, calls r.1.2 = calls ai_client ++ pre ++ [rq]
            ∧ rq_model rq = MAX_MODE_ARBITER
            ∧ (create ai_client rq = Returned (Some response_text)
               ∨ create ai_client rq = Returned None ∧ response_text = "")
      | Raise e =>
          e = ALL_FAILED ∧ calls r.1.2 = calls ai_client ++ pre
          ∨ e = ARBITER_FAILED
            ∧ ∃ rq e', calls r.1.2 = calls ai_client ++ pre ++ [rq]
                ∧ rq_model rq = MAX_MODE_ARBITER
                ∧ create ai_client rq = Raised e'
      end.
Proof.
  intros r. subst r. unfold get_max_mode_response.
  destruct (gather_participants_requests MAX_MODE_PARTICIPANTS prompt user_id db now
              ai_client cache) as (pre & Hcalls & Hmodels & Hlasts).
  destruct (gather_participants_calls ai_client MAX_MODE_PARTICIPANTS prompt
              user_id db cache now) as (_ & _ & Hcreate & _).
  destruct (gather_participants _ _ _ _ _ _ _) as [[results ai1] cache1].
  cbn [fst snd] in Hcalls, Hcreate. exists pre.
  split; [by rewrite Hmodels|]. split; [done|].
  destruct (collect results _ 0) as [parts successful].
  case_bool_decide; cbn [fst snd].
  { left. by split. }
  match goal with
  | |- context [get_simple_response ai1 ?m ?msgs ?u ?d ?c ?t] =>
      destruct (get_simple_response_spec ai1 m msgs u d c t)
        as (rq & Hmodel & Hclient & Hres);
      destruct (get_simple_response ai1 m msgs u d c t) as [[res ai2] cache2]
  end.
  cbn [fst snd] in Hclient, Hres. subst ai2. rewrite Hcreate in Hres.
  destruct res as [response_text|e]; cbn [fst snd calls].
  - exists rq. rewrite Hcalls, <- app_assoc. split; [done|]. split; [done|].
    destruct (create ai_client rq) as [[?|]|?]; simplify_eq; by eauto.
  - right. split; [done|].
    destruct (create ai_client rq) as [[?|]|e'] eqn:Hout; simplify_eq.
    exists rq, e'. by rewrite Hcalls, <- app_assoc.
Qed.

(** X14.  The synthesis prompt.  When some participant result is a non-error
    text, the arbiter's request ends with one user message: the fixed
    instructions with the user's prompt, then one labelled part per
    participant, in the configured order, carrying that participant's text
    (its answer or its failure text), then the closing line, joined by line
    feeds.  The run returns what the arbiter answers. *)
Theorem ensemble_synthesis_prompt `{PyLib} (ai_client : AsyncOpenAI)
    (prompt : string) (user_id : Z) (db : Database) (cache : Cache) (now : Z) :
  let results :=
    (gather_participants ai_client MAX_MODE_PARTICIPANTS prompt user_id db
       cache now).1.1 in
  let r := get_max_mode_response ai_client prompt user_id db cache now in
  Exists (λ p, String.prefix ERROR_MARK (safe_response_text p.2) = false) results →
  fst <$> results = MAX_MODE_PARTICIPANTS
  ∧ ∃ rq, last (calls r.1.2) = Some rq
      ∧ rq_model rq = MAX_MODE_ARBITER
      ∧ last (rq_messages rq)
        = Some {| role := "user";
                  content :=
                    String.concat nl
                      (meta_prompt_head prompt ++ (participant_part <$> results) ++
                       [nl +:+ "**ТВОЙ ИТОГОВЫЙ РЕЗУЛЬТАТ (выполни ШАГ 2 и ШАГ 3):**"]) |}
      ∧ r.1.1 = match create ai_client rq with
                | Returned None => Ok ""
                | Returned (Some final_response_text) => Ok final_response_text
                | Raised _ => Raise ARBITER_FAILED
                end.
Proof.
  intros results r Hsome. split.
  - subst results. clear Hsome r. generalize MAX_MODE_PARTICIPANTS.
    intros models. revert ai_client cache.
    induction models as [|m models IH]; intros ai_client cache; [done|].
    cbn [gather_participants].
    destruct (participant_response_spec ai_client m prompt user_id db cache now)
      as (rq & _ & _ & Hres).
    destruct (_get_participant_response _ _ _ _ _ _ _) as [[p ai1] cache1].
    cbn [fst snd] in Hres. subst p. specialize (IH ai1 cache1).
    destruct (gather_participants _ models _ _ _ _ _) as [[rs ai2] cache2].
    cbn [fst snd] in *. by rewrite fmap_cons, IH.
  - subst r. unfold get_max_mode_response. subst results.
    destruct (gather_participants_calls ai_client MAX_MODE_PARTICIPANTS prompt
                user_id db cache now) as (new & Hcalls & Hcreate & Hmodels).
    destruct (gather_participants _ _ _ _ _ _ _) as [[results ai1] cache1].
    cbn [fst snd] in Hsome, Hcalls, Hcreate. rewrite collect_spec.
    rewrite bool_decide_eq_false_2; last first.
    { apply Exists_exists in Hsome as (p & Hp & Hmark). simpl.
      destruct (filter _ results) eqn:Hfilter; [|done].
      exfalso. by apply (filter_nil_not_elem_of _ _ p Hfilter Hmark). }
    match goal with
    | |- context [get_simple_response ai1 ?m [?x] ?u ?d ?c ?t] =>
        destruct (get_simple_response_request ai1 m [x] u d c t)
          as (details & Hclient & Hres);
        pose proof (final_request_last m [] details x) as Hlast;
        change ([] ++ [x]) with [x] in Hlast;
        destruct (get_simple_response ai1 m [x] u d c t)
          as [[res ai2] cache2];
        exists (final_request m [x] details)
    end.
    cbn [fst snd] in Hclient, Hres. subst ai2. rewrite Hcreate in Hres.
    split_and!; [| reflexivity | |].
    + destruct res; cbn [fst snd calls]; by rewrite last_snoc.
    + rewrite Hlast, <- app_assoc. reflexivity.
    + rewrite Hres. by destruct (create ai_client _) as [[?|]|?].
Qed.

Lemma ensemble_synthesis_prompt_witness :
  let r :=
    @get_max_mode_response sample_lib MIXED_CLIENT "2+2?" 8 USERS_DB GLOBAL_CACHE 0 in
  r.1.1 = Ok "final"
  ∧ occurs ("(<code>claude-3.7-sonnet</code>):**" +:+ nl +:+ "4" +:+ nl +:+ "---")
      (default "" (last_prompt r.1.2)) = true.
Proof.
  destruct (@ensemble_synthesis_prompt sample_lib MIXED_CLIENT "2+2?" 8 USERS_DB
              GLOBAL_CACHE 0) as (_ & rq & Hlast & Hmodel & Hprompt & Hres).
  { apply (bool_decide_unpack _). by vm_compute. }
  cbv zeta. split.
  - rewrite Hres.
    assert (create MIXED_CLIENT rq = Returned (Some "final")) as ->; [|done].
    unfold MIXED_CLIENT. cbn [create]. rewrite Hmodel. by vm_compute.
  - unfold last_prompt. rewrite Hlast. cbn [mbind option_bind].
    rewrite Hprompt. by vm_compute.
Defined.

(** ** The chat handler and the registry *)

Section chat_registry.
Context `{PyLib} (ADMIN_IDS : list Z).

(** With one item to a key, the item a key has at some time is the item it
    had before. *)
Lemma get_earlier {K I : Type} `{EqDecision K} (key_of : I → K) (c : TTL.t I)
    (k : K) (t t' : Z) (i : I) :
  NoDup ((λ l, key_of l.1) <$> TTL.links c) → t ≤ t' →
  TTL.get key_of c k t' = Some i → TTL.get key_of c k t = Some i.
Proof.
  unfold TTL.get, TTL.get_link, TTL.expire. intros Hnodup Hle.
  induction (TTL.links c) as [|l ls IH]; [done|].
  rewrite fmap_cons in Hnodup. apply NoDup_cons in Hnodup as [Hl Hnodup].
  rewrite !(filter_cons _ l).
  destruct (decide (key_of l.1 = k)) as [Hk|Hk].
  - assert (filter (λ l, key_of l.1 = k) (filter (λ l, t' < l.2) ls) = []) as Hnone.
    { apply filter_none. apply Forall_forall. intros x Hx Hkx.
      apply list_elem_of_filter in Hx as [_ Hx]. apply Hl.
      apply list_elem_of_fmap. exists x. split; [congruence|done]. }
    destruct (decide (t' < l.2)) as [Hlive|Hdead].
    + rewrite decide_True by lia. by rewrite !filter_cons, !decide_True.
    + by rewrite Hnone.
  - intros Hget. specialize (IH Hnodup).
    assert (fst <$> head (filter (λ l, key_of l.1 = k) (filter (λ l, t < l.2) ls))
            = Some i) as Hearlier.
    { apply IH. revert Hget. destruct (decide (t' < l.2)); [|done].
      by rewrite filter_cons, decide_False. }
    destruct (decide (t < l.2)); [|done]. by rewrite filter_cons, decide_False.
Qed.

Lemma get_user_details_cached_registry user_id db cache now :
  model_status (get_user_details_cached user_id db cache now).2 = model_status cache.
Proof. unfold get_user_details_cached. by repeat case_match. Qed.

Lemma get_simple_response_registry ai_client model messages user_id db cache now :
  model_status (get_simple_response ai_client model messages user_id db cache now).2
  = model_status cache.
Proof.
  unfold get_simple_response.
  pose proof (get_user_details_cached_registry user_id db cache now) as Hreg.
  destruct (get_user_details_cached user_id db cache now) as [details cache1].
  unfold chat_completions_create. by destruct (create ai_client _) as [[?|]|?].
Qed.

Lemma is_model_available_registry model_name cache cache' now :
  model_status cache = model_status cache' →
  is_model_available model_name cache now = is_model_available model_name cache' now.
Proof. unfold is_model_available. by intros ->. Qed.

(** The messages of a request: system messages, then the caller's. *)
Lemma final_request_messages model messages details :
  ∃ sys, rq_messages (final_request model messages details) = sys ++ messages
    ∧ Forall (λ m, role m = "system") sys.
Proof.
  unfold final_request. cbn [rq_messages].
  destruct (match details with Some d => _ | None => None end) as [instruction|].
  - eexists. split; [done|]. by repeat constructor.
  - eexists. split; [done|]. by repeat constructor.
Qed.

Lemma length_last10 (history : list message) : (length (last10 history) ≤ 10)%nat.
Proof. unfold last10. rewrite length_drop. lia. Qed.
End chat_registry.

(** X15.  The conversation history of a chat.  The request of a chat message
    goes to the model of the conversation and carries, after the system
    messages, the stored history followed by the new message.  When the
    answer has been delivered the history is the old one with the message and
    the answer appended, cut to its last ten entries; when the backend call
    raises the history is exactly the old one.  When nothing is sent to the
    backend the conversation is left alone or, at the daily limit, cleared. *)
Theorem chat_history_window `{PyLib} (ADMIN_IDS : list Z) (text : string)
    (user_id : Z) (state : FSMContext) (db : Database) (ai_client : AsyncOpenAI)
    (cache : Cache) (edit_ok notice_ok : bool) (t0 t1 : clock) :
  let h :=
    handle_chat_message ADMIN_IDS text user_id state db ai_client cache edit_ok
      notice_ok t0 t1 in
  let user_msg := {| role := "user"; content := text |} in
  (∀ rq, calls (h_ai_client h) = calls ai_client ++ [rq] →
     rq_model rq = data_model state
     ∧ ∃ sys, rq_messages rq = sys ++ data_history state ++ [user_msg]
         ∧ Forall (λ m, role m = "system") sys)
  ∧ (∀ response_text model,
       h_sent h = [AnswerThinking; EditResponse response_text model] →
       data_history (h_state h)
       = last10 (data_history state
                 ++ [user_msg; {| role := "assistant"; content := response_text |}])
       ∧ (length (data_history (h_state h)) ≤ 10)%nat)
  ∧ (∀ rq e, calls (h_ai_client h) = calls ai_client ++ [rq] →
       create ai_client rq = Raised e →
       data_history (h_state h) = data_history state)
  ∧ (h_ai_client h = ai_client → h_state h = state ∨ h_state h = state_clear state).
Proof.
  intros h user_msg. subst h. rewrite handle_chat_message_stages. cbv zeta.
  fold user_msg.
  assert (∀ rq, calls ai_client ≠ calls ai_client ++ [rq]) as Hsnoc.
  { intros rq Heq. symmetry in Heq. by apply snoc_neq in Heq. }
  destruct (match (get_user_details_cached _ _ _ _).1 with
            | Some d => is_blocked d | None => false end).
  { cbn [h_ai_client h_state h_sent].
    split_and!; [intros rq Hc; by apply Hsnoc in Hc|by intros ?? [=]
                |intros rq e Hc; by apply Hsnoc in Hc|by left]. }
  destruct (reached _ _).
  { cbn [h_ai_client h_state h_sent].
    split_and!; [intros rq Hc; by apply Hsnoc in Hc|by intros ?? [=]
                |intros rq e Hc; by apply Hsnoc in Hc|by right]. }
  destruct (negb _).
  { cbn [h_ai_client h_state h_sent].
    split_and!; [intros rq Hc; by apply Hsnoc in Hc|by intros ?? [=]
                |intros rq e Hc; by apply Hsnoc in Hc|by left]. }
  match goal with
  | |- context [get_simple_response ai_client ?m ?msgs ?u ?d ?c ?t] =>
      destruct (get_simple_response_request ai_client m msgs u d c t)
        as (details & Hclient & Hres);
      destruct (final_request_messages m msgs details) as (sys & Hmessages & Hsys);
      destruct (get_simple_response ai_client m msgs u d c t)
        as [[res ai1] cache1]
  end.
  cbn [fst snd] in Hclient, Hres. subst ai1.
  assert (∀ rq, calls ai_client ++ [final_request (data_model state)
                  (data_history state ++ [user_msg]) details]
                = calls ai_client ++ [rq] →
                rq = final_request (data_model state)
                       (data_history state ++ [user_msg]) details) as Hrq.
  { intros rq Hc. apply app_inv_head in Hc. by injection Hc. }
  assert ({| create := create ai_client;
             calls := calls ai_client ++ [final_request (data_model state)
                        (data_history state ++ [user_msg]) details] |}
          ≠ ai_client) as Hne.
  { intros Heq. apply (f_equal calls) in Heq. cbn [calls] in Heq.
    by apply snoc_neq in Heq. }
  cbn [fst snd].
  destruct res as [response_text|e].
  - destruct edit_ok; cbn [h_ai_client h_state h_sent calls]; split_and!.
    + intros rq Hc. apply Hrq in Hc as ->. split; [done|]. by exists sys.
    + intros ?? [= <- <-]. cbn [update_history data_history].
      rewrite <- app_assoc. split; [done|]. apply length_last10.
    + intros rq e Hc Hraised. apply Hrq in Hc as ->. by rewrite Hraised in Hres.
    + done.
    + intros rq Hc. apply Hrq in Hc as ->. split; [done|]. by exists sys.
    + unfold last_edit. by destruct notice_ok.
    + intros rq e Hc Hraised. apply Hrq in Hc as ->. by rewrite Hraised in Hres.
    + done.
  - cbn [h_ai_client h_state h_sent calls]. split_and!.
    + intros rq Hc. apply Hrq in Hc as ->. split; [done|]. by exists sys.
    + unfold last_edit. case_bool_decide; by destruct notice_ok.
    + intros _ _ _ _. cbn [update_history data_history]. apply removelast_last.
    + done.
Qed.

(** X16.  The circuit breaker of the chat handler.  When the backend call of
    a chat message raises [APIError] or [RuntimeError], the model is marked
    failed: for the [ttl] of the registry cache after that, a chat message of
    any user in a conversation with the same model sends nothing to the
    backend, records no usage and gets no waiting message.  An exception of
    another class leaves the registry as it was.  The registry cache is taken
    to hold one item to a key, as a cache does. *)
Theorem chat_circuit_breaker `{PyLib} (ADMIN_IDS : list Z) (text : string)
    (user_id : Z) (state : FSMContext) (db : Database) (ai_client : AsyncOpenAI)
    (cache : Cache) (c : TTL.t ms_item) (edit_ok notice_ok : bool)
    (t0 t1 : clock) (rq : request) (e : exn) :
  model_status cache = Some c →
  NoDup ((λ l, ms_key l.1) <$> TTL.links c) →
  mono t0 ≤ mono t1 →
  let h :=
    handle_chat_message ADMIN_IDS text user_id state db ai_client cache edit_ok
      notice_ok t0 t1 in
  calls (h_ai_client h) = calls ai_client ++ [rq] →
  create ai_client rq = Raised e →
  (exn_is e = APIError ∨ exn_is e = RuntimeError →
   ∀ text' user_id' state' db' edit_ok' notice_ok' t0' t1',
     data_model state' = data_model state →
     mono t0' < mono t1 + TTL.ttl c →
     let h' :=
       handle_chat_message ADMIN_IDS text' user_id' state' db' (h_ai_client h)
         (h_cache h) edit_ok' notice_ok' t0' t1' in
     h_ai_client h' = h_ai_client h
     ∧ requests (h_db h') = requests db'
     ∧ AnswerThinking ∉ h_sent h')
  ∧ (¬ (exn_is e = APIError ∨ exn_is e = RuntimeError) →
     model_status (h_cache h) = model_status cache).
Proof.
  intros Hc Hnodup Hle h. subst h. rewrite handle_chat_message_stages. cbv zeta.
  assert (∀ rq, calls ai_client ≠ calls ai_client ++ [rq]) as Hsnoc.
  { intros rq' Heq. symmetry in Heq. by apply snoc_neq in Heq. }
  pose proof (get_user_details_cached_registry user_id db cache (mono t0)) as Hreg0.
  destruct (match (get_user_details_cached _ _ _ _).1 with
            | Some d => is_blocked d | None => false end).
  { cbn [h_ai_client]. intros Hcalls. by apply Hsnoc in Hcalls. }
  destruct (reached _ _).
  { cbn [h_ai_client]. intros Hcalls. by apply Hsnoc in Hcalls. }
  destruct (negb _) eqn:Havailable.
  { cbn [h_ai_client]. intros Hcalls. by apply Hsnoc in Hcalls. }
  apply negb_false_iff in Havailable.
  match goal with
  | |- context [get_simple_response ai_client ?m ?msgs ?u ?d ?c ?t] =>
      destruct (get_simple_response_request ai_client m msgs u d c t)
        as (details & Hclient & Hres);
      pose proof (get_simple_response_registry ai_client m msgs u d c t) as Hreg1;
      destruct (get_simple_response ai_client m msgs u d c t)
        as [[res ai1] cache1]
  end.
  cbn [fst snd] in Hclient, Hres, Hreg1 |- *. subst ai1.
  rewrite Hreg0, Hc in Hreg1.
  destruct res as [response_text|e0].
  { destruct edit_ok; cbn [h_ai_client calls]; intros Hcalls Hraised;
      apply app_inv_head in Hcalls; injection Hcalls as <-;
      by rewrite Hraised in Hres. }
  cbn [h_ai_client h_cache calls]. intros Hcalls Hraised.
  apply app_inv_head in Hcalls. injection Hcalls as <-.
  rewrite Hraised in Hres. injection Hres as ->.
  split.
  - intros Hmarks. rewrite bool_decide_eq_true_2 by done.
    intros text' user_id' state' db' edit_ok' notice_ok' t0' t1' Hmodel Hlive.
    assert (is_model_available (data_model state)
              (set_model_failed_in_cache (data_model state) cache1 (mono t1))
              (mono t0') = false) as Hfailed.
    { apply (mark_failed_window _ _ c); [done| |done].
      unfold is_model_available in Havailable. rewrite Hreg0, Hc in Havailable.
      apply bool_decide_eq_true in Havailable.
      unfold get_statuses in *.
      destruct (TTL.get ms_key c "statuses" (mono t1)) as [[d|]|] eqn:Hget;
        [|done|done].
      rewrite (get_earlier ms_key c "statuses" (mono t0) (mono t1) (Statuses d))
        in Havailable by done.
      intros Hst. by rewrite Hst in Havailable. }
    rewrite handle_chat_message_stages. cbv zeta.
    match goal with
    | |- context [get_user_details_cached user_id' db' ?ch (mono t0')] =>
        pose proof (get_user_details_cached_registry user_id' db' ch (mono t0'))
          as Hreg2;
        destruct (get_user_details_cached user_id' db' ch (mono t0'))
          as [details' cache2]
    end.
    cbn [fst snd] in Hreg2 |- *.
    destruct (match details' with Some d => is_blocked d | None => false end).
    { cbn [h_ai_client h_db h_sent]. split_and!; [done|done|].
      intros Hin. by apply list_elem_of_singleton in Hin. }
    pose proof (get_user_limits_requests ADMIN_IDS user_id' db' (utc t0')) as Hlim.
    destruct (reached _ _).
    { cbn [h_ai_client h_db h_sent]. rewrite Hlim.
      split_and!; [done|done|]. intros Hin. by apply elem_of_nil in Hin. }
    rewrite Hmodel, (is_model_available_registry _ cache2 _ _ Hreg2), Hfailed.
    cbn [negb h_ai_client h_db h_sent]. split_and!; [done|done|].
    intros Hin. by apply list_elem_of_singleton in Hin.
  - intros Hnot. rewrite bool_decide_eq_false_2 by done.
    by rewrite Hreg1, Hc.
Qed.

Lemma chat_circuit_breaker_witness :
  let api_error :=
    {| exn_is := APIError; type_name := "InternalServerError";
       status_code := Some 503; exn_text := "Service Unavailable" |} in
  let broken := {| create := λ _, Raised api_error; calls := [] |} in
  let h :=
    @handle_chat_message sample_lib SAMPLE_ADMINS "2+2?" 8 CHAT_STATE USERS_DB
      broken GLOBAL_CACHE true true NOON NOON in
  let h' :=
    @handle_chat_message sample_lib SAMPLE_ADMINS "again" 1 CHAT_STATE (h_db h)
      (h_ai_client h) (h_cache h) true true
      {| mono := 599; utc := utc NOON |} NOON in
  length (calls (h_ai_client h)) = 1%nat
  ∧ h_ai_client h' = h_ai_client h
  ∧ requests (h_db h') = requests (h_db h)
  ∧ h_sent h' = [AnswerModelUnavailable "gpt-4.1"].
Proof.
  cbv zeta. split; [by vm_compute|]. split; [|split; by vm_compute].
  eapply (@chat_circuit_breaker sample_lib SAMPLE_ADMINS "2+2?" 8 CHAT_STATE
            USERS_DB _ GLOBAL_CACHE (TTL.mk 1 600 []) true true NOON NOON).
  - reflexivity.
  - constructor.
  - simpl. lia.
  - by vm_compute.
  - reflexivity.
  - by left.
  - reflexivity.
  - simpl. lia.
Defined.

(** ** Max Mode admission *)

Section max_mode_facts.
Context `{PyLib} (ADMIN_IDS : list Z).

(** Below level 3 the Max Mode limit of a user who is not an administrator
    is 0. *)
Lemma max_mode_limit_zero user_id db now_utc :
  user_id ∉ ADMIN_IDS →
  (get_user_level ADMIN_IDS user_id db now_utc).1 ≠ 3 →
  (get_user_limits ADMIN_IDS user_id db now_utc).1.2 = Finite 0.
Proof.
  intros Hna Hlevel. rewrite get_user_limits_not_admin by done. cbv zeta.
  cbn [fst snd]. case_match; [done|]. cbn [snd]. f_equal.
  unfold LIMITS. by repeat case_bool_decide.
Qed.

Lemma reached_zero db user_id max_mode now_utc :
  reached (get_user_requests_today db user_id max_mode now_utc) (Finite 0) = true.
Proof.
  unfold reached, get_user_requests_today. apply bool_decide_eq_true. lia.
Qed.

(** The Max Mode handler with its intermediate results named. *)
Lemma handle_max_mode_message_stages text user_id state db ai_client cache
    edit_ok notice_ok t0 t1 :
  let lim := get_user_limits ADMIN_IDS user_id db (utc t0) in
  let resp := get_max_mode_response ai_client text user_id lim.2 cache (mono t0) in
  handle_max_mode_message ADMIN_IDS text user_id state db ai_client cache edit_ok
    notice_ok t0 t1
  = if negb (are_max_mode_models_available cache (mono t0)) then
      {| h_state := state_clear state; h_db := db; h_ai_client := ai_client;
         h_cache := cache; h_sent := [AnswerMaxUnavailable];
         h_animation_task := None; h_raised := None |}
    else if reached (get_user_requests_today lim.2 user_id true (utc t0)) lim.1.2
    then
      {| h_state := state_clear state; h_db := lim.2; h_ai_client := ai_client;
         h_cache := cache; h_sent := [AnswerMaxLimit];
         h_animation_task := None; h_raised := None |}
    else
      match resp.1.1 with
      | Ok response_text =>
          let db' := add_request lim.2 user_id "max_mode_ensemble" true (utc t1) in
          if edit_ok then
            {| h_state := state; h_db := db'; h_ai_client := resp.1.2;
               h_cache := resp.2;
               h_sent := [AnswerMaxProcessing; EditMaxResponse response_text];
               h_animation_task := Some Cancelled; h_raised := None |}
          else
            {| h_state := state; h_db := db'; h_ai_client := resp.1.2;
               h_cache := resp.2;
               h_sent :=
                 (last_edit notice_ok (EditMaxUnexpected TELEGRAM_BAD_REQUEST)
                    [AnswerMaxProcessing]).1;
               h_animation_task := Some Cancelled;
               h_raised :=
                 (last_edit notice_ok (EditMaxUnexpected TELEGRAM_BAD_REQUEST)
                    [AnswerMaxProcessing]).2 |}
      | Raise e =>
          let notice :=
            if bool_decide (exn_is e = RuntimeError) then EditMaxRuntimeError e
            else EditMaxUnexpected e in
          {| h_state := state; h_db := lim.2; h_ai_client := resp.1.2;
             h_cache := resp.2;
             h_sent := (last_edit notice_ok notice [AnswerMaxProcessing]).1;
             h_animation_task := Some Cancelled;
             h_raised := (last_edit notice_ok notice [AnswerMaxProcessing]).2 |}
      end.
Proof.
  intros lim resp. unfold handle_max_mode_message. subst resp.
  destruct (negb _); [done|].
  destruct lim as [[daily_limit max_limit] db1] eqn:Hlim. unfold lim in Hlim.
  rewrite Hlim. cbn [fst snd].
  destruct (reached _ max_limit); [done|].
  destruct (get_max_mode_response _ _ _ _ _ _) as [[res ai1] cache1].
  cbn [fst snd]. destruct res as [response_text|e].
  - destruct edit_ok; [done|]. unfold last_edit. by destruct notice_ok.
  - unfold last_edit. case_bool_decide; by destruct notice_ok.
Qed.
End max_mode_facts.

(** X17.  Max Mode is for level 3 only.  For a user who is not an
    administrator and whose effective level is not 3 (a lower tier, an
    expired subscription, no row in the store), a Max Mode message sends
    nothing to the backend, records nothing and clears the state, and
    [activate_max_mode] does not enter the Max Mode state. *)
Theorem max_mode_needs_level_three `{PyLib} (ADMIN_IDS : list Z) (text : string)
    (user_id : Z) (state : FSMContext) (db : Database) (ai_client : AsyncOpenAI)
    (cache : Cache) (edit_ok notice_ok : bool) (t0 t1 : clock) :
  user_id ∉ ADMIN_IDS →
  (get_user_level ADMIN_IDS user_id db (utc t0)).1 ≠ 3 →
  let h :=
    handle_max_mode_message ADMIN_IDS text user_id state db ai_client cache
      edit_ok notice_ok t0 t1 in
  let a := activate_max_mode ADMIN_IDS user_id state db cache t0 in
  h_ai_client h = ai_client ∧ requests (h_db h) = requests db
  ∧ h_state h = state_clear state
  ∧ (h_sent h = [AnswerMaxUnavailable] ∨ h_sent h = [AnswerMaxLimit])
  ∧ a.1.1 = state ∧ (a.2 = AlertMaxUnavailable ∨ a.2 = AlertMaxLimit).
Proof.
  intros Hna Hlevel h a.
  pose proof (max_mode_limit_zero ADMIN_IDS user_id db (utc t0) Hna Hlevel) as Hzero.
  pose proof (get_user_limits_requests ADMIN_IDS user_id db (utc t0)) as Hreq.
  subst h a. rewrite handle_max_mode_message_stages. cbv zeta.
  unfold activate_max_mode.
  destruct (negb _); [cbn; by eauto 10|].
  destruct (get_user_limits ADMIN_IDS user_id db (utc t0))
    as [[daily_limit max_limit] db1].
  cbn [fst snd] in *. subst max_limit. rewrite reached_zero.
  cbn. by eauto 10.
Qed.

Lemma max_mode_needs_level_three_witness :
  let h :=
    @handle_max_mode_message sample_lib SAMPLE_ADMINS "2+2?" 7 CHAT_STATE USERS_DB
      HEALTHY_CLIENT GLOBAL_CACHE true true NOON NOON in
  h_ai_client h = HEALTHY_CLIENT ∧ requests (h_db h) = requests USERS_DB
  ∧ h_state h = state_clear CHAT_STATE
  ∧ (h_sent h = [AnswerMaxUnavailable] ∨ h_sent h = [AnswerMaxLimit])
  ∧ (@activate_max_mode sample_lib SAMPLE_ADMINS 7 CHAT_STATE USERS_DB
       GLOBAL_CACHE NOON).1.1 = CHAT_STATE
  ∧ ((@activate_max_mode sample_lib SAMPLE_ADMINS 7 CHAT_STATE USERS_DB
        GLOBAL_CACHE NOON).2 = AlertMaxUnavailable
     ∨ (@activate_max_mode sample_lib SAMPLE_ADMINS 7 CHAT_STATE USERS_DB
          GLOBAL_CACHE NOON).2 = AlertMaxLimit).
Proof.
  apply (@max_mode_needs_level_three sample_lib SAMPLE_ADMINS "2+2?" 7 CHAT_STATE
           USERS_DB HEALTHY_CLIENT GLOBAL_CACHE true true NOON NOON).
  - apply (bool_decide_unpack _). by vm_compute.
  - by vm_compute.
Defined.

(** X18.  Admission to Max Mode.  A Max Mode message is handed to the
    ensemble, and the waiting message is sent, exactly when the seven models
    are available and the user's Max Mode count of the day is below the
    user's Max Mode limit.  Nothing else is consulted: in particular the
    blocked flag, which closes the ordinary chat, does not close Max Mode.
    When the message is handed on, each of the six participants is asked,
    before any other request. *)
Theorem max_mode_admission `{PyLib} (ADMIN_IDS : list Z) (text : string)
    (user_id : Z) (state : FSMContext) (db : Database) (ai_client : AsyncOpenAI)
    (cache : Cache) (edit_ok notice_ok : bool) (t0 t1 : clock) :
  let h :=
    handle_max_mode_message ADMIN_IDS text user_id state db ai_client cache
      edit_ok notice_ok t0 t1 in
  let lim := get_user_limits ADMIN_IDS user_id db (utc t0) in
  let admitted :=
    are_max_mode_models_available cache (mono t0)
    && negb (reached (get_user_requests_today lim.2 user_id true (utc t0)) lim.1.2) in
  (AnswerMaxProcessing ∈ h_sent h ↔ admitted = true)
  ∧ (admitted = true →
     ∃ pre rest, calls (h_ai_client h) = calls ai_client ++ pre ++ rest
       ∧ rq_model <$> pre ≡ₚ MAX_MODE_PARTICIPANTS)
  ∧ (admitted = false → h_ai_client h = ai_client).
Proof.
  intros h lim admitted. subst h admitted.
  rewrite handle_max_mode_message_stages. cbv zeta. fold lim.
  destruct (are_max_mode_models_available cache (mono t0)); cbn [negb andb];
    [|split_and!; [|done|done]; split; [|done];
      intros Hin; by apply list_elem_of_singleton in Hin].
  destruct (reached _ _); cbn [negb];
    [split_and!; [|done|done]; split; [|done];
     intros Hin; by apply list_elem_of_singleton in Hin|].
  destruct (get_max_mode_response_spec ai_client text user_id lim.2 cache (mono t0))
    as (pre & Hmodels & Hspec).
  assert (rq_model <$> pre ≡ₚ MAX_MODE_PARTICIPANTS) as Hperm
    by by rewrite Hmodels.
  clear Hmodels.
  destruct (get_max_mode_response _ _ _ _ _ _) as [[res ai1] cache1].
  cbn [fst snd] in Hspec |- *.
  destruct res as [response_text|e].
  - destruct Hspec as (rq & content & Hcalls & _).
    destruct edit_ok; cbn [h_sent h_ai_client]; split_and!; try done.
    + split; [done|]. intros _. by left.
    + intros _. by exists pre, [rq].
    + split; [done|]. intros _. unfold last_edit. destruct notice_ok; by left.
    + intros _. by exists pre, [rq].
  - destruct Hspec as (_ & Hcalls). cbn [h_sent h_ai_client]. split_and!; try done.
    + split; [done|]. intros _. unfold last_edit. destruct notice_ok; by left.
    + intros _. destruct Hcalls as [Hcalls|(rq & e' & Hcalls & _)].
      * exists pre, []. by rewrite app_nil_r.
      * by exists pre, [rq].
Qed.

Lemma max_mode_admission_witness :
  let h :=
    @handle_max_mode_message sample_lib SAMPLE_ADMINS "2+2?" 9 CHAT_STATE
      BLOCKED_DB HEALTHY_CLIENT GLOBAL_CACHE true true NOON NOON in
  let c :=
    @handle_chat_message sample_lib SAMPLE_ADMINS "2+2?" 9 CHAT_STATE
      BLOCKED_DB HEALTHY_CLIENT GLOBAL_CACHE true true NOON NOON in
  is_blocked <$> get_user BLOCKED_DB 9 = Some true
  ∧ h_sent c = [AnswerBlocked]
  ∧ AnswerMaxProcessing ∈ h_sent h
  ∧ length (calls (h_ai_client h)) = 7%nat.
Proof.
  cbv zeta. split; [reflexivity|]. split; [by vm_compute|]. split; [|by vm_compute].
  apply (@max_mode_admission sample_lib SAMPLE_ADMINS "2+2?" 9 CHAT_STATE
           BLOCKED_DB HEALTHY_CLIENT GLOBAL_CACHE true true NOON NOON).
  by vm_compute.
Defined.

(** ** Choosing a model *)

Section menu_facts.
Context `{PyLib} (ADMIN_IDS : list Z).

(** The models [MODEL_CATEGORIES.get(category, [])] yields. *)
Lemma category_models_lookup category model :
  model ∈ default [] (snd <$> head (filter (λ c, c.1 = category) MODEL_CATEGORIES))
  ↔ ∃ models, (category, models) ∈ MODEL_CATEGORIES ∧ model ∈ models.
Proof.
  split.
  - destruct (head _) as [c|] eqn:Hhead; simpl; [|by intros ?%elem_of_nil].
    apply head_Some_elem_of, list_elem_of_filter in Hhead as [Hname Hin].
    intros Hmodel. exists c.2. split; [|done]. destruct c. simpl in *. by subst.
  - intros (models & Hin & Hmodel). unfold MODEL_CATEGORIES in Hin.
    repeat (apply elem_of_cons in Hin as [Hin|Hin];
            [injection Hin as -> ->; exact Hmodel|]).
    by apply elem_of_nil in Hin.
Qed.

Lemma premium_is_everything category models model :
  (category, models) ∈ MODEL_CATEGORIES → model ∈ models → model ∈ MODELS_premium.
Proof.
  intros Hin Hmodel. unfold MODELS_premium. apply elem_of_remove_dups.
  apply list_elem_of_In, in_concat. exists models.
  split; [|by apply list_elem_of_In].
  apply list_elem_of_In, list_elem_of_fmap. by exists (category, models).
Qed.
End menu_facts.

(** X19.  The menu of models is where access by tier is enforced.  The menu
    of a category has one button for each model of the category that the
    user's level gives access to, and no other model button; the status of
    the button is [ok] exactly when the registry holds the model available;
    the last button leads back to the categories.  Below level 1 only the
    free models are offered; from level 2 on every model of the category is.
    Without a registry cache the handler fails with [KeyError], although
    [is_model_available] would hold every model available. *)
Theorem models_menu_gating `{PyLib} (ADMIN_IDS : list Z) (category : string)
    (user_id : Z) (db : Database) (cache : Cache) (t : clock) :
  let level := (get_user_level ADMIN_IDS user_id db (utc t)).1 in
  let in_category (model : string) :=
    ∃ models, (category, models) ∈ MODEL_CATEGORIES ∧ model ∈ models in
  match (list_models_in_category ADMIN_IDS category user_id db cache t).1 with
  | Ok menu =>
      is_Some (model_status cache)
      ∧ (∀ model status,
           SelectTextModel model status ∈ button_data <$> menu
           ↔ in_category model ∧ model ∈ accessible_models level
             ∧ status = if is_model_available model cache (mono t)
                        then "ok" else "failed")
      ∧ (level < 1 → ∀ model status,
           SelectTextModel model status ∈ button_data <$> menu →
           model ∈ MODELS_free)
      ∧ (2 ≤ level → ∀ model, in_category model →
           ∃ status, SelectTextModel model status ∈ button_data <$> menu)
      ∧ last (button_data <$> menu) = Some (Menu "models")
  | Raise e => e = KEY_ERROR ∧ model_status cache = None
  end.
Proof.
  intros level in_category. unfold list_models_in_category. fold level.
  destruct (get_user_level ADMIN_IDS user_id db (utc t)) as [level' db1].
  cbn [fst] in level. subst level.
  destruct (model_status cache) as [c|] eqn:Hc; cbn [fst]; [|done].
  assert (∀ model status,
            SelectTextModel model status
              ∈ button_data <$>
                  get_models_menu category
                    (filter (λ m, m ∈ accessible_models level')
                       (default [] (snd <$> head (filter (λ c, c.1 = category)
                                                    MODEL_CATEGORIES))))
                    (get_statuses c (mono t))
            ↔ in_category model ∧ model ∈ accessible_models level'
              ∧ status = if is_model_available model cache (mono t)
                         then "ok" else "failed") as Hbuttons.
  { intros model status. unfold get_models_menu, is_model_available.
    rewrite Hc, fmap_app, elem_of_app, <- list_fmap_compose.
    rewrite list_elem_of_fmap. cbn [fmap list_fmap button_data].
    setoid_rewrite list_elem_of_filter. setoid_rewrite category_models_lookup.
    split.
    - intros [(m & Hm & Haccess & Hcat)|Hback].
      + cbn in Hm. injection Hm as -> ->. split; [done|]. split; [done|].
        by case_bool_decide.
      + apply list_elem_of_singleton in Hback. done.
    - intros (Hcat & Haccess & ->). left. exists model. split; [|done].
      cbn. by case_bool_decide. }
  split; [done|]. split; [exact Hbuttons|]. split_and!.
  - intros Hlevel model status Hin. apply Hbuttons in Hin as (_ & Haccess & _).
    unfold accessible_models in Haccess.
    rewrite !bool_decide_eq_false_2 in Haccess by lia.
    by rewrite !app_nil_r in Haccess.
  - intros Hlevel model Hcat. eexists. apply Hbuttons.
    split; [done|]. split; [|done]. unfold accessible_models.
    rewrite (bool_decide_eq_true_2 (2 ≤ level')) by done.
    destruct Hcat as (models & Hin & Hmodel).
    apply elem_of_app. right. apply elem_of_app. right.
    by apply (premium_is_everything category models).
  - unfold get_models_menu. by rewrite fmap_app, last_app.
Qed.

(** X20.  Selecting a model.  A press on a model button with status [ok] is
    accepted exactly when the user is not blocked and is below the daily
    limit; the model named by the button is not checked against the user's
    tier or against the registry.  When accepted, the conversation starts
    with that model and an empty history, the model is stored as the user's
    last model, and the next read of the user's details comes from the store.
    Otherwise the conversation is left as it was and no usage is recorded. *)
Theorem select_model_handler_effects `{PyLib} (ADMIN_IDS : list Z)
    (model_name : string) (user_id sender_id : Z) (state : FSMContext)
    (db : Database) (cache : Cache) (t : clock) :
  let r :=
    select_model_handler ADMIN_IDS model_name user_id sender_id state db cache t in
  let blocked :=
    match (get_user_details_cached user_id db cache (mono t)).1 with
    | Some d => is_blocked d
    | None => false
    end in
  let lim := get_user_limits ADMIN_IDS user_id db (utc t) in
  let at_limit :=
    reached (get_user_requests_today lim.2 user_id false (utc t)) lim.1.1 in
  (r.2 = EditModelSelected model_name ↔ blocked = false ∧ at_limit = false)
  ∧ (r.2 = EditModelSelected model_name →
     r.1.1.1 = {| current_state := Some ChatInProgress; data_model := model_name;
                  data_history := [] |}
     ∧ r.1.1.2 = set_last_used_model lim.2 user_id model_name
     ∧ ∀ now', mono t ≤ now' →
         (get_user_details_cached user_id r.1.1.2 r.1.2 now').1
         = get_user_details r.1.1.2 user_id)
  ∧ (r.2 ≠ EditModelSelected model_name →
     r.1.1.1 = state ∧ requests r.1.1.2 = requests db).
Proof.
  intros r blocked lim at_limit. subst r blocked at_limit.
  unfold select_model_handler.
  destruct (get_user_details_cached user_id db cache (mono t)) as [details cache1].
  cbn [fst snd].
  destruct (match details with Some d => is_blocked d | None => false end).
  { cbn [fst snd]. split_and!; [split; [done|by intros [? ?]]|done|done]. }
  pose proof (get_user_limits_requests ADMIN_IDS user_id db (utc t)) as Hreq.
  fold lim in Hreq |- *. destruct lim as [[daily_limit max_limit] db1].
  cbn [fst snd] in Hreq |- *.
  destruct (reached _ daily_limit).
  { unfold send_limit_reached_message. cbn [fst snd].
    split_and!; [split; [done|by intros [? ?]]|done|done]. }
  cbn [fst snd]. split_and!; [done| |done].
  intros _. split_and!; [done|done|].
  intros now' Hnow'. by apply invalidate_user_cache_read.
Qed.

Lemma select_model_handler_effects_witness :
  let r :=
    @select_model_handler sample_lib SAMPLE_ADMINS "claude-3.7-sonnet" 8 0
      CHAT_STATE USERS_DB GLOBAL_CACHE NOON in
  let h :=
    @handle_chat_message sample_lib SAMPLE_ADMINS "2+2?" 8 r.1.1.1 r.1.1.2
      HEALTHY_CLIENT r.1.2 true true NOON NOON in
  @get_user_level sample_lib SAMPLE_ADMINS 8 USERS_DB (utc NOON) = (0, USERS_DB)
  ∧ bool_decide ("claude-3.7-sonnet" ∈ accessible_models 0) = false
  ∧ r.2 = EditModelSelected "claude-3.7-sonnet"
  ∧ rq_model <$> calls (h_ai_client h) = ["claude-3.7-sonnet"].
Proof.
  cbv zeta. split; [by vm_compute|]. split; [by vm_compute|].
  split; [|by vm_compute].
  apply (@select_model_handler_effects sample_lib SAMPLE_ADMINS "claude-3.7-sonnet"
           8 0 CHAT_STATE USERS_DB GLOBAL_CACHE NOON).
  by vm_compute.
Defined.

(** X21.  A new chat forgets the context.  [new_chat_handler] keeps the state
    and the model and empties the history, so the request of the next chat
    message carries, after the system messages, that message alone. *)
Theorem new_chat_forgets_context `{PyLib} (ADMIN_IDS : list Z) (text : string)
    (user_id : Z) (state : FSMContext) (db : Database) (ai_client : AsyncOpenAI)
    (cache : Cache) (edit_ok notice_ok : bool) (t0 t1 : clock) :
  let state' := (new_chat_handler state).1 in
  let h :=
    handle_chat_message ADMIN_IDS text user_id state' db ai_client cache edit_ok
      notice_ok t0 t1 in
  current_state state' = current_state state
  ∧ data_model state' = data_model state
  ∧ data_history state' = []
  ∧ ∀ rq, calls (h_ai_client h) = calls ai_client ++ [rq] →
      rq_model rq = data_model state
      ∧ ∃ sys, rq_messages rq = sys ++ [{| role := "user"; content := text |}]
          ∧ Forall (λ m, role m = "system") sys.
Proof.
  intros state' h. split; [done|]. split; [done|]. split; [done|].
  subst h. rewrite handle_chat_message_stages. cbv zeta.
  assert (∀ rq, calls ai_client ≠ calls ai_client ++ [rq]) as Hsnoc.
  { intros rq Heq. symmetry in Heq. by apply snoc_neq in Heq. }
  destruct (match (get_user_details_cached _ _ _ _).1 with
            | Some d => is_blocked d | None => false end).
  { intros rq Hc. by apply Hsnoc in Hc. }
  destruct (reached _ _). { intros rq Hc. by apply Hsnoc in Hc. }
  destruct (negb _). { intros rq Hc. by apply Hsnoc in Hc. }
  match goal with
  | |- context [get_simple_response ai_client ?m ?msgs ?u ?d ?c ?t] =>
      destruct (get_simple_response_request ai_client m msgs u d c t)
        as (details & Hclient & _);
      destruct (final_request_messages m msgs details) as (sys & Hmessages & Hsys);
      destruct (get_simple_response ai_client m msgs u d c t)
        as [[res ai1] cache1]
  end.
  cbn [fst snd] in Hclient |- *. subst ai1.
  assert (∀ rq (hd : handled),
            h_ai_client hd
            = {| create := create ai_client;
                 calls := calls ai_client
                   ++ [final_request (data_model state')
                         (data_history state' ++ [{| role := "user"; content := text |}])
                         details] |} →
            calls (h_ai_client hd) = calls ai_client ++ [rq] →
            rq_model rq = data_model state
            ∧ ∃ sys, rq_messages rq = sys ++ [{| role := "user"; content := text |}]
                ∧ Forall (λ m, role m = "system") sys) as Hsent.
  { intros rq hd -> Hc. cbn [calls] in Hc. apply app_inv_head in Hc.
    injection Hc as <-. split; [done|]. by exists sys. }
  intros rq. destruct res; [destruct edit_ok|]; by apply Hsent.
Qed.

(** X22.  The text trigger in groups.  A message with an empty prompt, or of
    a user who has no row, has not passed the captcha or is blocked, is passed
    over in silence: nothing is sent to the chat or to the backend and the
    store is not touched.  A request goes to the user's last model, or to the
    default model when there is none, and ends with the prompt.  Usage is
    recorded exactly when the backend call returned, as one ordinary request
    for that model.  Unlike the private chat, the handler never marks a model
    failed: the registry is left as it was whatever the backend does. *)
Theorem group_text_gate `{PyLib} (ADMIN_IDS : list Z) (prompt : string)
    (user_id : Z) (db : Database) (ai_client : AsyncOpenAI) (cache : Cache)
    (reply_ok edit_ok notice_ok : bool) (t0 t1 : clock) :
  let g :=
    handle_group_text_trigger ADMIN_IDS prompt user_id db ai_client cache
      reply_ok edit_ok notice_ok t0 t1 in
  let details := (get_user_details_cached user_id db cache (mono t0)).1 in
  let model_of (d : user_row) :=
    if truthy (last_used_model d)
    then default DEFAULT_TEXT_MODEL (last_used_model d)
    else DEFAULT_TEXT_MODEL in
  (prompt = "" ∨ details = None
   ∨ (∃ d, details = Some d ∧ (is_verified d = false ∨ is_blocked d = true)) →
   g_sent g = [] ∧ g_ai_client g = ai_client ∧ g_db g = db ∧ g_raised g = None)
  ∧ model_status (g_cache g) = model_status cache
  ∧ (∀ rq, calls (g_ai_client g) = calls ai_client ++ [rq] →
       ∃ d, details = Some d ∧ is_verified d = true ∧ is_blocked d = false
         ∧ rq_model rq = model_of d
         ∧ last (rq_messages rq) = Some {| role := "user"; content := prompt |})
  ∧ (requests (g_db g) ≠ requests db
     ↔ ∃ rq content, calls (g_ai_client g) = calls ai_client ++ [rq]
         ∧ create ai_client rq = Returned content)
  ∧ (requests (g_db g) = requests db
     ∨ ∃ d, details = Some d
         ∧ requests (g_db g)
           = requests db ++ [{| req_user_id := user_id; req_model := model_of d;
                                request_date := msk_date (utc t1);
                                is_max_mode := false |}]).
Proof.
  intros g details model_of. subst g details.
  unfold handle_group_text_trigger.
  assert (∀ rq, calls ai_client ≠ calls ai_client ++ [rq]) as Hsnoc.
  { intros rq Heq. symmetry in Heq. by apply snoc_neq in Heq. }
  assert (∀ (db' : Database) (cache' : Cache) (sent : list group_reply)
            (raised : option exn) (P : Prop),
            requests db' = requests db →
            model_status cache' = model_status cache →
            P →
            P ∧ model_status cache' = model_status cache
            ∧ (∀ rq, calls ai_client = calls ai_client ++ [rq] →
                 ∃ d, (get_user_details_cached user_id db cache (mono t0)).1 = Some d
                   ∧ is_verified d = true ∧ is_blocked d = false
                   ∧ rq_model rq = model_of d
                   ∧ last (rq_messages rq)
                     = Some {| role := "user"; content := prompt |})
            ∧ (requests db' ≠ requests db
               ↔ ∃ rq content, calls ai_client = calls ai_client ++ [rq]
                   ∧ create ai_client rq = Returned content)
            ∧ (requests db' = requests db
               ∨ ∃ d, (get_user_details_cached user_id db cache (mono t0)).1 = Some d
                   ∧ requests db'
                     = requests db ++ [{| req_user_id := user_id;
                                          req_model := model_of d;
                                          request_date := msk_date (utc t1);
                                          is_max_mode := false |}])) as Hquiet.
  { intros db' cache' sent raised P Hreq Hreg HP. split_and!; [done|done| | |by left].
    - intros rq Hc. by apply Hsnoc in Hc.
    - split; [done|]. intros (rq & _ & Hc & _). by apply Hsnoc in Hc. }
  case_bool_decide as Hprompt.
  { cbn [g_sent g_ai_client g_db g_raised g_cache]. by apply (Hquiet db cache [] None). }
  pose proof (get_user_details_cached_registry user_id db cache (mono t0)) as Hreg0.
  destruct (get_user_details_cached user_id db cache (mono t0)) as [details cache1].
  cbn [fst snd] in Hreg0, Hquiet |- *.
  destruct details as [d|].
  2:{ cbn [g_sent g_ai_client g_db g_raised g_cache].
      by apply (Hquiet db cache1 [] None). }
  destruct (is_verified d) eqn:Hverified; cbn [negb].
  2:{ cbn [g_sent g_ai_client g_db g_raised g_cache].
      by apply (Hquiet db cache1 [] None). }
  destruct (is_blocked d) eqn:Hblocked.
  { cbn [g_sent g_ai_client g_db g_raised g_cache].
    by apply (Hquiet db cache1 [] None). }
  assert (¬ (prompt = "" ∨ Some d = None
             ∨ ∃ d', Some d = Some d' ∧ (is_verified d' = false ∨ is_blocked d' = true)))
    as Hserved.
  { intros [?|[?|(d' & [= <-] & [?|?])]]; congruence. }
  pose proof (get_user_limits_requests ADMIN_IDS user_id db (utc t0)) as Hreq.
  destruct (get_user_limits ADMIN_IDS user_id db (utc t0))
    as [[daily_limit max_limit] db1].
  cbn [fst snd] in Hreq |- *.
  destruct (reached _ daily_limit).
  { cbn [g_sent g_ai_client g_db g_raised g_cache].
    apply (Hquiet db1 cache1 [] None); [done|done|]. by intros ?%Hserved. }
  fold (model_of d).
  destruct (negb (is_model_available _ _ _)).
  { cbn [g_sent g_ai_client g_db g_raised g_cache].
    apply (Hquiet db1 cache1 [] None); [done|done|]. by intros ?%Hserved. }
  destruct reply_ok; cbn [negb].
  2:{ cbn [g_sent g_ai_client g_db g_raised g_cache].
      apply (Hquiet db1 cache1 [] None); [done|done|]. by intros ?%Hserved. }
  match goal with
  | |- context [get_simple_response ai_client ?m [?x] ?u ?db ?c ?t] =>
      destruct (get_simple_response_request ai_client m [x] u db c t)
        as (details & Hclient & Hres);
      pose proof (final_request_last m [] details x) as Hlast;
      change ([] ++ [x]) with [x] in Hlast;
      pose proof (get_simple_response_registry ai_client m [x] u db c t) as Hreg1;
      destruct (get_simple_response ai_client m [x] u db c t)
        as [[res ai1] cache2]
  end.
  cbn [fst snd] in Hclient, Hres, Hreg1 |- *. subst ai1.
  assert (∀ rq, calls ai_client ++ [final_request (model_of d)
                  [{| role := "user"; content := prompt |}] details]
                = calls ai_client ++ [rq] →
                rq = final_request (model_of d)
                       [{| role := "user"; content := prompt |}] details) as Hrq.
  { intros rq Hc. apply app_inv_head in Hc. by injection Hc. }
  destruct res as [response_text|e].
  - assert (∃ content, create ai_client (final_request (model_of d)
              [{| role := "user"; content := prompt |}] details) = Returned content)
      as [content Hout].
    { destruct (create ai_client _) as [[?|]|?]; by eauto. }
    destruct edit_ok; cbn [g_sent g_ai_client g_db g_raised g_cache calls requests
                           add_request]; rewrite Hreq.
    all: split_and!;
      [by intros ?%Hserved|congruence
      |intros rq ->%Hrq; by exists d
      |split; [intros _; by eexists _, content|intros _; by apply snoc_neq]
      |right; by exists d].
  - assert (∃ e', create ai_client (final_request (model_of d)
              [{| role := "user"; content := prompt |}] details) = Raised e')
      as [e' Hout].
    { destruct (create ai_client _) as [[?|]|?]; by eauto. }
    cbn [g_sent g_ai_client g_db g_raised g_cache calls]. rewrite Hreq.
    split_and!;
      [by intros ?%Hserved|congruence
      |intros rq ->%Hrq; by exists d
      | |by left].
    split; [done|]. intros (rq & content & ->%Hrq & Hret).
    by rewrite Hout in Hret.
Qed.

Lemma group_text_gate_witness :
  let stranger :=
    @handle_group_text_trigger sample_lib SAMPLE_ADMINS "2+2?" 5 USERS_DB
      HEALTHY_CLIENT GLOBAL_CACHE true true true NOON NOON in
  let failing :=
    @handle_group_text_trigger sample_lib SAMPLE_ADMINS "2+2?" 8 USERS_DB
      {| create := λ _, Raised {| exn_is := APIError;
                                  type_name := "InternalServerError";
                                  status_code := Some 503; exn_text := "" |};
         calls := [] |}
      GLOBAL_CACHE true true true NOON NOON in
  (g_sent stranger = [] ∧ g_ai_client stranger = HEALTHY_CLIENT
   ∧ g_db stranger = USERS_DB ∧ g_raised stranger = None)
  ∧ g_sent failing = [ReplyThinking; GroupEditError]
  ∧ model_status (g_cache failing) = model_status GLOBAL_CACHE.
Proof.
  cbv zeta. split; [|split; [by vm_compute|]].
  - apply (@group_text_gate sample_lib SAMPLE_ADMINS "2+2?" 5 USERS_DB
             HEALTHY_CLIENT GLOBAL_CACHE true true true NOON NOON).
    right. left. reflexivity.
  - apply (@group_text_gate sample_lib SAMPLE_ADMINS "2+2?" 8 USERS_DB _
             GLOBAL_CACHE true true true NOON NOON).
Defined.

(** ** The daily limits as caps *)

Section cap_facts.
Context `{PyLib} (ADMIN_IDS : list Z).

Lemma get_user_requests_today_requests db db' user_id max_mode now_utc :
  requests db' = requests db →
  get_user_requests_today db' user_id max_mode now_utc
  = get_user_requests_today db user_id max_mode now_utc.
Proof. unfold get_user_requests_today. by intros ->. Qed.

(** What the chat handler leaves in [requests]. *)
Lemma handle_chat_message_requests text user_id state db ai_client cache
    edit_ok notice_ok t0 t1 :
  let h :=
    handle_chat_message ADMIN_IDS text user_id state db ai_client cache edit_ok
      notice_ok t0 t1 in
  let lim := get_user_limits ADMIN_IDS user_id db (utc t0) in
  requests (h_db h) = requests db
  ∨ reached (get_user_requests_today db user_id false (utc t0)) lim.1.1 = false
    ∧ h_db h = add_request lim.2 user_id (data_model state) false (utc t1).
Proof.
  intros h lim. subst h. rewrite handle_chat_message_stages. cbv zeta.
  fold lim. pose proof (get_user_limits_requests ADMIN_IDS user_id db (utc t0)) as Hreq.
  fold lim in Hreq.
  rewrite (get_user_requests_today_requests db lim.2) by done.
  destruct (match (get_user_details_cached _ _ _ _).1 with
            | Some d => is_blocked d | None => false end); [by left|].
  destruct (reached _ _).
  { by left. }
  destruct (negb _); [by left|].
  destruct (get_simple_response _ _ _ _ _ _ _).1.1; [|by left].
  right. by destruct edit_ok.
Qed.

(** What the Max Mode handler leaves in [requests]. *)
Lemma handle_max_mode_message_requests text user_id state db ai_client cache
    edit_ok notice_ok t0 t1 :
  let h :=
    handle_max_mode_message ADMIN_IDS text user_id state db ai_client cache
      edit_ok notice_ok t0 t1 in
  let lim := get_user_limits ADMIN_IDS user_id db (utc t0) in
  requests (h_db h) = requests db
  ∨ reached (get_user_requests_today db user_id true (utc t0)) lim.1.2 = false
    ∧ h_db h = add_request lim.2 user_id "max_mode_ensemble" true (utc t1).
Proof.
  intros h lim. subst h. rewrite handle_max_mode_message_stages. cbv zeta.
  fold lim. pose proof (get_user_limits_requests ADMIN_IDS user_id db (utc t0)) as Hreq.
  fold lim in Hreq.
  rewrite (get_user_requests_today_requests db lim.2) by done.
  destruct (negb _); [by left|].
  destruct (reached _ _); [by left|].
  destruct (get_max_mode_response _ _ _ _ _ _).1.1; [|by left].
  right. by destruct edit_ok.
Qed.
End cap_facts.

(** X23.  The daily limits are caps.  Handling one message never takes a
    user's count of the day above the limit that was in force when the
    message arrived: the count afterwards is at most the larger of the count
    before and the limit, for ordinary chat and for Max Mode alike.  A chat
    message never changes the Max Mode count, a Max Mode message never the
    ordinary one, and neither changes the counts of another user.  (One
    message is handled at a time.) *)
Theorem daily_limit_is_a_cap `{PyLib} (ADMIN_IDS : list Z) (text : string)
    (user_id : Z) (state : FSMContext) (db : Database) (ai_client : AsyncOpenAI)
    (cache : Cache) (edit_ok notice_ok : bool) (t0 t1 : clock) :
  let lim := (get_user_limits ADMIN_IDS user_id db (utc t0)).1 in
  let chat :=
    handle_chat_message ADMIN_IDS text user_id state db ai_client cache edit_ok
      notice_ok t0 t1 in
  let max_mode :=
    handle_max_mode_message ADMIN_IDS text user_id state db ai_client cache
      edit_ok notice_ok t0 t1 in
  let count (db : Database) (is_max_mode : bool) :=
    get_user_requests_today db user_id is_max_mode (utc t0) in
  (∀ L, lim.1 = Finite L → count (h_db chat) false ≤ Z.max (count db false) L)
  ∧ (∀ L, lim.2 = Finite L →
       count (h_db max_mode) true ≤ Z.max (count db true) L)
  ∧ count (h_db chat) true = count db true
  ∧ count (h_db max_mode) false = count db false
  ∧ (∀ other is_max_mode now_utc, other ≠ user_id →
       get_user_requests_today (h_db chat) other is_max_mode now_utc
       = get_user_requests_today db other is_max_mode now_utc
       ∧ get_user_requests_today (h_db max_mode) other is_max_mode now_utc
         = get_user_requests_today db other is_max_mode now_utc).
Proof.
  intros lim chat max_mode count.
  pose proof (get_user_limits_requests ADMIN_IDS user_id db (utc t0)) as Hreq.
  destruct (handle_chat_message_requests ADMIN_IDS text user_id state db ai_client
              cache edit_ok notice_ok t0 t1) as [Hchat|[Hfree Hchat]];
    destruct (handle_max_mode_message_requests ADMIN_IDS text user_id state db
                ai_client cache edit_ok notice_ok t0 t1) as [Hmax|[Hfree' Hmax]];
    fold chat in Hchat; fold max_mode in Hmax; fold lim in Hfree || idtac;
    fold lim in Hfree' || idtac; subst count; cbv beta.
  all: rewrite ?Hchat, ?Hmax, ?count_add_request.
  all: rewrite ?(get_user_requests_today_requests db (h_db chat)) by done.
  all: rewrite ?(get_user_requests_today_requests db (h_db max_mode)) by done.
  all: rewrite ?(get_user_requests_today_requests db
                   (get_user_limits ADMIN_IDS user_id db (utc t0)).2) by done.
  all: split_and!.
  all: try (intros L HL; rewrite HL in *; unfold reached in *;
            try apply bool_decide_eq_false in Hfree;
            try apply bool_decide_eq_false in Hfree';
            repeat case_bool_decide; lia).
  all: try (repeat case_bool_decide; naive_solver lia).
  all: intros other is_max_mode now_utc Hother.
  all: rewrite ?count_add_request.
  all: rewrite ?(get_user_requests_today_requests db (h_db chat)) by done.
  all: rewrite ?(get_user_requests_today_requests db (h_db max_mode)) by done.
  all: rewrite ?(get_user_requests_today_requests db
                   (get_user_limits ADMIN_IDS user_id db (utc t0)).2) by done.
  all: repeat case_bool_decide; naive_solver lia.
Qed.

(** ** Settings *)

Section settings_facts.

(** The request [get_simple_response] sends is built from the user's details
    as the cache or the store gives them. *)
Lemma get_simple_response_sent ai_client model messages user_id db cache now :
  last (calls (get_simple_response ai_client model messages user_id db cache now).1.2)
  = Some (final_request model messages
            (get_user_details_cached user_id db cache now).1).
Proof.
  unfold get_simple_response.
  destruct (get_user_details_cached user_id db cache now) as [details cache1].
  unfold chat_completions_create. cbn [fst].
  destruct (create ai_client _) as [[?|]|?]; cbn [fst snd calls];
    by rewrite last_snoc.
Qed.
End settings_facts.

(** X24.  Settings take effect with the next request.  After the user has
    set an instruction (at most 1000 characters), every request made for the
    user carries it as a second system message, right after the global
    prompt and before the caller's messages, unless it is empty; after the
    user has deleted it with [-], the request carries the global prompt and
    the caller's messages only.  A temperature is stored only when it lies
    between 0 and 2, and is then the temperature of the request; after a
    reset the request uses the default 0.7.  A refused input changes neither
    the store nor the cache. *)
Theorem settings_take_effect (len : string → nat)
    (float : string → option Z) (instruction temp_str : string) (user_id : Z)
    (db : Database) (cache : Cache) (t : clock) (user : user_row)
    (ai_client : AsyncOpenAI) (model : string) (messages : list message)
    (now' : Z) :
  get_user db user_id = Some user → mono t ≤ now' →
  let sent (after : Database * Cache * settings_reply) :=
    last (calls (get_simple_response ai_client model messages user_id
                   after.1.1 after.1.2 now').1.2) in
  let global := {| role := "system"; content := GLOBAL_SYSTEM_PROMPT |} in
  let i := settings_instruction_process len instruction user_id db cache t in
  let s := settings_temperature_process float temp_str user_id db cache t in
  match i.2 with
  | InstructionUpdated text =>
      text = instruction ∧ (len instruction ≤ 1000)%nat
      ∧ ∃ rq, sent i = Some rq
          ∧ rq_temperature rq = default DEFAULT_TEMPERATURE (user_temperature user)
          ∧ rq_messages rq
            = global
              :: (if bool_decide (instruction ≠ "")
                  then [{| role := "system";
                           content := "Дополнительная инструкция от пользователя: "
                                      +:+ instruction |}]
                  else [])
              ++ messages
  | InstructionDeleted =>
      instruction = "-"
      ∧ ∃ rq, sent i = Some rq ∧ rq_messages rq = global :: messages
  | _ => (1000 < len instruction)%nat ∧ i.1 = (db, cache)
  end
  ∧ match s.2 with
    | TemperatureSet temperature =>
        float temp_str = Some temperature ∧ 0 ≤ temperature ≤ 2000
        ∧ ∃ rq, sent s = Some rq ∧ rq_temperature rq = temperature
    | TemperatureReset =>
        temp_str = "-"
        ∧ ∃ rq, sent s = Some rq ∧ rq_temperature rq = DEFAULT_TEMPERATURE
    | _ => s.1 = (db, cache)
    end.
Proof.
  intros Huser Hle sent global i s.
  assert (∀ set_row db' r,
            db' = update_user set_row db user_id →
            sent (db', invalidate_user_cache user_id cache (mono t), r)
            = Some (final_request model messages (Some (set_row user)))) as Hsent.
  { intros set_row db' r ->. subst sent. cbn [fst snd].
    rewrite get_simple_response_sent, invalidate_user_cache_read by done.
    change (get_user_details ?d ?u) with (get_user d u).
    by rewrite get_user_update_user, Huser. }
  split.
  - subst i. unfold settings_instruction_process.
    case_bool_decide as Hlen; cbn [fst snd]; [done|].
    case_bool_decide as Hminus; cbn [fst snd].
    + split; [done|]. eexists. split; [by apply Hsent|]. done.
    + split; [done|]. split; [lia|]. eexists. split; [by apply Hsent|].
      split; [done|]. unfold final_request.
      cbn [rq_messages user_instruction truthy].
      by case_bool_decide.
  - subst s. unfold settings_temperature_process.
    case_bool_decide as Hminus; cbn [fst snd].
    + split; [done|]. eexists. split; [by apply Hsent|]. done.
    + destruct (float temp_str) as [temperature|]; [|done].
      case_bool_decide; cbn [fst snd]; [|done].
      split; [done|]. split; [done|]. eexists. split; [by apply Hsent|]. done.
Qed.

Lemma settings_take_effect_witness :
  let i :=
    settings_instruction_process String.length "Answer in one word." 8 USERS_DB
      ((get_user_details_cached 8 USERS_DB GLOBAL_CACHE 0).2) NOON in
  let r :=
    get_simple_response HEALTHY_CLIENT "gpt-4.1"
      [{| role := "user"; content := "2+2?" |}] 8 i.1.1 i.1.2 0 in
  i.2 = InstructionUpdated "Answer in one word."
  ∧ rq_messages <$> last (calls r.1.2)
    = Some [{| role := "system"; content := GLOBAL_SYSTEM_PROMPT |};
            {| role := "system";
               content := "Дополнительная инструкция от пользователя: "
                          +:+ "Answer in one word." |};
            {| role := "user"; content := "2+2?" |}].
Proof.
  cbv zeta. split; [by vm_compute|].
  destruct (settings_take_effect String.length (λ _, None)
              "Answer in one word." "-" 8 USERS_DB
              ((get_user_details_cached 8 USERS_DB GLOBAL_CACHE 0).2) NOON
              FREE_USER HEALTHY_CLIENT "gpt-4.1"
              [{| role := "user"; content := "2+2?" |}] 0)
    as [Hinstruction _]; [reflexivity|simpl; lia|].
  by vm_compute.
Defined.

(** ** The image trigger in groups *)

Section group_image_facts.
Context `{PyLib} (ADMIN_IDS : list Z).

Lemma set_model_failed_registry model_name cache c now :
  model_status cache = Some c →
  ∃ c', model_status (set_model_failed_in_cache model_name cache now) = Some c'
    ∧ TTL.ttl c' = TTL.ttl c.
Proof.
  intros Hc. unfold set_model_failed_in_cache. rewrite Hc.
  case_bool_decide; by eexists.
Qed.

(** Marked once or twice at the same reading, the model is unavailable. *)
Lemma marked_unavailable model_name cache c now :
  model_status cache = Some c → 0 < TTL.ttl c →
  is_model_available model_name
    (set_model_failed_in_cache model_name cache now) now = false
  ∧ is_model_available model_name
      (set_model_failed_in_cache model_name
         (set_model_failed_in_cache model_name cache now) now) now = false.
Proof.
  intros Hc Httl. split; [by apply (mark_failed_unavailable _ _ c)|].
  destruct (set_model_failed_registry model_name cache c now Hc) as (c' & Hc' & Hsame).
  apply (mark_failed_unavailable _ _ c'); [done|lia].
Qed.

Lemma get_user_level_limits_requests user_id db now_utc now_utc' :
  requests (get_user_limits ADMIN_IDS user_id
              (get_user_level ADMIN_IDS user_id db now_utc).2 now_utc').2
  = requests db.
Proof. by rewrite get_user_limits_requests, get_user_level_requests. Qed.
End group_image_facts.

(** X25.  The image trigger in groups.  A message with an empty prompt, of a
    user who has no row, has not passed the captcha or is blocked, or of a
    user below level 2 is passed over in silence.  At most one generation
    request is sent, for the user's last image model or the default one.
    Usage is recorded exactly when the endpoint answered 200 with the URL of
    an image.  The model is left alone when the image was also delivered;
    in every other case after the request was sent it is marked failed,
    also when the image was generated and recorded but Telegram refused the
    deletion of the waiting message or the photo. *)
Theorem group_image_gate `{PyLib} (ADMIN_IDS : list Z) (prompt : string)
    (user_id : Z) (db : Database) (cache : Cache) (outcome : post_outcome)
    (tg : telegram) (t0 t1 : clock) :
  let g :=
    handle_group_image_trigger ADMIN_IDS prompt user_id db cache outcome tg t0 t1 in
  let details := (get_user_details_cached user_id db cache (mono t0)).1 in
  let level := (get_user_level ADMIN_IDS user_id db (utc t0)).1 in
  let model_of (d : user_row) :=
    if truthy (last_used_image_model d)
    then default DEFAULT_IMAGE_MODEL (last_used_image_model d)
    else DEFAULT_IMAGE_MODEL in
  let generated :=
    match outcome with
    | Response status (Ok _) _ => bool_decide (status = 200)
    | _ => false
    end in
  let delivered := generated && delete_ok tg && photo_ok tg in
  (prompt = "" ∨ details = None
   ∨ (∃ d, details = Some d ∧ (is_verified d = false ∨ is_blocked d = true))
   ∨ level < 2 →
   i_sent g = [] ∧ i_posts g = [] ∧ i_raised g = None)
  ∧ (i_posts g = [] →
     requests (i_db g) = requests db ∧ model_status (i_cache g) = model_status cache)
  ∧ (i_posts g ≠ [] →
     (∃ d, details = Some d ∧ is_verified d = true ∧ is_blocked d = false
        ∧ 2 ≤ level ∧ i_posts g = [(model_of d, prompt)]
        ∧ (requests (i_db g) = requests db ∧ generated = false
           ∨ requests (i_db g)
             = requests db ++ [{| req_user_id := user_id; req_model := model_of d;
                                  request_date := msk_date (utc t1);
                                  is_max_mode := false |}]
             ∧ generated = true)
        ∧ (delivered = true → model_status (i_cache g) = model_status cache)
        ∧ (delivered = false →
           ∀ c, model_status cache = Some c → 0 < TTL.ttl c →
             is_model_available (model_of d) (i_cache g) (mono t1) = false))).
Proof.
  intros g details level model_of generated delivered.
  subst g details level delivered. unfold handle_group_image_trigger.
  case_bool_decide as Hprompt; [cbn; by eauto 10|].
  pose proof (get_user_details_cached_registry user_id db cache (mono t0)) as Hreg0.
  destruct (get_user_details_cached user_id db cache (mono t0)) as [details cache1].
  cbn [fst snd] in Hreg0 |- *.
  destruct details as [d|]; [|cbn; by eauto 10].
  destruct (is_verified d) eqn:Hverified; cbn [negb]; [|cbn; by eauto 10].
  destruct (is_blocked d) eqn:Hblocked; [cbn; by eauto 10|].
  pose proof (get_user_level_requests ADMIN_IDS user_id db (utc t0)) as Hreq1.
  pose proof (get_user_level_limits_requests ADMIN_IDS user_id db (utc t0) (utc t0))
    as Hreq2.
  destruct (get_user_level ADMIN_IDS user_id db (utc t0)) as [level db1].
  cbn [fst snd] in Hreq1, Hreq2 |- *.
  case_bool_decide as Hlevel; [cbn; by eauto 10|].
  assert (¬ (prompt = "" ∨ Some d = None
             ∨ (∃ d', Some d = Some d'
                  ∧ (is_verified d' = false ∨ is_blocked d' = true))
             ∨ level < 2)) as Hserved.
  { intros [?|[?|[(d' & [= <-] & [?|?])|?]]]; congruence || lia. }
  destruct (get_user_limits ADMIN_IDS user_id db1 (utc t0))
    as [[daily_limit max_limit] db2].
  cbn [fst snd] in Hreq2 |- *.
  destruct (reached _ daily_limit).
  { cbn [i_sent i_posts i_raised i_db i_cache].
    split_and!; [by intros ?%Hserved|done|done]. }
  fold (model_of d).
  destruct (negb (is_model_available _ _ _)).
  { cbn [i_sent i_posts i_raised i_db i_cache].
    split_and!; [by intros ?%Hserved|done|done]. }
  destruct (waiting_ok tg); cbn [negb].
  2:{ cbn [i_sent i_posts i_raised i_db i_cache].
      split_and!; [by intros ?%Hserved|done|done]. }
  assert (∀ cache', model_status cache' = model_status cache →
            ∀ c, model_status cache = Some c → 0 < TTL.ttl c →
              is_model_available (model_of d)
                (set_model_failed_in_cache (model_of d) cache' (mono t1)) (mono t1)
              = false
              ∧ is_model_available (model_of d)
                  (set_model_failed_in_cache (model_of d)
                     (set_model_failed_in_cache (model_of d) cache' (mono t1))
                     (mono t1)) (mono t1) = false) as Hmarked.
  { intros cache' Hreg c Hc Httl. apply (marked_unavailable _ _ c); [|done].
    by rewrite Hreg. }
  specialize (Hmarked cache1 Hreg0).
  destruct outcome as [status [image_url|e] text|e]; subst generated.
  - case_bool_decide as Hstatus.
    + destruct (delete_ok tg); cbn [negb andb].
      * destruct (photo_ok tg); cbn [negb andb i_sent i_posts i_raised i_db i_cache
                                      requests add_request]; rewrite Hreq2.
        -- split_and!; [by intros ?%Hserved|done|].
           intros _. exists d. split_and!; try done; [lia|by right].
        -- split_and!; [by intros ?%Hserved|done|].
           intros _. exists d. split_and!; try done; [lia|by right|].
           intros _ c Hc Httl. by apply (Hmarked c).
      * cbn [i_sent i_posts i_raised i_db i_cache requests add_request].
        rewrite Hreq2. split_and!; [by intros ?%Hserved|done|].
        intros _. exists d. split_and!; try done; [lia|by right|].
        intros _ c Hc Httl. by apply (Hmarked c).
    + cbn [andb]. destruct text as [error_text|e];
        [destruct (refusal_ok tg); cbn [negb]|];
        cbn [i_sent i_posts i_raised i_db i_cache]; rewrite Hreq2.
      all: split_and!; [by intros ?%Hserved|done|].
      all: intros _; exists d; split_and!; try done; [lia|by left|].
      all: intros _ c Hc Httl; by apply (Hmarked c).
  - cbn [andb].
    case_bool_decide as Hstatus;
      [|destruct text as [error_text|e']; [destruct (refusal_ok tg); cbn [negb]|]];
      cbn [i_sent i_posts i_raised i_db i_cache]; rewrite Hreq2.
    all: split_and!; [by intros ?%Hserved|done|].
    all: intros _; exists d; split_and!; try done; [lia|by left|].
    all: intros _ c Hc Httl; by apply (Hmarked c).
  - cbn [andb i_sent i_posts i_raised i_db i_cache]. rewrite Hreq2.
    split_and!; [by intros ?%Hserved|done|].
    intros _. exists d. split_and!; try done; [lia|by left|].
    intros _ c Hc Httl. by apply (Hmarked c).
Qed.

Lemma group_image_gate_witness :
  let premium :=
    {| users := {[ 9 := {| username := Some "carol"; subscription_level := 2;
                           subscription_end := Some "2025-06-01T21:00:00+00:00";
                           is_blocked := false; last_used_model := None;
                           is_verified := true; has_rewarded_bonus := false;
                           last_used_image_model := Some "flux-1.1-pro";
                           user_instruction := None; user_temperature := None |} ]};
       requests := []; system_state := ∅ |} in
  let refused_photo :=
    {| reply_ok := true; waiting_ok := true; delete_ok := true; photo_ok := false;
       refusal_ok := true; critical_ok := true |} in
  let free :=
    @handle_group_image_trigger sample_lib SAMPLE_ADMINS "a cat" 8 USERS_DB
      GLOBAL_CACHE (Response 200 (Ok "https://img/1.png") (Ok "")) refused_photo
      NOON NOON in
  let g :=
    @handle_group_image_trigger sample_lib SAMPLE_ADMINS "a cat" 9 premium
      GLOBAL_CACHE (Response 200 (Ok "https://img/1.png") (Ok "")) refused_photo
      NOON NOON in
  (i_sent free = [] ∧ i_posts free = [] ∧ i_raised free = None)
  ∧ i_posts g = [("flux-1.1-pro", "a cat")]
  ∧ length (requests (i_db g)) = 1%nat
  ∧ is_model_available "flux-1.1-pro" (i_cache g) (mono NOON) = false.
Proof.
  cbv zeta. split; [|by vm_compute].
  apply (@group_image_gate sample_lib SAMPLE_ADMINS "a cat" 8 USERS_DB GLOBAL_CACHE
           (Response 200 (Ok "https://img/1.png") (Ok ""))
           {| reply_ok := true; waiting_ok := true; delete_ok := true;
              photo_ok := false; refusal_ok := true; critical_ok := true |}
           NOON NOON).
  right. right. right. by vm_compute.
Defined.
